(** * Agent Passport middleware (FastAPI): a shallow embedding

    The development follows the four modules of
    [middleware/fastapi/src/agent_passport_middleware]:

    - [policy_enforcement_v2.py]  (module [PolicyEnforcementV2])
    - [middleware_simple.py]      (module [MiddlewareSimple])
    - [middleware_v2.py]          (module [MiddlewareV2])
    - [middleware_v3.py]          (module [MiddlewareV3])

    Python values that come out of JSON are values of [json]; Python's
    exceptions are values of [exn]; an [async def] is a computation in
    the monad [M], which threads the process-wide verification cache,
    the number of clock readings taken so far and the trace of the
    external effects performed (HTTP calls, SDK calls, the downstream
    handler, log lines).  Whatever the code obtains from outside the
    repository's sources (the network, the clock, the [agent_passport]
    SDK, the downstream handler) is an oracle: a field of [Env] or
    [SDK], or the argument [call_next]. *)

From Stdlib Require Import ZArith String Ascii List Bool Lia.
From stdpp Require Import base option list gmap strings pretty.

Set Warnings "-register-all".

Open Scope string_scope.
Open Scope Z_scope.
Open Scope list_scope.

(* ===================================================================== *)
(** ** Python values *)
(* ===================================================================== *)

(** A value decoded from JSON.  Numbers are the integers (floating point
    numbers are not modelled).  An object is the list of its bindings in
    insertion order, one binding per key. *)
Inductive json : Type :=
| JNull
| JBool (b : bool)
| JNum (n : Z)
| JStr (s : string)
| JArr (items : list json)
| JObj (fields : list (string * json)).

(** Python's truth value testing ([bool(v)]). *)
Definition truthy (v : json) : bool :=
  match v with
  | JNull => false
  | JBool b => b
  | JNum n => negb (n =? 0)
  | JStr s => negb (String.eqb s "")
  | JArr items => match items with [] => false | _ => true end
  | JObj fields => match fields with [] => false | _ => true end
  end.

(** [type(v).__name__]. *)
Definition type_name (v : json) : string :=
  match v with
  | JNull => "NoneType"
  | JBool _ => "bool"
  | JNum _ => "int"
  | JStr _ => "str"
  | JArr _ => "list"
  | JObj _ => "dict"
  end.

(** Lookup in a dict: the first binding of the key. *)
Fixpoint assoc {A : Type} (k : string) (d : list (string * A)) : option A :=
  match d with
  | [] => None
  | (k', v) :: rest => if String.eqb k k' then Some v else assoc k rest
  end.

(** [d.get(k, default)] on a dict. *)
Definition dict_get {A : Type} (d : list (string * A)) (k : string) (default : A) : A :=
  match assoc k d with
  | Some v => v
  | None => default
  end.

(** [d.values()]. *)
Definition dict_values {A : Type} (d : list (string * A)) : list A := map snd d.

(** [d[k] = v]: the value of an existing key is replaced in place, a new
    key is appended. *)
Fixpoint dict_set {A : Type} (k : string) (v : A) (d : list (string * A))
  : list (string * A) :=
  match d with
  | [] => [(k, v)]
  | (k', v') :: rest =>
      if String.eqb k k' then (k, v) :: rest else (k', v') :: dict_set k v rest
  end.

(** [d.update(items)]. *)
Definition dict_update {A : Type} (d items : list (string * A)) : list (string * A) :=
  fold_left (fun acc kv => dict_set (fst kv) (snd kv) acc) items d.

(** [all(vs)] on a list of values. *)
Definition py_all (vs : list json) : bool := forallb truthy vs.

(** [s[n:]]. *)
Fixpoint string_drop (n : nat) (s : string) : string :=
  match n, s with
  | O, _ => s
  | S n', String _ s' => string_drop n' s'
  | S _, EmptyString => EmptyString
  end.

(** [needle in haystack] on strings. *)
Fixpoint contains (needle haystack : string) : bool :=
  if String.prefix needle haystack then true
  else match haystack with
       | EmptyString => false
       | String _ rest => contains needle rest
       end.

(** [x or y] where [x] is an optional string ([None] and [""] are falsy). *)
Definition str_truthy (x : option string) : bool :=
  match x with
  | Some s => negb (String.eqb s "")
  | None => false
  end.

Definition or_else (x y : option string) : option string :=
  if str_truthy x then x else y.

(* ===================================================================== *)
(** ** Exceptions *)
(* ===================================================================== *)

(** The exceptions the code distinguishes.  All three are subclasses of
    [Exception]: [fastapi.HTTPException], the SDK's [AgentPassportError]
    (with the attributes the handlers read, and [text] for [str(e)]),
    and every other exception, with its class name and [str(e)]. *)
Inductive exn : Type :=
| HTTPException (status_code : Z) (detail : json)
| AgentPassportError (text : string) (status_code : option Z)
                     (code message agent_id : json)
| PyError (kind : string) (text : string).

Definition is_HTTPException (e : exn) : bool :=
  match e with HTTPException _ _ => true | _ => false end.

Definition is_AgentPassportError (e : exn) : bool :=
  match e with AgentPassportError _ _ _ _ _ => true | _ => false end.

Inductive result (A : Type) : Type :=
| Ok (a : A)
| Raise (e : exn).
Arguments Ok {A} a.
Arguments Raise {A} e.

Definition AttributeError (v : json) (attr : string) : exn :=
  PyError "AttributeError"
          ("'" +:+ type_name v +:+ "' object has no attribute '" +:+ attr +:+ "'").

Definition KeyError (k : string) : exn := PyError "KeyError" ("'" +:+ k +:+ "'").

(** [v.get(k, default)] on an arbitrary value: only a dict has [get]. *)
Definition py_get (v : json) (k : string) (default : json) : result json :=
  match v with
  | JObj fields => Ok (dict_get fields k default)
  | _ => Raise (AttributeError v "get")
  end.

(** [d[k]] on a dict. *)
Definition subscript (d : list (string * json)) (k : string) : result json :=
  match assoc k d with
  | Some v => Ok v
  | None => Raise (KeyError k)
  end.

(* ===================================================================== *)
(** ** Requests, responses and the world *)
(* ===================================================================== *)

(** An object of the SDK, seen through its attributes ([obj.__dict__]). *)
Definition AgentPassport : Type := list (string * json).

Record PolicyPack : Type := {
  pp_id : json;
  pp_name : json;
  pp_requires_capabilities : json;
  pp_min_assurance : json;
  pp_limits_required : json;
  pp_enforcement : json
}.

Record PassportData : Type := {
  pd_agent_id : json;
  pd_name : json;
  pd_status : json;
  pd_capabilities : json;
  pd_limits : json;
  pd_regions : json;
  pd_assurance_level : json;
  pd_assurance_method : json;
  pd_assurance_verified_at : json
}.

Record PolicyResult : Type := {
  passport : PassportData;
  policy : PolicyPack;
  checks : list (string * json)
}.

(** [types.PolicyResult] as [middleware_v3] builds it. *)
Record MiddlewarePolicyResult : Type := {
  mpr_allowed : bool;
  mpr_evaluation : json;
  mpr_error : json
}.

(** [request.state]: the attributes the four modules read or set.  The
    attribute [policy_result] holds a [PolicyResult] when
    [policy_enforcement_v2] sets it and a [MiddlewarePolicyResult] when
    [middleware_v3] does; each class has a field of its own here. *)
Record State : Type := {
  st_agent : option AgentPassport;
  st_policy_id : option string;
  st_policy_context : option json;
  st_policy_result : option PolicyResult;
  st_policy_result_v3 : option MiddlewarePolicyResult
}.

Definition empty_state : State :=
  {| st_agent := None; st_policy_id := None; st_policy_context := None;
     st_policy_result := None; st_policy_result_v3 := None |}.

(** A request.  Header names are lower case, as the server delivers
    them; [req_cached_json] is the attribute [_json] when it is set;
    [req_json] is what parsing the body as JSON gives (or raises). *)
Record Request : Type := {
  req_method : string;
  req_path : string;
  req_headers : list (string * string);
  req_cached_json : option json;
  req_json : result json;
  req_state : State
}.

Definition header (req : Request) (name : string) : option string :=
  assoc name (req_headers req).

Definition set_agent (req : Request) (a : AgentPassport) : Request :=
  {| req_method := req_method req; req_path := req_path req;
     req_headers := req_headers req; req_cached_json := req_cached_json req;
     req_json := req_json req;
     req_state :=
       {| st_agent := Some a;
          st_policy_id := st_policy_id (req_state req);
          st_policy_context := st_policy_context (req_state req);
          st_policy_result := st_policy_result (req_state req);
          st_policy_result_v3 := st_policy_result_v3 (req_state req) |} |}.

Definition set_policy_result (req : Request) (r : PolicyResult) : Request :=
  {| req_method := req_method req; req_path := req_path req;
     req_headers := req_headers req; req_cached_json := req_cached_json req;
     req_json := req_json req;
     req_state :=
       {| st_agent := st_agent (req_state req);
          st_policy_id := st_policy_id (req_state req);
          st_policy_context := st_policy_context (req_state req);
          st_policy_result := Some r;
          st_policy_result_v3 := st_policy_result_v3 (req_state req) |} |}.

Definition set_policy_result_v3 (req : Request) (r : MiddlewarePolicyResult) : Request :=
  {| req_method := req_method req; req_path := req_path req;
     req_headers := req_headers req; req_cached_json := req_cached_json req;
     req_json := req_json req;
     req_state :=
       {| st_agent := st_agent (req_state req);
          st_policy_id := st_policy_id (req_state req);
          st_policy_context := st_policy_context (req_state req);
          st_policy_result := st_policy_result (req_state req);
          st_policy_result_v3 := Some r |} |}.

(** [request.state.policy_id = policy_id]. *)
Definition set_policy_id (req : Request) (policy_id : string) : Request :=
  {| req_method := req_method req; req_path := req_path req;
     req_headers := req_headers req; req_cached_json := req_cached_json req;
     req_json := req_json req;
     req_state :=
       {| st_agent := st_agent (req_state req);
          st_policy_id := Some policy_id;
          st_policy_context := st_policy_context (req_state req);
          st_policy_result := st_policy_result (req_state req);
          st_policy_result_v3 := st_policy_result_v3 (req_state req) |} |}.

(** [request.state.policy_context = context]. *)
Definition set_policy_context (req : Request) (context : json) : Request :=
  {| req_method := req_method req; req_path := req_path req;
     req_headers := req_headers req; req_cached_json := req_cached_json req;
     req_json := req_json req;
     req_state :=
       {| st_agent := st_agent (req_state req);
          st_policy_id := st_policy_id (req_state req);
          st_policy_context := Some context;
          st_policy_result := st_policy_result (req_state req);
          st_policy_result_v3 := st_policy_result_v3 (req_state req) |} |}.

(** A response: a [JSONResponse(status_code, content)], or whatever the
    downstream handler answers. *)
Record Response : Type := JSONResponse {
  resp_status : Z;
  resp_content : json
}.

Inductive log_level : Type := LogWarning | LogError.

Inductive dimension : Type := Capability | Assurance | Mcp | Region | Limits.

(** The external effects a computation performs, in the order it
    performs them. *)
Inductive event : Type :=
| EvPost (url : string) (body : json)
| EvGet (url : string)
| EvVerifyPassport (agent_id : string)
| EvHasPolicyAccess (agent_id policy_id : string) (context : json)
| EvGetPolicy (policy_id : string)
| EvVerifyPolicy (agent_id policy_id : string) (context : json)
| EvCheck (d : dimension)
| EvCallNext (req : Request)
| EvLog (level : log_level) (msg : string)
| EvPrint (msg : string).

(** Does the event reach the directory service? *)
Definition contacts_directory (ev : event) : bool :=
  match ev with
  | EvPost _ _ | EvGet _ | EvVerifyPassport _
  | EvHasPolicyAccess _ _ _ | EvGetPolicy _ | EvVerifyPolicy _ _ _ => true
  | _ => false
  end.

(** An entry of [_verification_cache].  Timestamps are in microseconds
    (the resolution of [datetime.now()]); the rounding of the floating
    point [timestamp()] is not modelled. *)
Record cache_entry : Type := {
  ce_result : json;
  ce_expires : Z
}.

Record World : Type := {
  w_cache : gmap string cache_entry;
  w_reads : nat;
  w_trace : list event
}.

Definition initial_world : World :=
  {| w_cache := ∅; w_reads := 0%nat; w_trace := [] |}.

(* ===================================================================== *)
(** ** The monad of coroutines *)
(* ===================================================================== *)

Definition M (A : Type) : Type := World -> result A * World.

Definition ret {A : Type} (a : A) : M A := fun w => (Ok a, w).

Definition bind {A B : Type} (m : M A) (k : A -> M B) : M B :=
  fun w =>
    match m w with
    | (Ok a, w') => k a w'
    | (Raise e, w') => (Raise e, w')
    end.

Definition raise {A : Type} (e : exn) : M A := fun w => (Raise e, w).

Definition lift {A : Type} (r : result A) : M A := fun w => (r, w).

(** [try: m  except Exception as e: h e]. *)
Definition try_except {A : Type} (m : M A) (h : exn -> M A) : M A :=
  fun w =>
    match m w with
    | (Ok a, w') => (Ok a, w')
    | (Raise e, w') => h e w'
    end.

Definition emit (ev : event) : M unit :=
  fun w => (Ok tt, {| w_cache := w_cache w; w_reads := w_reads w;
                      w_trace := w_trace w ++ [ev] |}).

Definition cache_lookup (k : string) : M (option cache_entry) :=
  fun w => (Ok (w_cache w !! k), w).

Definition cache_store (k : string) (e : cache_entry) : M unit :=
  fun w => (Ok tt, {| w_cache := <[k := e]> (w_cache w); w_reads := w_reads w;
                      w_trace := w_trace w |}).

Declare Scope coroutine_scope.
Delimit Scope coroutine_scope with coroutine.
Notation "x <- m ;; k" := (bind m (fun x => k))
  (at level 100, m at next level, right associativity) : coroutine_scope.
Notation "m ;; k" := (bind m (fun _ => k))
  (at level 100, right associativity) : coroutine_scope.
Open Scope coroutine_scope.

(** [await call_next(request)]. *)
Definition await_call_next (call_next : Request -> result Response)
           (req : Request) : M Response :=
  emit (EvCallNext req) ;; lift (call_next req).

Definition log (level : log_level) (msg : string) : M unit := emit (EvLog level msg).

(** [str(v)] for the values the code formats; the text of a container
    is Python's [repr], an oracle. *)
Definition py_str (repr : json -> string) (v : json) : string :=
  match v with
  | JNull => "None"
  | JBool true => "True"
  | JBool false => "False"
  | JNum n => pretty n
  | JStr s => s
  | _ => repr v
  end.

(** [str(e)]. *)
Definition exn_text (repr : json -> string) (e : exn) : string :=
  match e with
  | HTTPException status_code detail =>
      pretty status_code +:+ ": " +:+ py_str repr detail
  | AgentPassportError text _ _ _ _ => text
  | PyError _ text => text
  end.

(** What an [httpx] call gives back: the status, the body as text and
    what [response.json()] makes of it. *)
Record HttpReply : Type := {
  reply_status : Z;
  reply_text : string;
  reply_json : result json
}.

(** The world outside the process: the clock, the network and the
    Python runtime. *)
Record Env : Type := {
  clock : nat -> Z;                 (* the k-th reading of the clock, in microseconds *)
  isoformat : Z -> string;          (* [datetime.isoformat] *)
  http_post : string -> json -> result HttpReply;
  http_get : string -> result HttpReply;
  repr : json -> string             (* Python's [repr] on containers *)
}.

(** [datetime.now().timestamp()]. *)
Definition now_timestamp (E : Env) : M Z :=
  fun w => (Ok (clock E (w_reads w)),
            {| w_cache := w_cache w; w_reads := S (w_reads w);
               w_trace := w_trace w |}).

(** [await client.post(url, json=body, ...)]. *)
Definition client_post (E : Env) (url : string) (body : json) : M HttpReply :=
  emit (EvPost url body) ;; lift (http_post E url body).

(** [await client.get(url)]. *)
Definition client_get (E : Env) (url : string) : M HttpReply :=
  emit (EvGet url) ;; lift (http_get E url).

(* ===================================================================== *)
(** ** policy_enforcement_v2.py *)
(* ===================================================================== *)

Module PolicyEnforcementV2.

Record PolicyEnforcementConfig : Type := {
  api_base_url : string;
  cache_ttl : Z;                    (* seconds *)
  fail_closed : bool;
  enabled : bool;
  strict_mode : bool;
  log_violations : bool
}.

Definition default_config : PolicyEnforcementConfig :=
  {| api_base_url := "https://api.aport.io"; cache_ttl := 60;
     fail_closed := true; enabled := true; strict_mode := true;
     log_violations := true |}.

(** [PolicyPack(data)]. *)
Definition make_PolicyPack (data : json) : result PolicyPack :=
  match data with
  | JObj d =>
      Ok {| pp_id := dict_get d "id" JNull;
            pp_name := dict_get d "name" JNull;
            pp_requires_capabilities := dict_get d "requires_capabilities" (JArr []);
            pp_min_assurance := dict_get d "min_assurance" JNull;
            pp_limits_required := dict_get d "limits_required" (JArr []);
            pp_enforcement := dict_get d "enforcement" (JObj []) |}
  | _ => Raise (AttributeError data "get")
  end.

(** [f"policy:{policy_id}:{agent_id}"]. *)
Definition cache_key (policy_id agent_id : string) : string :=
  "policy:" +:+ policy_id +:+ ":" +:+ agent_id.

Section WithEnv.
Context (E : Env).

Definition fetch_policy_pack (policy_id : string) (config : PolicyEnforcementConfig)
  : M (option PolicyPack) :=
  try_except
    (response <- client_get E (api_base_url config +:+ "/api/policies/" +:+ policy_id) ;;
     if reply_status response =? 200 then
       data <- lift (reply_json response) ;;
       pack <- lift (make_PolicyPack data) ;;
       ret (Some pack)
     else ret None)
    (fun e =>
       log LogError ("Error fetching policy pack " +:+ policy_id +:+ ": " +:+ exn_text (repr E) e) ;;
       ret None).

Definition verify_policy_compliance (agent_id policy_id : string) (context : json)
           (config : PolicyEnforcementConfig) : M (option json) :=
  let key := cache_key policy_id agent_id in
  cached <- cache_lookup key ;;
  fresh <- match cached with
           | Some c => now <- now_timestamp E ;; ret (now <? ce_expires c)
           | None => ret false
           end ;;
  match cached, fresh with
  | Some c, true => ret (Some (ce_result c))
  | _, _ =>
    try_except
      (response <- client_post E
                     (api_base_url config +:+ "/api/verify/policy/" +:+ policy_id)
                     (JObj [("agent_id", JStr agent_id);
                            ("context", if truthy context then context else JObj [])]) ;;
       if reply_status response =? 200 then
         result <- lift (reply_json response) ;;
         allow <- lift (py_get result "allow" JNull) ;;
         (if truthy allow then
            now <- now_timestamp E ;;
            cache_store key {| ce_result := result;
                               ce_expires := now + cache_ttl config * 1000000 |}
          else ret tt) ;;
         ret (Some result)
       else
         log LogError ("Policy verification failed: " +:+ pretty (reply_status response)
                       +:+ " " +:+ reply_text response) ;;
         ret None)
      (fun e =>
         log LogError ("Error verifying policy compliance: " +:+ exn_text (repr E) e) ;;
         ret None)
  end.

Definition convert_policy_response (response : json) (policy : PolicyPack)
  : M PolicyResult :=
  passport_data <- lift (py_get response "passport" (JObj [])) ;;
  evaluation <- lift (py_get passport_data "evaluation" (JObj [])) ;;
  agent_id <- lift (py_get passport_data "agent_id" JNull) ;;
  name <- lift (py_get passport_data "agent_id" JNull) ;;
  status <- lift (py_get passport_data "status" JNull) ;;
  capabilities <- lift (py_get passport_data "capabilities" (JArr [])) ;;
  limits <- lift (py_get passport_data "limits" (JObj [])) ;;
  regions <- lift (py_get passport_data "regions" (JArr [])) ;;
  assurance_level <- lift (py_get passport_data "assurance_level" JNull) ;;
  now <- now_timestamp E ;;
  capability_ok <- lift (py_get evaluation "capability_ok" (JBool false)) ;;
  assurance_ok <- lift (py_get evaluation "assurance_ok" (JBool false)) ;;
  limits_ok <- lift (py_get evaluation "limits_ok" (JBool false)) ;;
  regions_ok <- lift (py_get evaluation "regions_ok" (JBool false)) ;;
  ret {| passport :=
           {| pd_agent_id := agent_id;
              pd_name := name;
              pd_status := status;
              pd_capabilities := capabilities;
              pd_limits := limits;
              pd_regions := regions;
              pd_assurance_level := assurance_level;
              pd_assurance_method := JStr "api_verification";
              pd_assurance_verified_at := JStr (isoformat E now) |};
         policy := policy;
         checks := [("capability", capability_ok);
                    ("assurance", assurance_ok);
                    ("limits", limits_ok);
                    ("regions", regions_ok)] |}.

(** [getattr(request.state, 'policy_id', None) or
    request.headers.get("x-policy-id")]. *)
Definition request_policy_id (request : Request) : option string :=
  or_else (st_policy_id (req_state request)) (header request "x-policy-id").

(** [# Get context from request state or body]. *)
Definition request_context (request : Request) : json :=
  match st_policy_context (req_state request) with
  | Some JNull | None =>
      match req_json request with
      | Ok body => body
      | Raise _ => JObj []
      end
  | Some context => context
  end.

(** The branch [if not policy_response:] of [middleware], taken when
    the verification gave [None] or a falsy value. *)
Definition verification_failed (config : PolicyEnforcementConfig)
           (request : Request) (call_next : Request -> result Response) : M Response :=
  if fail_closed config then
    raise (HTTPException 500
             (JObj [("error", JStr "policy_verification_failed");
                    ("message", JStr "Failed to verify policy compliance")]))
  else
    log LogWarning "Policy verification failed, allowing request to proceed" ;;
    await_call_next call_next request.

(** The coroutine [middleware] that [create_agent_passport_middleware
    (agent_id, config)] returns. *)
Definition middleware (agent_id : string) (config : PolicyEnforcementConfig)
           (request : Request) (call_next : Request -> result Response) : M Response :=
  if negb (enabled config) then await_call_next call_next request else
  match request_policy_id request with
  | None | Some "" =>
      raise (HTTPException 400
               (JObj [("error", JStr "policy_id_required");
                      ("message", JStr "Policy ID must be specified")]))
  | Some policy_id =>
    let context := request_context request in
    policy_response <- verify_policy_compliance agent_id policy_id context config ;;
    match policy_response with
    | Some policy_response =>
      if negb (truthy policy_response) then verification_failed config request call_next
      else
        allow <- lift (py_get policy_response "allow" JNull) ;;
        if negb (truthy allow) then
          (if log_violations config then
             reason <- lift (py_get policy_response "reason" JNull) ;;
             log LogWarning ("Policy violation for agent " +:+ agent_id +:+ ": "
                             +:+ py_str (repr E) reason)
           else ret tt) ;;
          if fail_closed config then
            reason <- lift (py_get policy_response "reason" (JStr "Policy violation")) ;;
            violations <- lift (py_get policy_response "violations" (JArr [])) ;;
            raise (HTTPException 403
                     (JObj [("error", JStr "policy_violation");
                            ("message", reason);
                            ("violations", violations);
                            ("agent_id", JStr agent_id);
                            ("policy_id", JStr policy_id)]))
          else
            log LogWarning "Policy violation detected, allowing request to proceed" ;;
            await_call_next call_next request
        else
          policy <- fetch_policy_pack policy_id config ;;
          match policy with
          | Some policy =>
              policy_result <- convert_policy_response policy_response policy ;;
              await_call_next call_next (set_policy_result request policy_result)
          | None => await_call_next call_next request
          end
    | None => verification_failed config request call_next
    end
  end.

(** [create_agent_passport_middleware(agent_id, config)]: a missing
    configuration is the default one. *)
Definition create_agent_passport_middleware (agent_id : string)
           (config : option PolicyEnforcementConfig)
  : Request -> (Request -> result Response) -> M Response :=
  middleware agent_id (match config with
                       | Some config => config
                       | None => default_config
                       end).

(** [await (lambda req: None)(request)]: the lambda returns [None], and
    [None] cannot be awaited. *)
Definition lambda_req_None (request : Request) : result Response :=
  Raise (PyError "TypeError" "object NoneType can't be used in 'await' expression").

(** The coroutine [dependency] of [require_policy(policy_id, agent_id,
    config)]. *)
Definition require_policy (policy_id agent_id : string)
           (config : option PolicyEnforcementConfig) (request : Request) : M Response :=
  let request := set_policy_id request policy_id in
  create_agent_passport_middleware agent_id config request lambda_req_None.

(** The coroutine [dependency] of [require_policy_with_context
    (policy_id, agent_id, context, config)]. *)
Definition require_policy_with_context (policy_id agent_id : string) (context : json)
           (config : option PolicyEnforcementConfig) (request : Request) : M Response :=
  let request := set_policy_id request policy_id in
  let request := set_policy_context request context in
  create_agent_passport_middleware agent_id config request lambda_req_None.

(** The coroutine [global_middleware] of [agent_passport_middleware
    (agent_id, config)]. *)
Definition agent_passport_middleware (agent_id : string)
           (config : option PolicyEnforcementConfig)
           (request : Request) (call_next : Request -> result Response) : M Response :=
  if match st_policy_id (req_state request) with Some _ => true | None => false end
     || str_truthy (header request "x-policy-id")
  then create_agent_passport_middleware agent_id config request call_next
  else await_call_next call_next request.

End WithEnv.

Definition get_policy_result (request : Request) : option PolicyResult :=
  st_policy_result (req_state request).

Definition has_policy_access (request : Request) : bool :=
  match get_policy_result request with
  | Some result => py_all (dict_values (checks result))
  | None => false
  end.

Definition get_agent_passport (request : Request) : option PassportData :=
  match get_policy_result request with
  | Some result => Some (passport result)
  | None => None
  end.

Definition get_policy (request : Request) : option PolicyPack :=
  match get_policy_result request with
  | Some result => Some (policy result)
  | None => None
  end.

End PolicyEnforcementV2.

(* ===================================================================== *)
(** ** The SDK ([agent_passport]) and the options ([.types]) *)
(* ===================================================================== *)

(** [AgentPassportMiddlewareOptions]: the fields the middleware reads. *)
Record AgentPassportMiddlewareOptions : Type := {
  fail_closed : bool;
  required_permissions : list string;
  allowed_regions : list string;
  skip_paths : list string;
  skip_methods : list string;
  policy_id : option string
}.

(** A verdict of an SDK evaluator: a dict. *)
Definition verdict : Type := list (string * json).

(** The functions imported from the [agent_passport] package and from
    [.validation].  Their sources are not part of the middleware; each is
    an oracle that returns a value or raises.  The enforcement
    configurations built in [__init__] are fixed, hence not arguments. *)
Record SDK : Type := {
  client_verify_agent_passport : string -> result AgentPassport;
  client_has_permission : AgentPassport -> string -> result bool;
  client_is_allowed_in_region : AgentPassport -> string -> result bool;
  check_capability_requirement : string -> list json -> result verdict;
  check_assurance_requirement : json -> string -> result verdict;
  check_mcp_requirement : list (string * string) -> AgentPassport -> result verdict;
  check_region_requirements : json -> list string -> result verdict;
  check_limits_for_operation : string -> json -> json -> result verdict;
  verify_agent_passport : string -> result AgentPassport;
  has_policy_access : string -> string -> json -> result bool;
  get_policy : string -> result json;
  verify_policy : string -> string -> json -> result json;
  get_policy_result : json -> result (option (list (string * json)));
  extract_agent_id_from_request : Request -> result (option string);
  validate_policy_call : option string -> string -> result (option string * string);
  validate_agent_id_present : option string -> Request -> result string
}.

(** [await] of an SDK call that reaches the directory, or of an evaluator. *)
Definition await_sdk {A : Type} (ev : event) (r : result A) : M A :=
  emit ev ;; lift r.

(** [obj.name] on an SDK object. *)
Definition getattr (obj : AgentPassport) (name : string) : result json :=
  match assoc name obj with
  | Some v => Ok v
  | None => Raise (PyError "AttributeError"
                     ("'AgentPassport' object has no attribute '" +:+ name +:+ "'"))
  end.

Fixpoint chars (s : string) : list json :=
  match s with
  | EmptyString => []
  | String c rest => JStr (String c EmptyString) :: chars rest
  end.

(** [for x in v]: the elements a [for] loop visits, or [TypeError]. *)
Definition py_iter (v : json) : result (list json) :=
  match v with
  | JArr items => Ok items
  | JObj fields => Ok (map (fun kv => JStr (fst kv)) fields)
  | JStr s => Ok (chars s)
  | _ => Raise (PyError "TypeError" ("'" +:+ type_name v +:+ "' object is not iterable"))
  end.

(** [all(f(x) for x in l)] and [any(f(x) for x in l)], which stop at the
    first [False] (resp. [True]) or at the first exception. *)
Fixpoint all_m {A : Type} (f : A -> result bool) (l : list A) : result bool :=
  match l with
  | [] => Ok true
  | x :: rest =>
      match f x with
      | Ok true => all_m f rest
      | Ok false => Ok false
      | Raise e => Raise e
      end
  end.

Fixpoint any_m {A : Type} (f : A -> result bool) (l : list A) : result bool :=
  match l with
  | [] => Ok false
  | x :: rest =>
      match f x with
      | Ok true => Ok true
      | Ok false => any_m f rest
      | Raise e => Raise e
      end
  end.

(** [auth_header[7:] if auth_header and auth_header.startswith('Bearer ')
    else None]. *)
Definition bearer_token (auth_header : option string) : option string :=
  match auth_header with
  | Some h => if str_truthy (Some h) && String.prefix "Bearer " h
              then Some (string_drop 7 h) else None
  | None => None
  end.

(** [e.status_code or 500]. *)
Definition status_or_500 (status_code : option Z) : Z :=
  match status_code with
  | Some 0 | None => 500
  | Some n => n
  end.

(** A block [if ...: return JSONResponse(...)] followed by the rest of
    the function. *)
Definition or_continue (step : M (option Response)) (rest : M Response) : M Response :=
  r <- step ;;
  match r with
  | Some response => ret response
  | None => rest
  end.

Definition strs (l : list string) : json := JArr (map JStr l).

(* ===================================================================== *)
(** ** middleware_simple.py *)
(* ===================================================================== *)

Module MiddlewareSimple.
Section WithOptions.
Context (E : Env) (S : SDK) (options : AgentPassportMiddlewareOptions).

Definition _should_skip_request (request : Request) : bool :=
  if existsb (String.eqb (req_method request)) (skip_methods options) then true
  else if existsb (fun path => String.prefix path (req_path request)) (skip_paths options)
  then true
  else false.

(** The body of the [try] block of [dispatch]. *)
Definition dispatch_body (request : Request) (call_next : Request -> result Response)
  : M Response :=
  if _should_skip_request request then await_call_next call_next request else
  let auth_header := header request "authorization" in
  let agent_id :=
    or_else (or_else (header request "x-agent-passport-id")
                     (header request "x-agent-id"))
            (bearer_token auth_header) in
  match agent_id with
  | None | Some "" =>
      if fail_closed options then
        ret (JSONResponse 400
               (JObj [("error", JStr "missing_agent_id");
                      ("message", JStr "X-Agent-Passport-Id header (preferred) or Authorization/X-Agent-ID header is required")]))
      else await_call_next call_next request
  | Some agent_id =>
      agent <- await_sdk (EvVerifyPassport agent_id)
                         (client_verify_agent_passport S agent_id) ;;
      await_call_next call_next (set_agent request agent)
  end.

Definition dispatch (request : Request) (call_next : Request -> result Response)
  : M Response :=
  try_except (dispatch_body request call_next)
    (fun e =>
       match e with
       | AgentPassportError _ status_code code message agent_id =>
           ret (JSONResponse (status_or_500 status_code)
                  (JObj [("error", code); ("message", message); ("agent_id", agent_id)]))
       | _ =>
           emit (EvPrint ("Agent Passport middleware error: " +:+ exn_text (repr E) e)) ;;
           ret (JSONResponse 500
                  (JObj [("error", JStr "internal_error");
                         ("message", JStr "Internal server error")]))
       end).

End WithOptions.

(** The helpers of the module: they read [request.state.agent]. *)
Section AgentHelpers.
Context (S : SDK).

Definition has_agent_permission (request : Request) (permission : string) : result bool :=
  match st_agent (req_state request) with
  | None => Ok false
  | Some agent => client_has_permission S agent permission
  end.

Definition is_agent_allowed_in_region (request : Request) (region : string) : result bool :=
  match st_agent (req_state request) with
  | None => Ok false
  | Some agent => client_is_allowed_in_region S agent region
  end.

End AgentHelpers.

Definition get_agent (request : Request) : option AgentPassport :=
  st_agent (req_state request).

Definition has_agent (request : Request) : bool :=
  match st_agent (req_state request) with
  | Some _ => true
  | None => false
  end.

End MiddlewareSimple.

(* ===================================================================== *)
(** ** middleware_v2.py *)
(* ===================================================================== *)

Module MiddlewareV2.

Section Helpers.
Context (E : Env).

Definition _extract_capability_ids (capabilities : list json) : list json :=
  map (fun cap =>
         match cap with
         | JStr _ => cap
         | JObj fields => dict_get fields "id" cap
         | _ => JStr (py_str (repr E) cap)
         end) capabilities.

End Helpers.

Definition _get_operation_type (path : string) : string :=
  if contains "/deploy" path || contains "/infra" path then "deploy"
  else if contains "/export" path || contains "/data" path then "export"
  else if contains "/refund" path || contains "/payment" path then "refund"
  else "general".

Definition _extract_operation_data (request : Request) : json := JObj [].

Section WithOptions.
Context (E : Env) (S : SDK) (options : AgentPassportMiddlewareOptions).

Definition _should_skip_request (request : Request) : bool :=
  if existsb (String.eqb (req_method request)) (skip_methods options) then true
  else if existsb (fun path => String.prefix path (req_path request)) (skip_paths options)
  then true
  else false.

(** [# Check required permissions]. *)
Definition check_required_permissions (agent : AgentPassport) : M (option Response) :=
  match required_permissions options with
  | [] => ret None
  | _ =>
      has_all_permissions <-
        lift (all_m (client_has_permission S agent) (required_permissions options)) ;;
      if negb has_all_permissions then
        current <- lift (getattr agent "permissions") ;;
        ret (Some (JSONResponse 403
               (JObj [("error", JStr "insufficient_permissions");
                      ("message", JStr "Agent does not have required permissions");
                      ("required", strs (required_permissions options));
                      ("current", current)])))
      else ret None
  end.

(** [# Check allowed regions]. *)
Definition check_allowed_regions (agent : AgentPassport) : M (option Response) :=
  match allowed_regions options with
  | [] => ret None
  | _ =>
      is_allowed_in_any_region <-
        lift (any_m (client_is_allowed_in_region S agent) (allowed_regions options)) ;;
      if negb is_allowed_in_any_region then
        current <- lift (getattr agent "regions") ;;
        ret (Some (JSONResponse 403
               (JObj [("error", JStr "region_not_allowed");
                      ("message", JStr "Agent is not allowed in this region");
                      ("allowed", strs (allowed_regions options));
                      ("current", current)])))
      else ret None
  end.

(** [# Check capability requirements using SDK]. *)
Definition check_capabilities (request : Request) (agent : AgentPassport)
  : M (option Response) :=
  capabilities <- lift (getattr agent "capabilities") ;;
  capabilities <- lift (py_iter capabilities) ;;
  let agent_capabilities := _extract_capability_ids E capabilities in
  capability_check <-
    await_sdk (EvCheck Capability)
      (check_capability_requirement S (req_path request) agent_capabilities) ;;
  allowed <- lift (subscript capability_check "allowed") ;;
  if negb (truthy allowed) then
    ret (Some (JSONResponse 403
           (JObj [("error", JStr "insufficient_capabilities");
                  ("message", JStr "Agent does not have required capabilities for this route");
                  ("required", dict_get capability_check "required" (JArr []));
                  ("missing", dict_get capability_check "missing" (JArr []));
                  ("current", JArr agent_capabilities)])))
  else ret None.

(** [# Check assurance requirements using SDK]. *)
Definition check_assurance (request : Request) (agent : AgentPassport)
  : M (option Response) :=
  let assurance_level := dict_get agent "assurance_level" (JStr "L0") in
  assurance_check <-
    await_sdk (EvCheck Assurance)
      (check_assurance_requirement S assurance_level (req_path request)) ;;
  allowed <- lift (subscript assurance_check "allowed") ;;
  if negb (truthy allowed) then
    ret (Some (JSONResponse 403
           (JObj [("error", JStr "insufficient_assurance");
                  ("message",
                   JStr ("This operation requires "
                         +:+ py_str (repr E)
                               (dict_get assurance_check "required_level_name" (JStr "higher"))
                         +:+ " assurance level"));
                  ("current_level", dict_get assurance_check "current_level" JNull);
                  ("current_level_name", dict_get assurance_check "current_level_name" JNull);
                  ("required_level", dict_get assurance_check "required_level" JNull);
                  ("required_level_name", dict_get assurance_check "required_level_name" JNull);
                  ("upgrade_instructions", dict_get assurance_check "upgrade_instructions" JNull);
                  ("docs_url", dict_get assurance_check "docs_url" JNull)])))
  else ret None.

(** [# Check MCP requirements using SDK]. *)
Definition check_mcp (request : Request) (agent : AgentPassport) : M (option Response) :=
  mcp_check <-
    await_sdk (EvCheck Mcp) (check_mcp_requirement S (req_headers request) agent) ;;
  allowed <- lift (subscript mcp_check "allowed") ;;
  if negb (truthy allowed) then
    ret (Some (JSONResponse 403
           (dict_get mcp_check "error"
              (JObj [("error", JStr "mcp_denied");
                     ("message", JStr "MCP access denied")]))))
  else ret None.

(** [# Check region validation using SDK]. *)
Definition check_regions (agent : AgentPassport) : M (option Response) :=
  regions <- lift (getattr agent "regions") ;;
  region_check <-
    await_sdk (EvCheck Region)
      (check_region_requirements S regions (allowed_regions options)) ;;
  allowed <- lift (subscript region_check "allowed") ;;
  if negb (truthy allowed) then
    agent_regions <- lift (getattr agent "regions") ;;
    ret (Some (JSONResponse 403
           (JObj [("error", dict_get region_check "reason" (JStr "region_not_allowed"));
                  ("message", dict_get region_check "error" (JStr "Region validation failed"));
                  ("allowed_regions", strs (allowed_regions options));
                  ("agent_regions", agent_regions)])))
  else ret None.

(** [# Check limits using SDK]. *)
Definition check_limits (request : Request) (agent : AgentPassport) : M (option Response) :=
  limits <- lift (getattr agent "limits") ;;
  limits_check <-
    await_sdk (EvCheck Limits)
      (check_limits_for_operation S (_get_operation_type (req_path request))
         (if truthy limits then limits else JObj [])
         (_extract_operation_data request)) ;;
  allowed <- lift (subscript limits_check "allowed") ;;
  if negb (truthy allowed) then
    agent_limits <- lift (getattr agent "limits") ;;
    ret (Some (JSONResponse 403
           (JObj [("error", JStr "limits_exceeded");
                  ("message", JStr "Request exceeds agent limits");
                  ("violations", dict_get limits_check "violations" (JArr []));
                  ("limits", agent_limits)])))
  else ret None.

(** The body of the [try] block of [dispatch]. *)
Definition dispatch_body (request : Request) (call_next : Request -> result Response)
  : M Response :=
  if _should_skip_request request then await_call_next call_next request else
  let auth_header := header request "authorization" in
  let agent_id :=
    or_else (or_else (header request "x-agent-passport-id")
                     (header request "x-agent-id"))
            (bearer_token auth_header) in
  match agent_id with
  | None | Some "" =>
      if fail_closed options then
        ret (JSONResponse 400
               (JObj [("error", JStr "missing_agent_id");
                      ("message", JStr "X-Agent-Passport-Id header (preferred) or Authorization/X-Agent-ID header is required")]))
      else await_call_next call_next request
  | Some agent_id =>
      agent <- await_sdk (EvVerifyPassport agent_id)
                         (client_verify_agent_passport S agent_id) ;;
      or_continue (check_required_permissions agent) (
      or_continue (check_allowed_regions agent) (
      or_continue (check_capabilities request agent) (
      or_continue (check_assurance request agent) (
      or_continue (check_mcp request agent) (
      or_continue (check_regions agent) (
      or_continue (check_limits request agent) (
      await_call_next call_next (set_agent request agent))))))))
  end.

Definition dispatch (request : Request) (call_next : Request -> result Response)
  : M Response :=
  try_except (dispatch_body request call_next)
    (fun e =>
       match e with
       | AgentPassportError _ status_code code message agent_id =>
           ret (JSONResponse (status_or_500 status_code)
                  (JObj [("error", code); ("message", message); ("agent_id", agent_id)]))
       | _ =>
           emit (EvPrint ("Agent Passport middleware error: " +:+ exn_text (repr E) e)) ;;
           ret (JSONResponse 500
                  (JObj [("error", JStr "internal_error");
                         ("message", JStr "Internal server error")]))
       end).

End WithOptions.

(** The helpers of the module: they read [request.state.agent]. *)
Section AgentHelpers.
Context (S : SDK).

Definition has_agent_permission (request : Request) (permission : string) : result bool :=
  match st_agent (req_state request) with
  | None => Ok false
  | Some agent => client_has_permission S agent permission
  end.

Definition is_agent_allowed_in_region (request : Request) (region : string) : result bool :=
  match st_agent (req_state request) with
  | None => Ok false
  | Some agent => client_is_allowed_in_region S agent region
  end.

End AgentHelpers.

Definition get_agent (request : Request) : option AgentPassport :=
  st_agent (req_state request).

Definition has_agent (request : Request) : bool :=
  match st_agent (req_state request) with
  | Some _ => true
  | None => false
  end.

End MiddlewareV2.

(* ===================================================================== *)
(** ** middleware_v3.py *)
(* ===================================================================== *)

Module MiddlewareV3.
Section WithOptions.
Context (E : Env) (S : SDK) (options : AgentPassportMiddlewareOptions).

Definition _should_skip_verification (request : Request) : bool :=
  if existsb (String.eqb (req_path request)) (skip_paths options) then true
  else if existsb (String.eqb (req_method request)) (skip_methods options) then true
  else false.

(** [# Get request body for policy evaluation]: the cached [_json] when
    it is set and truthy, else the parsed body, else [{}]. *)
Definition request_body (request : Request) : json :=
  match req_cached_json request with
  | Some cached =>
      if truthy cached then cached
      else match req_json request with Ok body => body | Raise _ => JObj [] end
  | None => match req_json request with Ok body => body | Raise _ => JObj [] end
  end.

(** The checks shared by [_run_enforcement_checks] and [require_policy],
    from [has_policy_access] to the assignment of
    [request.state.policy_result]. *)
Definition enforce_policy (request : Request) (agent_id policy_id : string) (body : json)
  : M Request :=
  has_access <- await_sdk (EvHasPolicyAccess agent_id policy_id body)
                          (has_policy_access S agent_id policy_id body) ;;
  if negb has_access then
    raise (HTTPException 403
             (JObj [("error", JStr "policy_access_denied");
                    ("message", JStr ("Agent does not have access to policy " +:+ policy_id));
                    ("agent_id", JStr agent_id);
                    ("policy_id", JStr policy_id)]))
  else
  policy <- await_sdk (EvGetPolicy policy_id) (get_policy S policy_id) ;;
  if negb (truthy policy) then
    raise (HTTPException 404
             (JObj [("error", JStr "policy_not_found");
                    ("message", JStr ("Policy " +:+ policy_id +:+ " not found"));
                    ("agent_id", JStr agent_id);
                    ("policy_id", JStr policy_id)]))
  else
  policy_result <- await_sdk (EvVerifyPolicy agent_id policy_id body)
                             (verify_policy S agent_id policy_id body) ;;
  allowed <- lift (py_get policy_result "allowed" (JBool false)) ;;
  if negb (truthy allowed) then
    reason <- lift (py_get policy_result "reason" (JStr "Policy violation")) ;;
    violations <- lift (py_get policy_result "violations" (JArr [])) ;;
    raise (HTTPException 403
             (JObj [("error", JStr "policy_violation");
                    ("message", reason);
                    ("agent_id", JStr agent_id);
                    ("policy_id", JStr policy_id);
                    ("violations", violations)]))
  else
  extracted_policy_result <- lift (get_policy_result S policy_result) ;;
  ret (set_policy_result_v3 request
         {| mpr_allowed := true;
            mpr_evaluation := match extracted_policy_result with
                              | Some d => JObj d
                              | None => JObj []
                              end;
            mpr_error := JNull |}).

(** Returns the request with [request.state.policy_result] set. *)
Definition _run_enforcement_checks (request : Request) (agent_id policy_id : string)
  : M Request :=
  try_except
    (let body := request_body request in
     enforce_policy request agent_id policy_id body)
    (fun e =>
       if is_HTTPException e then raise e
       else raise (HTTPException 500
                     (JObj [("error", JStr "enforcement_error");
                            ("message", JStr ("Failed to run enforcement checks: "
                                              +:+ exn_text (repr E) e));
                            ("agent_id", JStr agent_id);
                            ("policy_id", JStr policy_id)]))).

(** The body of the outer [try] block of [dispatch]. *)
Definition dispatch_body (request : Request) (call_next : Request -> result Response)
  : M Response :=
  if _should_skip_verification request then await_call_next call_next request else
  agent_id <- lift (extract_agent_id_from_request S request) ;;
  if negb (str_truthy agent_id) && fail_closed options then
    ret (JSONResponse 401
           (JObj [("error", JStr "missing_agent_id");
                  ("message", JStr "Agent ID is required. Provide it as X-Agent-Passport-Id header.")]))
  else
  match agent_id with
  | None | Some "" => await_call_next call_next request
  | Some agent_id =>
      verified <-
        try_except
          (agent <- await_sdk (EvVerifyPassport agent_id) (verify_agent_passport S agent_id) ;;
           ret (inl (set_agent request agent)))
          (fun e =>
             match e with
             | AgentPassportError _ _ _ _ _ =>
                 ret (inr (JSONResponse 401
                        (JObj [("error", JStr "agent_verification_failed");
                               ("message", JStr (exn_text (repr E) e));
                               ("agent_id", JStr agent_id)])))
             | _ => raise e
             end) ;;
      match verified with
      | inr response => ret response
      | inl request =>
          match policy_id options with
          | None | Some "" => await_call_next call_next request
          | Some policy_id =>
              request <- _run_enforcement_checks request agent_id policy_id ;;
              await_call_next call_next request
          end
      end
  end.

Definition dispatch (request : Request) (call_next : Request -> result Response)
  : M Response :=
  try_except (dispatch_body request call_next)
    (fun e =>
       ret (JSONResponse 500
              (JObj [("error", JStr "middleware_error");
                     ("message", JStr "Internal server error")]))).

End WithOptions.

Section RequirePolicy.
Context (E : Env) (S : SDK).

(** The body of the [try] block of [policy_middleware]. *)
Definition require_policy_body (policy_id : string) (agent_id : option string)
           (request : Request) (call_next : Request -> result Response) : M Response :=
  validated <- lift (validate_policy_call S agent_id policy_id) ;;
  let validated_agent_id := fst validated in
  let validated_policy_id := snd validated in
  final_agent_id <- lift (validate_agent_id_present S validated_agent_id request) ;;
  request <-
    try_except
      (agent <- await_sdk (EvVerifyPassport final_agent_id)
                          (verify_agent_passport S final_agent_id) ;;
       ret (set_agent request agent))
      (fun e =>
         match e with
         | AgentPassportError _ _ _ _ _ =>
             raise (HTTPException 401
                      (JObj [("error", JStr "agent_verification_failed");
                             ("message", JStr (exn_text (repr E) e));
                             ("agent_id", JStr final_agent_id)]))
         | _ => raise e
         end) ;;
  let body := request_body request in
  request <- enforce_policy S request final_agent_id validated_policy_id body ;;
  await_call_next call_next request.

(** The coroutine [policy_middleware] that [require_policy(policy_id,
    agent_id)] returns. *)
Definition require_policy (policy_id : string) (agent_id : option string)
           (request : Request) (call_next : Request -> result Response) : M Response :=
  try_except
    (require_policy_body policy_id agent_id request call_next)
    (fun e =>
       if is_HTTPException e then raise e
       else raise (HTTPException 500
                     (JObj [("error", JStr "policy_middleware_error");
                            ("message", JStr ("Policy middleware error: "
                                              +:+ exn_text (repr E) e))]))).

(** [{**body, **context}]: only a mapping can be unpacked. *)
Definition merge_context (body : json) (context : list (string * json)) : result json :=
  match body with
  | JObj fields => Ok (JObj (dict_update fields context))
  | _ => Raise (PyError "TypeError" ("'" +:+ type_name body +:+ "' object is not a mapping"))
  end.

(** The body of the [try] block of [policy_middleware] in
    [require_policy_with_context]. *)
Definition require_policy_with_context_body (policy_id : string)
           (context : list (string * json)) (agent_id : option string)
           (request : Request) (call_next : Request -> result Response) : M Response :=
  validated <- lift (validate_policy_call S agent_id policy_id) ;;
  let validated_agent_id := fst validated in
  let validated_policy_id := snd validated in
  final_agent_id <- lift (validate_agent_id_present S validated_agent_id request) ;;
  request <-
    try_except
      (agent <- await_sdk (EvVerifyPassport final_agent_id)
                          (client_verify_agent_passport S final_agent_id) ;;
       ret (set_agent request agent))
      (fun e =>
         match e with
         | AgentPassportError _ _ _ _ _ =>
             raise (HTTPException 401
                      (JObj [("error", JStr "agent_verification_failed");
                             ("message", JStr (exn_text (repr E) e));
                             ("agent_id", JStr final_agent_id)]))
         | _ => raise e
         end) ;;
  let body := request_body request in
  merged_context <- lift (merge_context body context) ;;
  request <- enforce_policy S request final_agent_id validated_policy_id merged_context ;;
  await_call_next call_next request.

(** The coroutine [policy_middleware] that [require_policy_with_context
    (policy_id, context, agent_id)] returns. *)
Definition require_policy_with_context (policy_id : string)
           (context : list (string * json)) (agent_id : option string)
           (request : Request) (call_next : Request -> result Response) : M Response :=
  try_except
    (require_policy_with_context_body policy_id context agent_id request call_next)
    (fun e =>
       if is_HTTPException e then raise e
       else raise (HTTPException 500
                     (JObj [("error", JStr "policy_middleware_error");
                            ("message", JStr ("Policy middleware error: "
                                              +:+ exn_text (repr E) e))]))).

End RequirePolicy.
End MiddlewareV3.

(* ===================================================================== *)
(** ** Concrete instances *)
(* ===================================================================== *)

(** A directory whose verification endpoint allows a refund of 50 and
    denies every other context; every other URL answers 404. *)
Definition allow_reply : json :=
  JObj [("allow", JBool true); ("reason", JNull)].

Definition deny_reply : json :=
  JObj [("allow", JBool false); ("reason", JStr "amount over limit");
        ("violations", JArr [JStr "refund_amount_max_per_tx"])].

Definition small_refund : json := JObj [("amount_cents", JNum 50)].
Definition large_refund : json := JObj [("amount_cents", JNum 150000)].

Definition json_is_small_refund (v : json) : bool :=
  match v with
  | JObj [("agent_id", JStr _); ("context", JObj [("amount_cents", JNum 50)])] => true
  | _ => false
  end.

Definition demo_env : Env :=
  {| clock := fun k => Z.of_nat k * 1000000;
     isoformat := fun _ => "2025-01-01T00:00:00";
     http_post := fun url body =>
       if String.eqb url "https://api.aport.io/api/verify/policy/finance.payment.refund.v1"
       then Ok {| reply_status := 200; reply_text := "";
                  reply_json := Ok (if json_is_small_refund body
                                    then allow_reply else deny_reply) |}
       else Ok {| reply_status := 404; reply_text := "not found";
                  reply_json := Raise (PyError "JSONDecodeError" "Expecting value") |};
     http_get := fun _ =>
       Ok {| reply_status := 404; reply_text := "not found";
             reply_json := Raise (PyError "JSONDecodeError" "Expecting value") |};
     repr := fun _ => "<repr>" |}.

(** A directory that cannot be reached. *)
Definition offline_env : Env :=
  {| clock := fun k => Z.of_nat k * 1000000;
     isoformat := fun _ => "2025-01-01T00:00:00";
     http_post := fun _ _ => Raise (PyError "ConnectTimeout" "timed out");
     http_get := fun _ => Raise (PyError "ConnectTimeout" "timed out");
     repr := fun _ => "<repr>" |}.

Definition open_config : PolicyEnforcementV2.PolicyEnforcementConfig :=
  {| PolicyEnforcementV2.api_base_url := "https://api.aport.io";
     PolicyEnforcementV2.cache_ttl := 60;
     PolicyEnforcementV2.fail_closed := false;
     PolicyEnforcementV2.enabled := true;
     PolicyEnforcementV2.strict_mode := true;
     PolicyEnforcementV2.log_violations := true |}.

Definition refund_request (body : json) : Request :=
  {| req_method := "POST"; req_path := "/api/refunds";
     req_headers := [("x-policy-id", "finance.payment.refund.v1")];
     req_cached_json := None; req_json := Ok body; req_state := empty_state |}.

(** A request with no header at all. *)
Definition anonymous_request : Request :=
  {| req_method := "GET"; req_path := "/api/data"; req_headers := [];
     req_cached_json := None; req_json := Raise (PyError "JSONDecodeError" "Expecting value");
     req_state := empty_state |}.

Definition agent_request : Request :=
  {| req_method := "GET"; req_path := "/api/data";
     req_headers := [("x-agent-passport-id", "ap_123")];
     req_cached_json := None; req_json := Raise (PyError "JSONDecodeError" "Expecting value");
     req_state := empty_state |}.

Definition ok_handler (request : Request) : result Response :=
  Ok (JSONResponse 200 (JObj [("ok", JBool true)])).

Definition demo_agent : AgentPassport :=
  [("agent_id", JStr "ap_123"); ("permissions", JArr []);
   ("capabilities", JArr [JStr "data.read"; JObj [("id", JStr "data.export")]]);
   ("assurance_level", JStr "L0"); ("regions", JArr [JStr "US"]);
   ("limits", JObj [])].

Definition deny : verdict := [("allowed", JBool false)].
Definition allow : verdict := [("allowed", JBool true)].

(** An SDK that finds [demo_agent] in the directory, grants it no
    permission, and whose capability and assurance evaluators answer
    with the given verdicts; every policy call fails with [failure].
    The agent identifier is read from the headers, in the order of the
    specification. *)
Definition demo_sdk (capability assurance : verdict) (failure : exn) : SDK :=
  {| client_verify_agent_passport := fun _ => Ok demo_agent;
     client_has_permission := fun _ _ => Ok false;
     client_is_allowed_in_region := fun _ _ => Ok true;
     check_capability_requirement := fun _ _ => Ok capability;
     check_assurance_requirement := fun _ _ => Ok assurance;
     check_mcp_requirement := fun _ _ => Ok allow;
     check_region_requirements := fun _ _ => Ok allow;
     check_limits_for_operation := fun _ _ _ => Ok allow;
     verify_agent_passport := fun _ => Ok demo_agent;
     has_policy_access := fun _ _ _ => Raise failure;
     get_policy := fun _ => Raise failure;
     verify_policy := fun _ _ _ => Raise failure;
     get_policy_result := fun _ => Raise failure;
     extract_agent_id_from_request := fun request =>
       Ok (or_else (or_else (header request "x-agent-passport-id")
                            (header request "x-agent-id"))
                   (bearer_token (header request "authorization")));
     validate_policy_call := fun agent_id policy_id => Ok (agent_id, policy_id);
     validate_agent_id_present := fun agent_id request =>
       match agent_id with
       | Some a => Ok a
       | None => Raise (HTTPException 400 (JObj [("error", JStr "missing_agent_id")]))
       end |}.

(** An SDK whose directory is down: passport verification fails with an
    [AgentPassportError]. *)
Definition offline_sdk : SDK :=
  {| client_verify_agent_passport := fun a =>
       Raise (AgentPassportError "network error" (Some 503) (JStr "network_error")
                                 (JStr "network error") (JStr a));
     client_has_permission := fun _ _ => Ok false;
     client_is_allowed_in_region := fun _ _ => Ok true;
     check_capability_requirement := fun _ _ => Ok allow;
     check_assurance_requirement := fun _ _ => Ok allow;
     check_mcp_requirement := fun _ _ => Ok allow;
     check_region_requirements := fun _ _ => Ok allow;
     check_limits_for_operation := fun _ _ _ => Ok allow;
     verify_agent_passport := fun a =>
       Raise (AgentPassportError "network error" (Some 503) (JStr "network_error")
                                 (JStr "network error") (JStr a));
     has_policy_access := fun _ _ _ => Ok false;
     get_policy := fun _ => Ok JNull;
     verify_policy := fun _ _ _ => Ok (JObj []);
     get_policy_result := fun _ => Ok None;
     extract_agent_id_from_request := fun request =>
       Ok (or_else (or_else (header request "x-agent-passport-id")
                            (header request "x-agent-id"))
                   (bearer_token (header request "authorization")));
     validate_policy_call := fun agent_id policy_id => Ok (agent_id, policy_id);
     validate_agent_id_present := fun agent_id request =>
       match agent_id with
       | Some a => Ok a
       | None => Raise (HTTPException 400 (JObj [("error", JStr "missing_agent_id")]))
       end |}.

Definition demo_options (fail_closed : bool) (required_permissions : list string)
  : AgentPassportMiddlewareOptions :=
  {| fail_closed := fail_closed;
     required_permissions := required_permissions;
     allowed_regions := [];
     skip_paths := ["/health"; "/docs"];
     skip_methods := ["OPTIONS"];
     policy_id := None |}.

Definition preflight_request : Request :=
  {| req_method := "OPTIONS"; req_path := "/health"; req_headers := [];
     req_cached_json := None; req_json := Raise (PyError "JSONDecodeError" "Expecting value");
     req_state := empty_state |}.

Definition internal_failure : exn := PyError "RuntimeError" "boom".

Definition demo_policy : PolicyPack :=
  {| pp_id := JStr "finance.payment.refund.v1"; pp_name := JStr "Refunds";
     pp_requires_capabilities := JArr [JStr "finance.payment.refund"];
     pp_min_assurance := JStr "L2"; pp_limits_required := JArr [];
     pp_enforcement := JObj [] |}.

(** A verification response whose evaluation lacks [regions_ok]. *)
Definition partial_evaluation : list (string * json) :=
  [("capability_ok", JBool true); ("assurance_ok", JBool true);
   ("limits_ok", JBool true)].

Definition partial_passport : list (string * json) :=
  [("agent_id", JStr "ap_123"); ("evaluation", JObj partial_evaluation)].

Definition partial_response : list (string * json) :=
  [("allow", JBool true); ("passport", JObj partial_passport)].

Definition refund_policy : string := "finance.payment.refund.v1".

(** The world after a first, allowed, verification of a small refund. *)
Definition world_after_allow : World :=
  (PolicyEnforcementV2.verify_policy_compliance demo_env "ap_123" refund_policy
     small_refund PolicyEnforcementV2.default_config initial_world).2.

(** An SDK whose policy verification denies: the agent has access to
    the policy, the policy exists, and [verify_policy] answers
    [allowed = False]. *)
Definition denying_sdk : SDK :=
  {| client_verify_agent_passport := fun _ => Ok demo_agent;
     client_has_permission := fun _ _ => Ok true;
     client_is_allowed_in_region := fun _ _ => Ok true;
     check_capability_requirement := fun _ _ => Ok allow;
     check_assurance_requirement := fun _ _ => Ok allow;
     check_mcp_requirement := fun _ _ => Ok allow;
     check_region_requirements := fun _ _ => Ok allow;
     check_limits_for_operation := fun _ _ _ => Ok allow;
     verify_agent_passport := fun _ => Ok demo_agent;
     has_policy_access := fun _ _ _ => Ok true;
     get_policy := fun policy_id => Ok (JObj [("id", JStr policy_id)]);
     verify_policy := fun _ _ _ =>
       Ok (JObj [("allowed", JBool false); ("reason", JStr "amount over limit")]);
     get_policy_result := fun _ => Ok None;
     extract_agent_id_from_request := fun request =>
       Ok (or_else (or_else (header request "x-agent-passport-id")
                            (header request "x-agent-id"))
                   (bearer_token (header request "authorization")));
     validate_policy_call := fun agent_id policy_id => Ok (agent_id, policy_id);
     validate_agent_id_present := fun agent_id request =>
       match agent_id with
       | Some a => Ok a
       | None => Raise (HTTPException 400 (JObj [("error", JStr "missing_agent_id")]))
       end |}.

Definition policy_options : AgentPassportMiddlewareOptions :=
  {| fail_closed := true; required_permissions := []; allowed_regions := [];
     skip_paths := []; skip_methods := ["OPTIONS"];
     policy_id := Some refund_policy |}.

(** A downstream handler that fails with the given message. *)
Definition failing_handler (text : string) (request : Request) : result Response :=
  Raise (PyError "RuntimeError" text).

Definition database_failure : exn :=
  PyError "ConnectionError" "connection to 10.0.0.7:5432 refused".

(* ===================================================================== *)
(** ** Definitions used in the statements *)
(* ===================================================================== *)

(** The world after one more event. *)
Definition record_event (w : World) (ev : event) : World :=
  {| w_cache := w_cache w; w_reads := w_reads w; w_trace := w_trace w ++ [ev] |}.

Definition missing_agent_id_400 : Response :=
  JSONResponse 400
    (JObj [("error", JStr "missing_agent_id");
           ("message", JStr "X-Agent-Passport-Id header (preferred) or Authorization/X-Agent-ID header is required")]).

Definition missing_agent_id_401 : Response :=
  JSONResponse 401
    (JObj [("error", JStr "missing_agent_id");
           ("message", JStr "Agent ID is required. Provide it as X-Agent-Passport-Id header.")]).


(** The capability id that a well-formed element of [capabilities]
    denotes, in the words of the specification: a plain string denotes
    itself, a record denotes the string in its [id] field; anything
    else is not a capability. *)
Definition capability_id (cap : json) : option string :=
  match cap with
  | JStr s => Some s
  | JObj fields =>
      match assoc "id" fields with
      | Some (JStr s) => Some s
      | _ => None
      end
  | _ => None
  end.

(** The world after one more reading of the clock. *)
Definition tick (w : World) : World :=
  {| w_cache := w_cache w; w_reads := S (w_reads w); w_trace := w_trace w |}.

(** The keys of the server's evaluation payload and the dimension of
    [PolicyResult.checks] each one feeds. *)
Definition evaluation_keys : list (string * string) :=
  [("capability_ok", "capability"); ("assurance_ok", "assurance");
   ("limits_ok", "limits"); ("regions_ok", "regions")].

(** Does a verification result carry a truthy [allow]? *)
Definition allows (result : json) : bool :=
  match result with
  | JObj fields => truthy (dict_get fields "allow" JNull)
  | _ => false
  end.

(** The invariant of [_verification_cache]: every entry holds an
    allow-decision. *)
Definition cache_allows_only (w : World) : Prop :=
  forall key entry, w_cache w !! key = Some entry -> allows (ce_result entry) = true.

(** The entry under [key] that the next lookup would serve: present and
    not expired at the next reading of the clock. *)
Definition fresh_entry (E : Env) (w : World) (key : string) : option cache_entry :=
  match w_cache w !! key with
  | Some entry => if clock E (w_reads w) <? ce_expires entry then Some entry else None
  | None => None
  end.

(** The world after the lookup of [key]: the clock is read only when
    there is an entry. *)
Definition after_lookup (w : World) (key : string) : World :=
  match w_cache w !! key with
  | Some _ => tick w
  | None => w
  end.

(** The URL and the body of the verification call. *)
Definition verify_url (config : PolicyEnforcementV2.PolicyEnforcementConfig)
           (policy_id : string) : string :=
  PolicyEnforcementV2.api_base_url config +:+ "/api/verify/policy/" +:+ policy_id.

Definition verify_body (agent_id : string) (context : json) : json :=
  JObj [("agent_id", JStr agent_id);
        ("context", if truthy context then context else JObj [])].

(** What the directory answers to the verification call, when it
    answers 200 with a JSON object. *)
Definition server_result (E : Env) (config : PolicyEnforcementV2.PolicyEnforcementConfig)
           (agent_id policy_id : string) (context : json) : option json :=
  match http_post E (verify_url config policy_id) (verify_body agent_id context) with
  | Ok reply =>
      if reply_status reply =? 200 then
        match reply_json reply with
        | Ok (JObj fields) => Some (JObj fields)
        | _ => None
        end
      else None
  | Raise _ => None
  end.

(** The entry written for a result stored at time [now]. *)
Definition stored_entry (config : PolicyEnforcementV2.PolicyEnforcementConfig)
           (result : json) (now : Z) : cache_entry :=
  {| ce_result := result;
     ce_expires := now + PolicyEnforcementV2.cache_ttl config * 1000000 |}.

(** The responses of [policy_enforcement_v2]'s middleware. *)
Definition policy_violation_403 (agent_id policy_id : string) (fields : list (string * json))
  : exn :=
  HTTPException 403
    (JObj [("error", JStr "policy_violation");
           ("message", dict_get fields "reason" (JStr "Policy violation"));
           ("violations", dict_get fields "violations" (JArr []));
           ("agent_id", JStr agent_id);
           ("policy_id", JStr policy_id)]).

Definition policy_verification_failed_500 : exn :=
  HTTPException 500
    (JObj [("error", JStr "policy_verification_failed");
           ("message", JStr "Failed to verify policy compliance")]).

(** The world after the line that [log_violations] writes. *)
Definition log_violation (E : Env) (config : PolicyEnforcementV2.PolicyEnforcementConfig)
           (agent_id : string) (fields : list (string * json)) (w : World) : World :=
  if PolicyEnforcementV2.log_violations config then
    record_event w
      (EvLog LogWarning ("Policy violation for agent " +:+ agent_id +:+ ": "
                         +:+ py_str (repr E) (dict_get fields "reason" JNull)))
  else w.

(** The generic answer of [middleware_v3]'s [dispatch] to any exception. *)
Definition middleware_error_500 : Response :=
  JSONResponse 500
    (JObj [("error", JStr "middleware_error");
           ("message", JStr "Internal server error")]).

(** The answer of [middleware_v3]'s [dispatch] to a failed passport
    verification. *)
Definition verification_failure_response (E : Env) (agent_id : string) (e : exn) : Response :=
  match e with
  | AgentPassportError _ _ _ _ _ =>
      JSONResponse 401
        (JObj [("error", JStr "agent_verification_failed");
               ("message", JStr (exn_text (repr E) e));
               ("agent_id", JStr agent_id)])
  | _ => middleware_error_500
  end.

(** The evaluators invoked along a trace, in order. *)
Fixpoint checks_in (trace : list event) : list dimension :=
  match trace with
  | [] => []
  | EvCheck d :: rest => d :: checks_in rest
  | _ :: rest => checks_in rest
  end.

(** The fixed order of the SDK evaluators. *)
Definition evaluator_order : list dimension :=
  [Capability; Assurance; Mcp; Region; Limits].

(** The agent identifier that [middleware_simple] and [middleware_v2]
    read from the headers. *)
Definition header_agent_id (request : Request) : option string :=
  or_else (or_else (header request "x-agent-passport-id")
                   (header request "x-agent-id"))
          (bearer_token (header request "authorization")).

(** The configured pre-checks of [middleware_v2] pass for the agent. *)
Definition passes_prechecks (S : SDK) (options : AgentPassportMiddlewareOptions)
           (agent : AgentPassport) : Prop :=
  (required_permissions options = [] \/
   all_m (client_has_permission S agent) (required_permissions options) = Ok true) /\
  (allowed_regions options = [] \/
   any_m (client_is_allowed_in_region S agent) (allowed_regions options) = Ok true).

Definition insufficient_capabilities_403 (capability_check : verdict)
           (agent_capabilities : list json) : Response :=
  JSONResponse 403
    (JObj [("error", JStr "insufficient_capabilities");
           ("message", JStr "Agent does not have required capabilities for this route");
           ("required", dict_get capability_check "required" (JArr []));
           ("missing", dict_get capability_check "missing" (JArr []));
           ("current", JArr agent_capabilities)]).

(** The generic answer of [middleware_simple] and [middleware_v2] to an
    exception that is no [AgentPassportError]. *)
Definition internal_error_500 : Response :=
  JSONResponse 500
    (JObj [("error", JStr "internal_error");
           ("message", JStr "Internal server error")]).

(** The errors into which [middleware_v3] turns an exception that is no
    [HTTPException], given the exception's text. *)
Definition policy_middleware_error_500 (text : string) : exn :=
  HTTPException 500
    (JObj [("error", JStr "policy_middleware_error");
           ("message", JStr ("Policy middleware error: " +:+ text))]).

Definition enforcement_error_500 (agent_id policy_id text : string) : exn :=
  HTTPException 500
    (JObj [("error", JStr "enforcement_error");
           ("message", JStr ("Failed to run enforcement checks: " +:+ text));
           ("agent_id", JStr agent_id);
           ("policy_id", JStr policy_id)]).

(** [needle] occurs in [haystack]: the meaning of Python's [in] on
    strings. *)
Definition occurs_in (needle haystack : string) : Prop :=
  exists before after, haystack = before +:+ needle +:+ after.

(** Is the value a string? *)
Definition is_str (v : json) : bool :=
  match v with
  | JStr _ => true
  | _ => false
  end.

(** What [_extract_capability_ids] makes of one element. *)
Definition has_string_id (cap : json) : Prop :=
  match cap with
  | JObj fields => exists s, assoc "id" fields = Some (JStr s)
  | _ => True
  end.

(** The world after an allowed refund of the agent [team:ap_123]. *)
Definition world_after_team_allow : World :=
  (PolicyEnforcementV2.verify_policy_compliance demo_env "team:ap_123" refund_policy
     small_refund PolicyEnforcementV2.default_config initial_world).2.

(** The number of events of a trace that reach the directory. *)
Fixpoint directory_contacts (trace : list event) : nat :=
  match trace with
  | [] => 0%nat
  | ev :: rest =>
      if contacts_directory ev then S (directory_contacts rest)
      else directory_contacts rest
  end.

Definition is_log (ev : event) : Prop :=
  match ev with
  | EvLog _ _ => True
  | _ => False
  end.

(** The world with a longer trace. *)
Definition record_events (w : World) (events : list event) : World :=
  {| w_cache := w_cache w; w_reads := w_reads w; w_trace := w_trace w ++ events |}.

(** Every cached entry has expired, now and at every later reading of
    the clock. *)
Definition all_expired (E : Env) (w : World) : Prop :=
  forall key entry,
    w_cache w !! key = Some entry ->
    forall k, (w_reads w <= k)%nat -> ce_expires entry <= clock E k.

(** The clock never goes back. *)
Definition monotone_clock (E : Env) : Prop :=
  forall i j, (i <= j)%nat -> clock E i <= clock E j.

Definition policies_url (config : PolicyEnforcementV2.PolicyEnforcementConfig)
           (policy_id : string) : string :=
  PolicyEnforcementV2.api_base_url config +:+ "/api/policies/" +:+ policy_id.

(** The default configuration without caching. *)
Definition no_cache_config : PolicyEnforcementV2.PolicyEnforcementConfig :=
  {| PolicyEnforcementV2.api_base_url := "https://api.aport.io";
     PolicyEnforcementV2.cache_ttl := 0;
     PolicyEnforcementV2.fail_closed := true;
     PolicyEnforcementV2.enabled := true;
     PolicyEnforcementV2.strict_mode := true;
     PolicyEnforcementV2.log_violations := true |}.

(** The default configuration, switched off. *)
Definition disabled_config : PolicyEnforcementV2.PolicyEnforcementConfig :=
  {| PolicyEnforcementV2.api_base_url := "https://api.aport.io";
     PolicyEnforcementV2.cache_ttl := 60;
     PolicyEnforcementV2.fail_closed := true;
     PolicyEnforcementV2.enabled := false;
     PolicyEnforcementV2.strict_mode := true;
     PolicyEnforcementV2.log_violations := true |}.

Definition policy_id_required_400 : exn :=
  HTTPException 400
    (JObj [("error", JStr "policy_id_required");
           ("message", JStr "Policy ID must be specified")]).

(** The passport and the checks that [convert_policy_response] builds
    from a response without a passport. *)
Definition blank_passport (verified_at : string) : PassportData :=
  {| pd_agent_id := JNull; pd_name := JNull; pd_status := JNull;
     pd_capabilities := JArr []; pd_limits := JObj []; pd_regions := JArr [];
     pd_assurance_level := JNull;
     pd_assurance_method := JStr "api_verification";
     pd_assurance_verified_at := JStr verified_at |}.

Definition no_checks_passed : list (string * json) :=
  [("capability", JBool false); ("assurance", JBool false);
   ("limits", JBool false); ("regions", JBool false)].

(** Is the value a JSON object (a dict)? *)
Definition is_object (v : json) : bool :=
  match v with
  | JObj _ => true
  | _ => false
  end.

(** The answers of the directory to an allowed refund without passport
    data, and with a passport that is [null]. *)
Definition null_passport_response : list (string * json) :=
  [("allow", JBool true); ("passport", JNull)].

(** A computation that ends in an exception from every world. *)
Definition always_raises {A : Type} (m : M A) : Prop :=
  forall w, exists e w', m w = (Raise e, w').

(** The exception of [await None]. *)
Definition await_None_error : exn :=
  PyError "TypeError" "object NoneType can't be used in 'await' expression".


(** A request whose three identity headers disagree. *)
Definition three_ids_request : Request :=
  {| req_method := "GET"; req_path := "/api/data";
     req_headers := [("authorization", "Bearer ap_token");
                     ("x-agent-id", "ap_generic");
                     ("x-agent-passport-id", "ap_passport")];
     req_cached_json := None; req_json := Raise (PyError "JSONDecodeError" "Expecting value");
     req_state := empty_state |}.

Definition bearer_request : Request :=
  {| req_method := "GET"; req_path := "/api/data";
     req_headers := [("authorization", "Bearer ap_token"); ("x-agent-id", "")];
     req_cached_json := None; req_json := Raise (PyError "JSONDecodeError" "Expecting value");
     req_state := empty_state |}.

(** Is the event a call of the downstream handler? *)
Definition is_call_next (ev : event) : bool :=
  match ev with
  | EvCallNext _ => true
  | _ => false
  end.

(** The effects of a run of [middleware_v2]'s [dispatch] in which every
    evaluator is invoked and the handler is reached. *)
Definition full_evaluation (agent_id : string) (request : Request) : list event :=
  [EvVerifyPassport agent_id; EvCheck Capability; EvCheck Assurance; EvCheck Mcp;
   EvCheck Region; EvCheck Limits; EvCallNext request].

(** The exceptions of the policy checks of [middleware_v3]. *)
Definition agent_verification_failed_401 (agent_id text : string) : exn :=
  HTTPException 401
    (JObj [("error", JStr "agent_verification_failed");
           ("message", JStr text);
           ("agent_id", JStr agent_id)]).

Definition policy_access_denied_403 (agent_id policy_id : string) : exn :=
  HTTPException 403
    (JObj [("error", JStr "policy_access_denied");
           ("message", JStr ("Agent does not have access to policy " +:+ policy_id));
           ("agent_id", JStr agent_id);
           ("policy_id", JStr policy_id)]).

Definition policy_not_found_404 (agent_id policy_id : string) : exn :=
  HTTPException 404
    (JObj [("error", JStr "policy_not_found");
           ("message", JStr ("Policy " +:+ policy_id +:+ " not found"));
           ("agent_id", JStr agent_id);
           ("policy_id", JStr policy_id)]).

Definition policy_violation_v3_403 (agent_id policy_id : string)
           (fields : list (string * json)) : exn :=
  HTTPException 403
    (JObj [("error", JStr "policy_violation");
           ("message", dict_get fields "reason" (JStr "Policy violation"));
           ("agent_id", JStr agent_id);
           ("policy_id", JStr policy_id);
           ("violations", dict_get fields "violations" (JArr []))]).

(** The policy result that [middleware_v3] attaches. *)
Definition allowed_policy_result (extracted : option (list (string * json)))
  : MiddlewarePolicyResult :=
  {| mpr_allowed := true;
     mpr_evaluation := match extracted with
                       | Some d => JObj d
                       | None => JObj []
                       end;
     mpr_error := JNull |}.

(** An SDK whose policy verification allows, under the key [allow]
    instead of [allowed]. *)
Definition allow_key_sdk : SDK :=
  {| client_verify_agent_passport := fun _ => Ok demo_agent;
     client_has_permission := fun _ _ => Ok true;
     client_is_allowed_in_region := fun _ _ => Ok true;
     check_capability_requirement := fun _ _ => Ok allow;
     check_assurance_requirement := fun _ _ => Ok allow;
     check_mcp_requirement := fun _ _ => Ok allow;
     check_region_requirements := fun _ _ => Ok allow;
     check_limits_for_operation := fun _ _ _ => Ok allow;
     verify_agent_passport := fun _ => Ok demo_agent;
     has_policy_access := fun _ _ _ => Ok true;
     get_policy := fun policy_id => Ok (JObj [("id", JStr policy_id)]);
     verify_policy := fun _ _ _ => Ok (JObj [("allow", JBool true)]);
     get_policy_result := fun _ => Ok None;
     extract_agent_id_from_request := fun request => Ok (header_agent_id request);
     validate_policy_call := fun agent_id policy_id => Ok (agent_id, policy_id);
     validate_agent_id_present := fun agent_id request =>
       match agent_id with
       | Some a => Ok a
       | None => Raise (HTTPException 400 (JObj [("error", JStr "missing_agent_id")]))
       end |}.

(** A request whose JSON body is a list. *)
Definition list_body_request : Request :=
  {| req_method := "POST"; req_path := "/api/refunds";
     req_headers := [("x-agent-passport-id", "ap_123")];
     req_cached_json := None; req_json := Ok (JArr [JNum 1; JNum 2]);
     req_state := empty_state |}.

(** A verification response whose evaluation holds the four dimensions,
    all true. *)
Definition complete_evaluation : list (string * json) :=
  [("capability_ok", JBool true); ("assurance_ok", JBool true);
   ("limits_ok", JBool true); ("regions_ok", JBool true)].

Definition complete_passport : list (string * json) :=
  [("agent_id", JStr "ap_123"); ("evaluation", JObj complete_evaluation)].

Definition complete_response : list (string * json) :=
  [("allow", JBool true); ("passport", JObj complete_passport)].

(** The denials of [middleware_v2]'s [dispatch], step by step. *)
Definition insufficient_permissions_403 (options : AgentPassportMiddlewareOptions)
           (current : json) : Response :=
  JSONResponse 403
    (JObj [("error", JStr "insufficient_permissions");
           ("message", JStr "Agent does not have required permissions");
           ("required", strs (required_permissions options));
           ("current", current)]).

Definition region_not_allowed_403 (options : AgentPassportMiddlewareOptions)
           (current : json) : Response :=
  JSONResponse 403
    (JObj [("error", JStr "region_not_allowed");
           ("message", JStr "Agent is not allowed in this region");
           ("allowed", strs (allowed_regions options));
           ("current", current)]).

Definition insufficient_assurance_403 (E : Env) (assurance_check : verdict) : Response :=
  JSONResponse 403
    (JObj [("error", JStr "insufficient_assurance");
           ("message",
            JStr ("This operation requires "
                  +:+ py_str (repr E)
                        (dict_get assurance_check "required_level_name" (JStr "higher"))
                  +:+ " assurance level"));
           ("current_level", dict_get assurance_check "current_level" JNull);
           ("current_level_name", dict_get assurance_check "current_level_name" JNull);
           ("required_level", dict_get assurance_check "required_level" JNull);
           ("required_level_name", dict_get assurance_check "required_level_name" JNull);
           ("upgrade_instructions", dict_get assurance_check "upgrade_instructions" JNull);
           ("docs_url", dict_get assurance_check "docs_url" JNull)]).

Definition mcp_denied_403 (mcp_check : verdict) : Response :=
  JSONResponse 403
    (dict_get mcp_check "error"
       (JObj [("error", JStr "mcp_denied");
              ("message", JStr "MCP access denied")])).

Definition region_validation_403 (options : AgentPassportMiddlewareOptions)
           (region_check : verdict) (agent_regions : json) : Response :=
  JSONResponse 403
    (JObj [("error", dict_get region_check "reason" (JStr "region_not_allowed"));
           ("message", dict_get region_check "error" (JStr "Region validation failed"));
           ("allowed_regions", strs (allowed_regions options));
           ("agent_regions", agent_regions)]).

Definition limits_exceeded_403 (limits_check : verdict) (agent_limits : json) : Response :=
  JSONResponse 403
    (JObj [("error", JStr "limits_exceeded");
           ("message", JStr "Request exceeds agent limits");
           ("violations", dict_get limits_check "violations" (JArr []));
           ("limits", agent_limits)]).

(** The configured permission check of [middleware_v2] passes. *)
Definition passes_permission_check (S : SDK) (options : AgentPassportMiddlewareOptions)
           (agent : AgentPassport) : Prop :=
  required_permissions options = [] \/
  all_m (client_has_permission S agent) (required_permissions options) = Ok true.

(** The SDK with another capability evaluator. *)
Definition with_capability_evaluator (S : SDK)
           (evaluator : string -> list json -> result verdict) : SDK :=
  {| client_verify_agent_passport := client_verify_agent_passport S;
     client_has_permission := client_has_permission S;
     client_is_allowed_in_region := client_is_allowed_in_region S;
     check_capability_requirement := evaluator;
     check_assurance_requirement := check_assurance_requirement S;
     check_mcp_requirement := check_mcp_requirement S;
     check_region_requirements := check_region_requirements S;
     check_limits_for_operation := check_limits_for_operation S;
     verify_agent_passport := verify_agent_passport S;
     has_policy_access := has_policy_access S;
     get_policy := get_policy S;
     verify_policy := verify_policy S;
     get_policy_result := get_policy_result S;
     extract_agent_id_from_request := extract_agent_id_from_request S;
     validate_policy_call := validate_policy_call S;
     validate_agent_id_present := validate_agent_id_present S |}.

(** The SDK with another MCP evaluator. *)
Definition with_mcp_evaluator (S : SDK)
           (evaluator : list (string * string) -> AgentPassport -> result verdict) : SDK :=
  {| client_verify_agent_passport := client_verify_agent_passport S;
     client_has_permission := client_has_permission S;
     client_is_allowed_in_region := client_is_allowed_in_region S;
     check_capability_requirement := check_capability_requirement S;
     check_assurance_requirement := check_assurance_requirement S;
     check_mcp_requirement := evaluator;
     check_region_requirements := check_region_requirements S;
     check_limits_for_operation := check_limits_for_operation S;
     verify_agent_passport := verify_agent_passport S;
     has_policy_access := has_policy_access S;
     get_policy := get_policy S;
     verify_policy := verify_policy S;
     get_policy_result := get_policy_result S;
     extract_agent_id_from_request := extract_agent_id_from_request S;
     validate_policy_call := validate_policy_call S;
     validate_agent_id_present := validate_agent_id_present S |}.

(** An MCP evaluator that allows a passport only when each of its
    capabilities is a string. *)
Definition string_capabilities_only (headers : list (string * string))
           (agent : AgentPassport) : result verdict :=
  match assoc "capabilities" agent with
  | Some (JArr items) => Ok (if forallb is_str items then allow else deny)
  | _ => Ok deny
  end.

(** A capability evaluator that allows a list of strings only. *)
Definition strings_only (path : string) (capabilities : list json) : result verdict :=
  Ok (if forallb is_str capabilities then allow else deny).

(** Evaluators that answer the same whatever they are given. *)
Definition always_allow {A B : Type} (a : A) (b : B) : result verdict := Ok allow.
Definition always_deny {A B : Type} (a : A) (b : B) : result verdict := Ok deny.

(* ===================================================================== *)
(** * Properties *)
(* ===================================================================== *)

Ltac unfold_m :=
  unfold or_continue, await_call_next, await_sdk, client_post, client_get, log,
         now_timestamp, cache_lookup, cache_store, emit, try_except, lift,
         raise, bind, ret in *.

Lemma existsb_eqb_In (x : string) (l : list string) :
  existsb (String.eqb x) l = true <-> In x l.
Proof.
  rewrite existsb_exists. split.
  - intros (y & Hin & Heq). apply String.eqb_eq in Heq. now subst.
  - intros Hin. exists x. split; [assumption | apply String.eqb_refl].
Qed.

Lemma simple_should_skip options request :
  MiddlewareSimple._should_skip_request options request = true <->
  In (req_method request) (skip_methods options) \/
  exists path, In path (skip_paths options) /\ String.prefix path (req_path request) = true.
Proof.
  unfold MiddlewareSimple._should_skip_request.
  rewrite <- existsb_eqb_In, <- existsb_exists.
  destruct (existsb (String.eqb _) _), (existsb (fun _ => String.prefix _ _) _);
    intuition congruence.
Qed.

Lemma v2_should_skip options request :
  MiddlewareV2._should_skip_request options request = true <->
  In (req_method request) (skip_methods options) \/
  exists path, In path (skip_paths options) /\ String.prefix path (req_path request) = true.
Proof. apply simple_should_skip. Qed.

Lemma v3_should_skip options request :
  MiddlewareV3._should_skip_verification options request = true <->
  In (req_path request) (skip_paths options) \/
  In (req_method request) (skip_methods options).
Proof.
  unfold MiddlewareV3._should_skip_verification.
  rewrite <- !existsb_eqb_In.
  destruct (existsb _ (skip_paths _)), (existsb _ (skip_methods _)); intuition congruence.
Qed.

(** Claim C10.  A request whose method is listed in [skip_methods], or
    whose path matches an entry of [skip_paths] (by prefix in
    [middleware_simple] and [middleware_v2], by equality in
    [middleware_v3]), goes straight to the downstream handler: [dispatch]
    returns the handler's response, the only effect performed is the
    call of the handler (no passport verification, no network call), and
    the handler receives the request as it came, with [request.state]
    untouched. *)
Theorem skipped_request_reaches_handler_untouched
        E S options request call_next response w :
  call_next request = Ok response ->
  ((In (req_method request) (skip_methods options) \/
    exists path, In path (skip_paths options) /\
                 String.prefix path (req_path request) = true) ->
   MiddlewareSimple.dispatch E S options request call_next w
     = (Ok response, record_event w (EvCallNext request)) /\
   MiddlewareV2.dispatch E S options request call_next w
     = (Ok response, record_event w (EvCallNext request))) /\
  ((In (req_method request) (skip_methods options) \/
    In (req_path request) (skip_paths options)) ->
   MiddlewareV3.dispatch E S options request call_next w
     = (Ok response, record_event w (EvCallNext request))).
Proof.
  intros Hnext. split.
  - intros Hskip.
    pose proof (proj2 (simple_should_skip options request) Hskip) as Hs.
    pose proof (proj2 (v2_should_skip options request) Hskip) as Hs2.
    unfold MiddlewareSimple.dispatch, MiddlewareSimple.dispatch_body,
           MiddlewareV2.dispatch, MiddlewareV2.dispatch_body.
    rewrite Hs, Hs2. unfold_m. rewrite Hnext. split; reflexivity.
  - intros Hskip.
    assert (Hs : MiddlewareV3._should_skip_verification options request = true)
      by (apply v3_should_skip; tauto).
    unfold MiddlewareV3.dispatch, MiddlewareV3.dispatch_body.
    rewrite Hs. unfold_m. rewrite Hnext. reflexivity.
Qed.

(** The theorem at a preflight request. *)
Lemma skipped_request_witness :
  ok_handler preflight_request = Ok (JSONResponse 200 (JObj [("ok", JBool true)])) /\
  In (req_method preflight_request) (skip_methods (demo_options true [])) /\
  (MiddlewareSimple.dispatch demo_env (demo_sdk allow allow internal_failure)
     (demo_options true []) preflight_request ok_handler initial_world
   = (Ok (JSONResponse 200 (JObj [("ok", JBool true)])),
      record_event initial_world (EvCallNext preflight_request)) /\
   MiddlewareV2.dispatch demo_env (demo_sdk allow allow internal_failure)
     (demo_options true []) preflight_request ok_handler initial_world
   = (Ok (JSONResponse 200 (JObj [("ok", JBool true)])),
      record_event initial_world (EvCallNext preflight_request))) /\
  MiddlewareV3.dispatch demo_env (demo_sdk allow allow internal_failure)
     (demo_options true []) preflight_request ok_handler initial_world
   = (Ok (JSONResponse 200 (JObj [("ok", JBool true)])),
      record_event initial_world (EvCallNext preflight_request)).
Proof.
  assert (Hin : In (req_method preflight_request) (skip_methods (demo_options true [])))
    by (simpl; tauto).
  destruct (skipped_request_reaches_handler_untouched
              demo_env (demo_sdk allow allow internal_failure) (demo_options true [])
              preflight_request ok_handler _ initial_world eq_refl) as [H12 H3].
  split; [reflexivity |]. split; [exact Hin |].
  split; [apply H12; left; exact Hin | apply H3; left; exact Hin].
Defined.

Lemma bearer_token_none (auth_header : option string) :
  (forall h, auth_header = Some h -> String.prefix "Bearer " h = false) ->
  bearer_token auth_header = None.
Proof.
  intros H. destruct auth_header as [h |]; [| reflexivity].
  unfold bearer_token. rewrite (H h eq_refl), andb_false_r. reflexivity.
Qed.

(** Claim C7, amended.  With [fail_closed] set, a request that is not
    skipped and carries no agent identifier (no [X-Agent-Passport-Id]
    header, no [X-Agent-ID] header, no [Bearer] token) is answered at
    once with the error [missing_agent_id], without any effect, hence
    without contacting the directory: the status is 400 in
    [middleware_simple] and [middleware_v2], and 401 in [middleware_v3]. *)
Theorem missing_agent_id_fails_fast E S options request call_next w :
  fail_closed options = true ->
  (MiddlewareSimple._should_skip_request options request = false ->
   header request "x-agent-passport-id" = None ->
   header request "x-agent-id" = None ->
   (forall h, header request "authorization" = Some h ->
              String.prefix "Bearer " h = false) ->
   MiddlewareSimple.dispatch E S options request call_next w
     = (Ok missing_agent_id_400, w) /\
   MiddlewareV2.dispatch E S options request call_next w
     = (Ok missing_agent_id_400, w)) /\
  (MiddlewareV3._should_skip_verification options request = false ->
   forall agent_id,
     extract_agent_id_from_request S request = Ok agent_id ->
     str_truthy agent_id = false ->
     MiddlewareV3.dispatch E S options request call_next w
       = (Ok missing_agent_id_401, w)).
Proof.
  intros Hclosed. split.
  - intros Hskip H1 H2 H3.
    assert (Hskip2 : MiddlewareV2._should_skip_request options request = false)
      by exact Hskip.
    unfold MiddlewareSimple.dispatch, MiddlewareSimple.dispatch_body,
           MiddlewareV2.dispatch, MiddlewareV2.dispatch_body.
    rewrite Hskip, Hskip2, H1, H2, (bearer_token_none _ H3).
    unfold_m. simpl. rewrite Hclosed. split; reflexivity.
  - intros Hskip agent_id Hextract Hfalsy.
    unfold MiddlewareV3.dispatch, MiddlewareV3.dispatch_body.
    rewrite Hskip. unfold_m. rewrite Hextract, Hfalsy, Hclosed. reflexivity.
Qed.

(** The theorem at a request without headers. *)
Lemma missing_agent_id_witness :
  fail_closed (demo_options true []) = true /\
  (MiddlewareSimple.dispatch demo_env (demo_sdk allow allow internal_failure)
     (demo_options true []) anonymous_request ok_handler initial_world
   = (Ok missing_agent_id_400, initial_world) /\
   MiddlewareV2.dispatch demo_env (demo_sdk allow allow internal_failure)
     (demo_options true []) anonymous_request ok_handler initial_world
   = (Ok missing_agent_id_400, initial_world)) /\
  MiddlewareV3.dispatch demo_env (demo_sdk allow allow internal_failure)
     (demo_options true []) anonymous_request ok_handler initial_world
   = (Ok missing_agent_id_401, initial_world).
Proof.
  destruct (missing_agent_id_fails_fast
              demo_env (demo_sdk allow allow internal_failure) (demo_options true [])
              anonymous_request ok_handler initial_world eq_refl) as [H12 H3].
  split; [reflexivity |]. split.
  - apply H12; try reflexivity. intros h Hh. discriminate Hh.
  - apply (H3 eq_refl None); reflexivity.
Defined.

(** Claim C7 as stated asks for a 400 in the three modules; the answer
    of [middleware_v3] to a request without headers has status 401. *)
Lemma missing_agent_id_v3_status_is_401 :
  req_headers anonymous_request = [] /\
  MiddlewareV3._should_skip_verification (demo_options true []) anonymous_request = false /\
  fail_closed (demo_options true []) = true /\
  exists content,
    MiddlewareV3.dispatch demo_env (demo_sdk allow allow internal_failure)
      (demo_options true []) anonymous_request ok_handler initial_world
    = (Ok (JSONResponse 401 content), initial_world) /\
    resp_status (JSONResponse 401 content) <> 400.
Proof.
  repeat split; try reflexivity.
  eexists. split; [reflexivity |]. simpl. lia.
Qed.

(** On a capabilities list whose elements are plain strings or records
    whose [id] is a string, [_extract_capability_ids] returns those
    strings. *)
Lemma extract_string_ids E (capabilities : list json) (ids : list string) :
  mapM capability_id capabilities = Some ids ->
  MiddlewareV2._extract_capability_ids E capabilities = map JStr ids.
Proof.
  revert ids. induction capabilities as [| cap rest IH]; intros ids Hids.
  - injection Hids as <-. reflexivity.
  - simpl in Hids.
    destruct (capability_id cap) as [s |] eqn:Hcap; simpl in Hids; [| discriminate].
    destruct (mapM capability_id rest) as [ids' |]; simpl in Hids; [| discriminate].
    injection Hids as <-. simpl. rewrite (IH ids' eq_refl). f_equal.
    destruct cap as [| | | s' | | fields]; try discriminate Hcap.
    + injection Hcap as ->. reflexivity.
    + simpl in Hcap. unfold dict_get.
      destruct (assoc "id" fields) as [[| | | s' | |] |]; try discriminate Hcap.
      injection Hcap as ->. reflexivity.
Qed.

Lemma convert_policy_response_dict E fields passport_data evaluation policy w :
  dict_get fields "passport" (JObj []) = JObj passport_data ->
  dict_get passport_data "evaluation" (JObj []) = JObj evaluation ->
  exists result,
    PolicyEnforcementV2.convert_policy_response E (JObj fields) policy w
      = (Ok result, tick w) /\
    checks result =
      [("capability", dict_get evaluation "capability_ok" (JBool false));
       ("assurance", dict_get evaluation "assurance_ok" (JBool false));
       ("limits", dict_get evaluation "limits_ok" (JBool false));
       ("regions", dict_get evaluation "regions_ok" (JBool false))].
Proof.
  intros Hp He. unfold PolicyEnforcementV2.convert_policy_response.
  unfold_m. simpl. rewrite Hp. simpl. rewrite He. simpl.
  eexists. split; reflexivity.
Qed.

(** Claim C4.  [has_policy_access(request)] is true exactly when a
    policy result is attached to the request ([request.state.policy_result])
    and every value of [result.checks] is true (Python's truth value,
    which on the booleans of the evaluation payload is the boolean
    itself); an attached result is the one that [get_policy_result]
    finds.  The checks that [convert_policy_response] builds are the
    four dimensions capability, assurance, limits, regions, each with
    the value of its key in the server's evaluation payload, so that
    access is granted exactly when the four keys are true; a dimension
    missing from the payload is [False] there, so that access is
    denied. *)
Theorem policy_access_iff_every_check_true :
  (forall request,
      PolicyEnforcementV2.has_policy_access request = true <->
      exists result,
        st_policy_result (req_state request) = Some result /\
        forall dimension value,
          In (dimension, value) (checks result) -> truthy value = true) /\
  (forall request result,
      PolicyEnforcementV2.get_policy_result (set_policy_result request result)
        = Some result /\
      (PolicyEnforcementV2.has_policy_access (set_policy_result request result) = true <->
       forall dimension value,
         In (dimension, value) (checks result) -> truthy value = true)) /\
  (forall E fields passport_data evaluation policy request w,
      dict_get fields "passport" (JObj []) = JObj passport_data ->
      dict_get passport_data "evaluation" (JObj []) = JObj evaluation ->
      exists result,
        PolicyEnforcementV2.convert_policy_response E (JObj fields) policy w
          = (Ok result, tick w) /\
        map fst (checks result) = map snd evaluation_keys /\
        (forall key dimension,
            In (key, dimension) evaluation_keys ->
            assoc dimension (checks result)
              = Some (dict_get evaluation key (JBool false))) /\
        (PolicyEnforcementV2.has_policy_access (set_policy_result request result) = true <->
         forall key dimension,
           In (key, dimension) evaluation_keys ->
           truthy (dict_get evaluation key (JBool false)) = true) /\
        (forall key dimension,
            In (key, dimension) evaluation_keys ->
            assoc key evaluation = None ->
            assoc dimension (checks result) = Some (JBool false) /\
            PolicyEnforcementV2.has_policy_access (set_policy_result request result)
              = false)).
Proof.
  assert (Hiff : forall request,
             PolicyEnforcementV2.has_policy_access request = true <->
             exists result,
               st_policy_result (req_state request) = Some result /\
               forall dimension value,
                 In (dimension, value) (checks result) -> truthy value = true).
  { intros request.
    unfold PolicyEnforcementV2.has_policy_access, PolicyEnforcementV2.get_policy_result.
    destruct (st_policy_result (req_state request)) as [result |].
    - unfold py_all, dict_values. rewrite forallb_forall. split.
      + intros H. exists result. split; [reflexivity |].
        intros dimension value Hin. apply H.
        apply in_map_iff. exists (dimension, value). auto.
      + intros (result' & Heq & H). injection Heq as <-.
        intros value Hin. apply in_map_iff in Hin as ([dimension v] & <- & Hin).
        apply (H dimension v Hin).
    - split; [discriminate |]. intros (result & Heq & _). discriminate. }
  assert (Hset : forall request result,
             PolicyEnforcementV2.has_policy_access (set_policy_result request result) = true <->
             forall dimension value,
               In (dimension, value) (checks result) -> truthy value = true).
  { intros request result. rewrite Hiff. simpl. split.
    - intros (result' & [= <-] & H). exact H.
    - intros H. exists result. split; [reflexivity | exact H]. }
  split; [exact Hiff |]. split.
  - intros request result. split; [reflexivity | apply Hset].
  - intros E fields passport_data evaluation policy request w Hp He.
    destruct (convert_policy_response_dict E fields passport_data evaluation policy w Hp He)
      as (result & Hrun & Hchecks).
    exists result. split; [exact Hrun |]. split; [rewrite Hchecks; reflexivity |].
    assert (Hassoc : forall key dimension,
               In (key, dimension) evaluation_keys ->
               assoc dimension (checks result)
                 = Some (dict_get evaluation key (JBool false))).
    { intros key dimension Hin. rewrite Hchecks.
      destruct Hin as [Hin | [Hin | [Hin | [Hin | []]]]];
        injection Hin as <- <-; reflexivity. }
    assert (Hgrant :
      PolicyEnforcementV2.has_policy_access (set_policy_result request result) = true <->
      forall key dimension,
        In (key, dimension) evaluation_keys ->
        truthy (dict_get evaluation key (JBool false)) = true).
    { rewrite Hset, Hchecks. split.
      - intros H key dimension Hin. apply (H dimension).
        destruct Hin as [Hin | [Hin | [Hin | [Hin | []]]]];
          injection Hin as <- <-; simpl; tauto.
      - intros H dimension value Hin.
        destruct Hin as [Hin | [Hin | [Hin | [Hin | []]]]];
          injection Hin as <- <-;
          [ apply (H "capability_ok" "capability")
          | apply (H "assurance_ok" "assurance")
          | apply (H "limits_ok" "limits")
          | apply (H "regions_ok" "regions") ]; simpl; tauto. }
    split; [exact Hassoc |]. split; [exact Hgrant |].
    intros key dimension Hin Hnone.
    assert (Hfalse : dict_get evaluation key (JBool false) = JBool false)
      by (unfold dict_get; rewrite Hnone; reflexivity).
    split; [rewrite (Hassoc key dimension Hin), Hfalse; reflexivity |].
    destruct (PolicyEnforcementV2.has_policy_access (set_policy_result request result))
      eqn:Haccess; [| reflexivity].
    pose proof (proj1 Hgrant eq_refl key dimension Hin) as Htrue.
    rewrite Hfalse in Htrue. discriminate.
Qed.

(** The theorem at an evaluation payload with the four dimensions true,
    where access is granted, and at one without [regions_ok], where it
    is denied. *)
Lemma policy_access_witness :
  (dict_get complete_response "passport" (JObj []) = JObj complete_passport /\
   dict_get complete_passport "evaluation" (JObj []) = JObj complete_evaluation /\
   exists result,
     PolicyEnforcementV2.convert_policy_response demo_env (JObj complete_response)
       demo_policy initial_world = (Ok result, tick initial_world) /\
     PolicyEnforcementV2.get_policy_result
       (set_policy_result (refund_request small_refund) result) = Some result /\
     PolicyEnforcementV2.has_policy_access
       (set_policy_result (refund_request small_refund) result) = true) /\
  (dict_get partial_response "passport" (JObj []) = JObj partial_passport /\
   dict_get partial_passport "evaluation" (JObj []) = JObj partial_evaluation /\
   In ("regions_ok", "regions") evaluation_keys /\
   assoc "regions_ok" partial_evaluation = None /\
   exists result,
     PolicyEnforcementV2.convert_policy_response demo_env (JObj partial_response)
       demo_policy initial_world = (Ok result, tick initial_world) /\
     assoc "regions" (checks result) = Some (JBool false) /\
     PolicyEnforcementV2.has_policy_access
       (set_policy_result (refund_request small_refund) result) = false).
Proof.
  destruct policy_access_iff_every_check_true as (_ & Hattached & Hconvert).
  assert (Hin : In ("regions_ok", "regions") evaluation_keys)
    by (simpl; tauto).
  split.
  - split; [reflexivity |]. split; [reflexivity |].
    destruct (Hconvert demo_env complete_response complete_passport complete_evaluation
                demo_policy (refund_request small_refund) initial_world eq_refl eq_refl)
      as (result & Hrun & _ & _ & Hgrant & _).
    exists result. split; [exact Hrun |].
    split; [exact (proj1 (Hattached (refund_request small_refund) result)) |].
    apply Hgrant. intros key dimension Hkey.
    destruct Hkey as [Hkey | [Hkey | [Hkey | [Hkey | []]]]];
      injection Hkey as <- <-; reflexivity.
  - split; [reflexivity |]. split; [reflexivity |]. split; [exact Hin |].
    split; [reflexivity |].
    destruct (Hconvert demo_env partial_response partial_passport partial_evaluation
                demo_policy (refund_request small_refund) initial_world eq_refl eq_refl)
      as (result & Hrun & _ & _ & _ & Hmissing).
    exists result. split; [exact Hrun |].
    exact (Hmissing "regions_ok" "regions" Hin eq_refl).
Defined.

Section VerificationCache.
Context (E : Env) (config : PolicyEnforcementV2.PolicyEnforcementConfig).
Context (agent_id policy_id : string).

Let key := PolicyEnforcementV2.cache_key policy_id agent_id.

Lemma verify_hit context w entry :
  w_cache w !! key = Some entry ->
  clock E (w_reads w) < ce_expires entry ->
  PolicyEnforcementV2.verify_policy_compliance E agent_id policy_id context config w
    = (Ok (Some (ce_result entry)), tick w).
Proof.
  intros Hentry Hlt. unfold PolicyEnforcementV2.verify_policy_compliance.
  unfold_m. simpl. fold key. rewrite Hentry. simpl.
  apply Z.ltb_lt in Hlt. rewrite Hlt. reflexivity.
Qed.

(** On a miss, the call is the guarded POST run from [after_lookup w]. *)
Lemma verify_miss context w :
  fresh_entry E w key = None ->
  exists events,
    let run := PolicyEnforcementV2.verify_policy_compliance
                 E agent_id policy_id context config w in
    let w0 := after_lookup w key in
    run.1 = Ok (server_result E config agent_id policy_id context) /\
    w_trace run.2
      = w_trace w ++ EvPost (verify_url config policy_id) (verify_body agent_id context)
                     :: events /\
    (forall result, server_result E config agent_id policy_id context = Some result ->
                    events = []) /\
    w_cache run.2
      = match server_result E config agent_id policy_id context with
        | Some result =>
            if allows result
            then <[key := stored_entry config result (clock E (w_reads w0))]> (w_cache w)
            else w_cache w
        | None => w_cache w
        end /\
    w_reads run.2
      = match server_result E config agent_id policy_id context with
        | Some result => if allows result then S (w_reads w0) else w_reads w0
        | None => w_reads w0
        end.
Proof.
  unfold fresh_entry, after_lookup, server_result, verify_url, verify_body.
  unfold PolicyEnforcementV2.verify_policy_compliance. unfold_m. simpl. fold key.
  intros Hfresh.
  assert (Hexpired :
    match w_cache w !! key with
    | Some entry => (clock E (w_reads w) <? ce_expires entry) = false
    | None => True
    end).
  { destruct (w_cache w !! key) as [entry |]; [| exact I].
    destruct (clock E (w_reads w) <? ce_expires entry); [discriminate | reflexivity]. }
  clear Hfresh.
  destruct (w_cache w !! key) as [entry |]; simpl; [rewrite Hexpired |];
    (destruct (http_post E _ _) as [reply | e]; simpl;
     [ destruct (reply_status reply =? 200); simpl;
       [ destruct (reply_json reply) as [result | e]; simpl;
         [ destruct result as [| | | | | fields]; simpl;
           [ | | | | | destruct (truthy (dict_get fields "allow" JNull)); simpl ] | ] | ] | ]);
    eexists; (split; [reflexivity |]);
    (split; [rewrite <- ?app_assoc; reflexivity |]);
    (split; [first [ intros; discriminate | reflexivity ] |]); split; reflexivity.
Qed.

Lemma fresh_entry_Some w entry :
  fresh_entry E w key = Some entry ->
  w_cache w !! key = Some entry /\ clock E (w_reads w) < ce_expires entry.
Proof.
  unfold fresh_entry. destruct (w_cache w !! key) as [c |]; [| discriminate].
  destruct (clock E (w_reads w) <? ce_expires c) eqn:Hlt; [| discriminate].
  intros [= ->]. split; [reflexivity | now apply Z.ltb_lt].
Qed.

Lemma fresh_entry_expired w entry :
  w_cache w !! key = Some entry ->
  ce_expires entry <= clock E (w_reads w) ->
  fresh_entry E w key = None.
Proof.
  intros Hentry Hle. unfold fresh_entry. rewrite Hentry.
  destruct (clock E (w_reads w) <? ce_expires entry) eqn:Hlt; [| reflexivity].
  apply Z.ltb_lt in Hlt. lia.
Qed.

Lemma verify_preserves_invariant context w :
  cache_allows_only w ->
  cache_allows_only
    (PolicyEnforcementV2.verify_policy_compliance E agent_id policy_id context config w).2.
Proof.
  intros Hinv.
  destruct (fresh_entry E w key) as [entry |] eqn:Hfresh.
  - apply fresh_entry_Some in Hfresh as [Hentry Hlt].
    rewrite (verify_hit context w entry Hentry Hlt). exact Hinv.
  - destruct (verify_miss context w Hfresh) as (events & _ & _ & _ & Hcache & _).
    intros k entry. rewrite Hcache.
    destruct (server_result E config agent_id policy_id context) as [result |];
      [| apply Hinv].
    destruct (allows result) eqn:Hallow; [| apply Hinv].
    fold key. destruct (decide (key = k)) as [<- | Hne].
    + rewrite lookup_insert_eq. intros [= <-]. exact Hallow.
    + rewrite lookup_insert_ne by exact Hne. apply Hinv.
Qed.

(** A denial is never the content of the cache: it comes from a call to
    the directory, and leaves the cache as it was. *)
Lemma verify_denied context w result :
  cache_allows_only w ->
  (PolicyEnforcementV2.verify_policy_compliance E agent_id policy_id context config w).1
    = Ok (Some result) ->
  allows result = false ->
  let w' := (PolicyEnforcementV2.verify_policy_compliance
               E agent_id policy_id context config w).2 in
  w_cache w' = w_cache w /\
  w_trace w' = w_trace w ++ [EvPost (verify_url config policy_id)
                                    (verify_body agent_id context)].
Proof.
  intros Hinv Hrun Hdenied.
  destruct (fresh_entry E w key) as [entry |] eqn:Hfresh.
  - apply fresh_entry_Some in Hfresh as [Hentry Hlt].
    rewrite (verify_hit context w entry Hentry Hlt) in Hrun.
    injection Hrun as <-. rewrite (Hinv _ _ Hentry) in Hdenied. discriminate.
  - destruct (verify_miss context w Hfresh) as (events & Hres & Htrace & Hev & Hcache & _).
    simpl in *. rewrite Hres in Hrun. injection Hrun as Hserver.
    rewrite Hserver, Hdenied in Hcache. split; [exact Hcache |].
    rewrite Htrace, (Hev result Hserver). reflexivity.
Qed.

End VerificationCache.

(** Claim C2.  [verify_policy_compliance] writes the verification cache
    if and only if the call reaches the directory and the directory's
    result has a true [allow]: on a miss the cache afterwards is the
    cache before, with the result inserted under the key exactly when
    [allow] is true, the entry expiring [cache_ttl] seconds after the
    time of storage.  An entry is returned, without any call, as long as
    the clock is before its expiry, and a call is made once the expiry
    has passed.  A denied result is never stored: it always comes from a
    fresh call and leaves the cache unchanged, so that two consecutive
    identical denied requests perform two calls to the directory. *)
Theorem verification_cache_holds_allow_decisions_only
        E config agent_id policy_id context w :
  let key := PolicyEnforcementV2.cache_key policy_id agent_id in
  let verify := PolicyEnforcementV2.verify_policy_compliance
                  E agent_id policy_id context config in
  let post := EvPost (verify_url config policy_id) (verify_body agent_id context) in
  (fresh_entry E w key = None ->
   (verify w).1 = Ok (server_result E config agent_id policy_id context) /\
   w_cache (verify w).2
     = match server_result E config agent_id policy_id context with
       | Some result =>
           if allows result
           then <[key := stored_entry config result
                           (clock E (w_reads (after_lookup w key)))]> (w_cache w)
           else w_cache w
       | None => w_cache w
       end) /\
  (forall entry,
      w_cache w !! key = Some entry ->
      (clock E (w_reads w) < ce_expires entry ->
       verify w = (Ok (Some (ce_result entry)), tick w)) /\
      (ce_expires entry <= clock E (w_reads w) ->
       exists events, w_trace (verify w).2 = w_trace w ++ post :: events)) /\
  (cache_allows_only w ->
   cache_allows_only (verify w).2 /\
   forall result,
     (verify w).1 = Ok (Some result) ->
     allows result = false ->
     w_cache (verify w).2 = w_cache w /\
     w_trace (verify w).2 = w_trace w ++ [post] /\
     forall result',
       (verify (verify w).2).1 = Ok (Some result') ->
       allows result' = false ->
       w_cache (verify (verify w).2).2 = w_cache w /\
       w_trace (verify (verify w).2).2 = w_trace w ++ [post; post]).
Proof.
  intros key verify post. split; [| split].
  - intros Hfresh.
    destruct (verify_miss E config agent_id policy_id context w Hfresh)
      as (events & Hres & _ & _ & Hcache & _).
    split; [exact Hres | exact Hcache].
  - intros entry Hentry. split.
    + intros Hlt. apply verify_hit; assumption.
    + intros Hle.
      pose proof (fresh_entry_expired E agent_id policy_id w entry Hentry Hle) as Hfresh.
      destruct (verify_miss E config agent_id policy_id context w Hfresh)
        as (events & _ & Htrace & _).
      exists events. exact Htrace.
  - intros Hinv.
    pose proof (verify_preserves_invariant E config agent_id policy_id context w Hinv)
      as Hinv'.
    split; [exact Hinv' |].
    intros result Hrun Hdenied.
    destruct (verify_denied E config agent_id policy_id context w result Hinv Hrun Hdenied)
      as [Hcache Htrace].
    split; [exact Hcache |]. split; [exact Htrace |].
    intros result' Hrun' Hdenied'.
    destruct (verify_denied E config agent_id policy_id context _ result' Hinv' Hrun' Hdenied')
      as [Hcache' Htrace'].
    split; [unfold verify; rewrite Hcache'; exact Hcache |].
    unfold verify. rewrite Htrace', Htrace, <- app_assoc. reflexivity.
Qed.

Lemma initial_world_allows_only : cache_allows_only initial_world.
Proof. intros key entry H. simpl in H. rewrite lookup_empty in H. discriminate. Qed.

(** The theorem at a denied refund, asked twice from the empty cache,
    and at an allowed refund, asked again within the time to live. *)
Lemma verification_cache_witness :
  let verify := PolicyEnforcementV2.verify_policy_compliance
                  demo_env "ap_123" refund_policy in
  let config := PolicyEnforcementV2.default_config in
  let key := PolicyEnforcementV2.cache_key refund_policy "ap_123" in
  let post := EvPost (verify_url config refund_policy) (verify_body "ap_123" large_refund) in
  (* a denial, twice, from the empty cache *)
  (fresh_entry demo_env initial_world key = None /\
   cache_allows_only initial_world /\
   (verify large_refund config initial_world).1 = Ok (Some deny_reply) /\
   allows deny_reply = false /\
   w_cache (verify large_refund config initial_world).2 = ∅ /\
   w_trace (verify large_refund config
              (verify large_refund config initial_world).2).2 = [post; post]) /\
  (* an allow-decision, then served from the cache *)
  (w_cache world_after_allow !! key
     = Some (stored_entry config allow_reply 0) /\
   clock demo_env (w_reads world_after_allow)
     < ce_expires (stored_entry config allow_reply 0) /\
   verify small_refund config world_after_allow
     = (Ok (Some allow_reply), tick world_after_allow)).
Proof.
  intros verify config key post.
  pose proof (verification_cache_holds_allow_decisions_only
                demo_env config "ap_123" refund_policy large_refund initial_world)
    as (Hmiss & _ & Hdeny).
  pose proof (verification_cache_holds_allow_decisions_only
                demo_env config "ap_123" refund_policy small_refund world_after_allow)
    as (_ & Hhit & _).
  assert (Hfresh : fresh_entry demo_env initial_world key = None) by reflexivity.
  assert (Hentry : w_cache world_after_allow !! key
                   = Some (stored_entry config allow_reply 0)) by reflexivity.
  assert (Hlt : clock demo_env (w_reads world_after_allow)
                < ce_expires (stored_entry config allow_reply 0)) by reflexivity.
  split.
  - destruct (Hmiss Hfresh) as [Hres _].
    destruct (Hdeny initial_world_allows_only) as [_ Hdenied].
    destruct (Hdenied deny_reply Hres eq_refl) as (Hcache & _ & Hagain).
    destruct (Hagain deny_reply eq_refl eq_refl) as [_ Htrace].
    repeat (split; [first [assumption | reflexivity | exact initial_world_allows_only] |]).
    exact Htrace.
  - split; [exact Hentry |]. split; [exact Hlt |].
    exact (proj1 (Hhit _ Hentry) Hlt).
Defined.

(** Claim C1, amended.  The key of a decision is
    ["policy:<policy_id>:<agent_id>"]: it holds the policy and the agent
    and nothing of the request context.  Once a call has stored an
    allow-decision, every call for the same agent and policy made before
    the entry expires is served that decision, whatever its context and
    without asking the directory. *)
Theorem cached_allow_is_served_whatever_the_context
        E config agent_id policy_id context context' w result :
  let key := PolicyEnforcementV2.cache_key policy_id agent_id in
  let verify := PolicyEnforcementV2.verify_policy_compliance E agent_id policy_id in
  let w1 := (verify context config w).2 in
  let stored_at := clock E (w_reads (after_lookup w key)) in
  key = "policy:" +:+ policy_id +:+ ":" +:+ agent_id /\
  (fresh_entry E w key = None ->
   (verify context config w).1 = Ok (Some result) ->
   allows result = true ->
   w_cache w1 !! key = Some (stored_entry config result stored_at) /\
   (clock E (w_reads w1) < stored_at + PolicyEnforcementV2.cache_ttl config * 1000000 ->
    verify context' config w1 = (Ok (Some result), tick w1))).
Proof.
  intros key verify w1 stored_at. split; [reflexivity |].
  intros Hfresh Hrun Hallow.
  destruct (verify_miss E config agent_id policy_id context w Hfresh)
    as (events & Hres & _ & _ & Hcache & _).
  simpl in Hres, Hcache. unfold verify in Hrun. rewrite Hres in Hrun.
  injection Hrun as Hserver. rewrite Hserver, Hallow in Hcache.
  assert (Hentry : w_cache w1 !! key = Some (stored_entry config result stored_at)).
  { unfold w1, verify. rewrite Hcache. apply lookup_insert_eq. }
  split; [exact Hentry |].
  intros Hlt.
  exact (verify_hit E config agent_id policy_id context' w1 _ Hentry Hlt).
Qed.

(** The theorem at a refund of 50 followed by a refund of 70. *)
Lemma cached_allow_witness :
  let verify := PolicyEnforcementV2.verify_policy_compliance demo_env "ap_123" refund_policy in
  let config := PolicyEnforcementV2.default_config in
  let key := PolicyEnforcementV2.cache_key refund_policy "ap_123" in
  fresh_entry demo_env initial_world key = None /\
  (verify small_refund config initial_world).1 = Ok (Some allow_reply) /\
  allows allow_reply = true /\
  clock demo_env (w_reads world_after_allow) < 0 + 60 * 1000000 /\
  verify (JObj [("amount_cents", JNum 70)]) config world_after_allow
    = (Ok (Some allow_reply), tick world_after_allow).
Proof.
  intros verify config key.
  destruct (cached_allow_is_served_whatever_the_context
              demo_env config "ap_123" refund_policy small_refund
              (JObj [("amount_cents", JNum 70)]) initial_world allow_reply)
    as [_ H].
  assert (Hlt : clock demo_env (w_reads world_after_allow) < 0 + 60 * 1000000)
    by reflexivity.
  destruct (H eq_refl eq_refl eq_refl) as [_ Hserved].
  split; [reflexivity |]. split; [reflexivity |]. split; [reflexivity |].
  split; [exact Hlt | exact (Hserved Hlt)].
Defined.

(** Claim C1 as stated asks that two calls that differ in context never
    share a cached decision.  A refund of 150000, which the directory
    denies, is allowed from the cache once a refund of 50 was allowed
    for the same agent and policy. *)
Lemma cached_allow_crosses_contexts :
  let verify := PolicyEnforcementV2.verify_policy_compliance demo_env "ap_123" refund_policy in
  let config := PolicyEnforcementV2.default_config in
  small_refund <> large_refund /\
  (verify small_refund config initial_world).1 = Ok (Some allow_reply) /\
  (verify large_refund config initial_world).1 = Ok (Some deny_reply) /\
  verify large_refund config world_after_allow
    = (Ok (Some allow_reply), tick world_after_allow) /\
  w_trace (tick world_after_allow) = w_trace world_after_allow.
Proof.
  intros verify config.
  split; [discriminate |]. repeat split; reflexivity.
Qed.

Section PolicyMiddleware.
Context (E : Env) (config : PolicyEnforcementV2.PolicyEnforcementConfig).
Context (agent_id : string) (request : Request) (call_next : Request -> result Response).

Lemma middleware_after_verify policy_id w :
  PolicyEnforcementV2.enabled config = true ->
  PolicyEnforcementV2.request_policy_id request = Some policy_id ->
  policy_id <> "" ->
  PolicyEnforcementV2.middleware E agent_id config request call_next w
  = bind (PolicyEnforcementV2.verify_policy_compliance
            E agent_id policy_id (PolicyEnforcementV2.request_context request) config)
         (fun policy_response =>
            match policy_response with
            | Some policy_response =>
              if negb (truthy policy_response)
              then PolicyEnforcementV2.verification_failed config request call_next
              else
                allow <- lift (py_get policy_response "allow" JNull) ;;
                if negb (truthy allow) then
                  (if PolicyEnforcementV2.log_violations config then
                     reason <- lift (py_get policy_response "reason" JNull) ;;
                     log LogWarning ("Policy violation for agent " +:+ agent_id +:+ ": "
                                     +:+ py_str (repr E) reason)
                   else ret tt) ;;
                  if PolicyEnforcementV2.fail_closed config then
                    reason <- lift (py_get policy_response "reason" (JStr "Policy violation")) ;;
                    violations <- lift (py_get policy_response "violations" (JArr [])) ;;
                    raise (HTTPException 403
                             (JObj [("error", JStr "policy_violation");
                                    ("message", reason);
                                    ("violations", violations);
                                    ("agent_id", JStr agent_id);
                                    ("policy_id", JStr policy_id)]))
                  else
                    log LogWarning "Policy violation detected, allowing request to proceed" ;;
                    await_call_next call_next request
                else
                  policy <- PolicyEnforcementV2.fetch_policy_pack E policy_id config ;;
                  match policy with
                  | Some policy =>
                      policy_result <- PolicyEnforcementV2.convert_policy_response
                                         E policy_response policy ;;
                      await_call_next call_next (set_policy_result request policy_result)
                  | None => await_call_next call_next request
                  end
            | None => PolicyEnforcementV2.verification_failed config request call_next
            end) w.
Proof.
  intros Henabled Hid Hne. unfold PolicyEnforcementV2.middleware.
  rewrite Henabled, Hid. simpl.
  destruct policy_id as [| c s]; [contradiction | reflexivity].
Qed.

End PolicyMiddleware.

(** Claim C3, amended.  In the middleware of [policy_enforcement_v2],
    when the verification completes with a result whose [allow] is
    false: with [fail_closed] set, the request is denied by an
    [HTTPException] of status 403 whose detail holds the error code
    [policy_violation], the reason as message, the violations, the agent
    id and the policy id, and the handler is not called; with
    [fail_closed] unset, the violation is logged and the request goes to
    the handler. *)
Theorem policy_denial_is_surfaced_when_fail_closed
        E config agent_id request call_next policy_id fields w w1 :
  PolicyEnforcementV2.enabled config = true ->
  PolicyEnforcementV2.request_policy_id request = Some policy_id ->
  policy_id <> "" ->
  PolicyEnforcementV2.verify_policy_compliance
    E agent_id policy_id (PolicyEnforcementV2.request_context request) config w
    = (Ok (Some (JObj fields)), w1) ->
  fields <> [] ->
  allows (JObj fields) = false ->
  let w2 := log_violation E config agent_id fields w1 in
  (PolicyEnforcementV2.fail_closed config = true ->
   PolicyEnforcementV2.middleware E agent_id config request call_next w
     = (Raise (policy_violation_403 agent_id policy_id fields), w2)) /\
  (PolicyEnforcementV2.fail_closed config = false ->
   PolicyEnforcementV2.middleware E agent_id config request call_next w
     = (call_next request,
        record_event
          (record_event w2
             (EvLog LogWarning "Policy violation detected, allowing request to proceed"))
          (EvCallNext request))).
Proof.
  intros Henabled Hid Hne Hverify Hfields Hdenied w2.
  assert (Htruthy : truthy (JObj fields) = true)
    by (destruct fields; [contradiction | reflexivity]).
  simpl in Hdenied. unfold w2, log_violation.
  split; intros Hclosed;
    rewrite (middleware_after_verify E config agent_id request call_next policy_id w
               Henabled Hid Hne);
    unfold bind at 1; rewrite Hverify, Htruthy;
    unfold_m; simpl; rewrite Hdenied, Hclosed; simpl;
    destruct (PolicyEnforcementV2.log_violations config); reflexivity.
Qed.

(** The theorem at a denied refund, with the default configuration. *)
Lemma policy_denial_witness :
  let config := PolicyEnforcementV2.default_config in
  let request := refund_request large_refund in
  let w1 := (PolicyEnforcementV2.verify_policy_compliance
               demo_env "ap_123" refund_policy large_refund config initial_world).2 in
  PolicyEnforcementV2.enabled config = true /\
  PolicyEnforcementV2.request_policy_id request = Some refund_policy /\
  refund_policy <> "" /\
  PolicyEnforcementV2.verify_policy_compliance
    demo_env "ap_123" refund_policy (PolicyEnforcementV2.request_context request)
    config initial_world
    = (Ok (Some deny_reply), w1) /\
  allows deny_reply = false /\
  PolicyEnforcementV2.fail_closed config = true /\
  PolicyEnforcementV2.middleware demo_env "ap_123" config request ok_handler initial_world
    = (Raise (HTTPException 403
                (JObj [("error", JStr "policy_violation");
                       ("message", JStr "amount over limit");
                       ("violations", JArr [JStr "refund_amount_max_per_tx"]);
                       ("agent_id", JStr "ap_123");
                       ("policy_id", JStr refund_policy)])),
       record_event w1
         (EvLog LogWarning "Policy violation for agent ap_123: amount over limit")).
Proof.
  intros config request w1.
  assert (Hne : refund_policy <> "") by discriminate.
  assert (Hfields : [("allow", JBool false); ("reason", JStr "amount over limit");
                     ("violations", JArr [JStr "refund_amount_max_per_tx"])]
                    <> ([] : list (string * json))) by discriminate.
  destruct (policy_denial_is_surfaced_when_fail_closed
              demo_env config "ap_123" request ok_handler refund_policy _
              initial_world w1 eq_refl eq_refl Hne eq_refl Hfields eq_refl)
    as [Hclosed _].
  repeat (split; [first [reflexivity | exact Hne] |]).
  exact (Hclosed eq_refl).
Defined.

(** Claim C3 as stated asks that every denial is surfaced.  With
    [fail_closed = False] the denied refund reaches the handler. *)
Lemma policy_denial_bypassed_when_fail_open :
  let request := refund_request large_refund in
  let run := PolicyEnforcementV2.middleware
               demo_env "ap_123" open_config request ok_handler initial_world in
  (PolicyEnforcementV2.verify_policy_compliance
     demo_env "ap_123" refund_policy (PolicyEnforcementV2.request_context request)
     open_config initial_world).1 = Ok (Some deny_reply) /\
  allows deny_reply = false /\
  run.1 = Ok (JSONResponse 200 (JObj [("ok", JBool true)])) /\
  last (w_trace run.2) = Some (EvCallNext request).
Proof. repeat split; reflexivity. Qed.

(** In [middleware_v3], the 403 that [_run_enforcement_checks] raises for
    a policy violation is an [Exception]: the outer handler of
    [dispatch] answers it with the generic 500. *)
Remark v3_dispatch_masks_policy_violation :
  MiddlewareV3._run_enforcement_checks demo_env denying_sdk
    (set_agent agent_request demo_agent) "ap_123" refund_policy
    (record_event initial_world (EvVerifyPassport "ap_123"))
  = (Raise (HTTPException 403
              (JObj [("error", JStr "policy_violation");
                     ("message", JStr "amount over limit");
                     ("agent_id", JStr "ap_123");
                     ("policy_id", JStr refund_policy);
                     ("violations", JArr [])])),
     (MiddlewareV3.dispatch demo_env denying_sdk policy_options agent_request
        ok_handler initial_world).2) /\
  (MiddlewareV3.dispatch demo_env denying_sdk policy_options agent_request
     ok_handler initial_world).1 = Ok middleware_error_500.
Proof. split; reflexivity. Qed.

(** Claim C5, amended.  In the middleware of [policy_enforcement_v2],
    when no cached decision applies and the directory gives no result
    (it cannot be reached, times out, or does not answer 200 with a JSON
    object), the verification yields [None]; then with [fail_closed] set
    the request is denied by an [HTTPException] of status 500
    ([policy_verification_failed]), and with [fail_closed] unset a
    warning is logged and the request goes to the handler as it came,
    with no passport and no policy result attached.  In [middleware_v3],
    a failed passport verification is answered with a 401 (for an
    [AgentPassportError]) or the generic 500 (for any other exception)
    whatever [fail_closed] is, and the handler is not called. *)
Theorem failed_verification_follows_fail_closed_in_policy_enforcement :
  (forall E config agent_id request call_next policy_id w,
      let key := PolicyEnforcementV2.cache_key policy_id agent_id in
      let context := PolicyEnforcementV2.request_context request in
      let run := PolicyEnforcementV2.verify_policy_compliance
                   E agent_id policy_id context config w in
      PolicyEnforcementV2.enabled config = true ->
      PolicyEnforcementV2.request_policy_id request = Some policy_id ->
      policy_id <> "" ->
      fresh_entry E w key = None ->
      server_result E config agent_id policy_id context = None ->
      run.1 = Ok None /\
      (PolicyEnforcementV2.fail_closed config = true ->
       PolicyEnforcementV2.middleware E agent_id config request call_next w
         = (Raise policy_verification_failed_500, run.2)) /\
      (PolicyEnforcementV2.fail_closed config = false ->
       PolicyEnforcementV2.middleware E agent_id config request call_next w
         = (call_next request,
            record_event
              (record_event run.2
                 (EvLog LogWarning
                    "Policy verification failed, allowing request to proceed"))
              (EvCallNext request)))) /\
  (forall E S options request call_next agent_id e w,
      MiddlewareV3._should_skip_verification options request = false ->
      extract_agent_id_from_request S request = Ok (Some agent_id) ->
      agent_id <> "" ->
      verify_agent_passport S agent_id = Raise e ->
      MiddlewareV3.dispatch E S options request call_next w
        = (Ok (verification_failure_response E agent_id e),
           record_event w (EvVerifyPassport agent_id))).
Proof.
  split.
  - intros E config agent_id request call_next policy_id w key context run
           Henabled Hid Hne Hfresh Hserver.
    destruct (verify_miss E config agent_id policy_id context w Hfresh)
      as (events & Hres & _).
    simpl in Hres. rewrite Hserver in Hres.
    assert (Hrun : run = (Ok None, run.2)).
    { unfold run in *. destruct (PolicyEnforcementV2.verify_policy_compliance _ _ _ _ _ _)
        as [r w']. simpl in *. now subst. }
    split; [exact Hres |].
    split; intros Hclosed;
      rewrite (middleware_after_verify E config agent_id request call_next policy_id w
                 Henabled Hid Hne);
      unfold bind at 1; fold context; fold run; rewrite Hrun;
      unfold PolicyEnforcementV2.verification_failed; rewrite Hclosed;
      [reflexivity |].
    unfold_m. simpl. destruct (call_next request); reflexivity.
  - intros E S options request call_next agent_id e w Hskip Hextract Hne Hverify.
    unfold MiddlewareV3.dispatch, MiddlewareV3.dispatch_body.
    rewrite Hskip. unfold_m. rewrite Hextract. simpl.
    destruct agent_id as [| c s]; [contradiction |]. simpl.
    rewrite Hverify. destruct e; reflexivity.
Qed.

(** The theorem at a directory that is down. *)
Lemma failed_verification_witness :
  let request := refund_request small_refund in
  let run := PolicyEnforcementV2.verify_policy_compliance
               offline_env "ap_123" refund_policy small_refund open_config initial_world in
  (server_result offline_env open_config "ap_123" refund_policy small_refund = None /\
   PolicyEnforcementV2.fail_closed open_config = false /\
   run.1 = Ok None /\
   PolicyEnforcementV2.middleware offline_env "ap_123" open_config request ok_handler
     initial_world
   = (ok_handler request,
      record_event
        (record_event run.2
           (EvLog LogWarning "Policy verification failed, allowing request to proceed"))
        (EvCallNext request))) /\
  (verify_agent_passport offline_sdk "ap_123"
   = Raise (AgentPassportError "network error" (Some 503) (JStr "network_error")
                               (JStr "network error") (JStr "ap_123")) /\
   MiddlewareV3.dispatch offline_env offline_sdk (demo_options true []) agent_request
     ok_handler initial_world
   = (Ok (JSONResponse 401
            (JObj [("error", JStr "agent_verification_failed");
                   ("message", JStr "network error");
                   ("agent_id", JStr "ap_123")])),
      record_event initial_world (EvVerifyPassport "ap_123"))).
Proof.
  intros request run.
  destruct failed_verification_follows_fail_closed_in_policy_enforcement as [Hpe Hv3].
  assert (Hne : refund_policy <> "") by discriminate.
  assert (Hne' : "ap_123" <> "") by discriminate.
  destruct (Hpe offline_env open_config "ap_123" request ok_handler refund_policy
                initial_world eq_refl eq_refl Hne eq_refl eq_refl)
    as (Hnone & _ & Hopen).
  split.
  - split; [reflexivity |]. split; [reflexivity |]. split; [exact Hnone |].
    exact (Hopen eq_refl).
  - split; [reflexivity |].
    exact (Hv3 offline_env offline_sdk (demo_options true []) agent_request ok_handler
               "ap_123" _ initial_world eq_refl eq_refl Hne' eq_refl).
Defined.

(** Claim C5 as stated asks that with [fail_closed = False] the request
    proceeds.  In [middleware_v3] it is answered with a 401 and the
    handler is not called. *)
Lemma failed_verification_denied_when_fail_open_v3 :
  let run := MiddlewareV3.dispatch offline_env offline_sdk (demo_options false [])
               agent_request ok_handler initial_world in
  fail_closed (demo_options false []) = false /\
  MiddlewareV3._should_skip_verification (demo_options false []) agent_request = false /\
  (exists e, verify_agent_passport offline_sdk "ap_123" = Raise e) /\
  run.1 = Ok (JSONResponse 401
                (JObj [("error", JStr "agent_verification_failed");
                       ("message", JStr "network error");
                       ("agent_id", JStr "ap_123")])) /\
  w_trace run.2 = [EvVerifyPassport "ap_123"].
Proof.
  intros run. split; [reflexivity |]. split; [reflexivity |].
  split; [eexists; reflexivity |]. split; reflexivity.
Qed.

Ltac case_split :=
  match goal with
  | |- context [match ?x with _ => _ end] =>
      lazymatch x with
      | context [match _ with _ => _ end] => fail
      | _ => destruct x eqn:?; simpl
      end
  end.

Lemma v2_dispatch_invokes_evaluators_in_order E S options request call_next w :
  exists delta,
    w_trace (MiddlewareV2.dispatch E S options request call_next w).2 = w_trace w ++ delta /\
    checks_in delta `prefix_of` evaluator_order.
Proof.
  unfold MiddlewareV2.dispatch, MiddlewareV2.dispatch_body,
    MiddlewareV2.check_required_permissions, MiddlewareV2.check_allowed_regions,
    MiddlewareV2.check_capabilities, MiddlewareV2.check_assurance,
    MiddlewareV2.check_mcp, MiddlewareV2.check_regions, MiddlewareV2.check_limits.
  unfold_m. simpl.
  repeat case_split;
    (eexists; split;
     [ rewrite <- ?app_assoc; simpl; first [ reflexivity | symmetry; apply app_nil_r ]
     | simpl; eexists; reflexivity ]).
Qed.

Lemma prechecks_pass S options agent w :
  passes_prechecks S options agent ->
  MiddlewareV2.check_required_permissions S options agent w = (Ok None, w) /\
  MiddlewareV2.check_allowed_regions S options agent w = (Ok None, w).
Proof.
  intros [Hperm Hregion].
  unfold MiddlewareV2.check_required_permissions, MiddlewareV2.check_allowed_regions.
  split.
  - destruct Hperm as [-> | Hall]; [reflexivity |].
    destruct (required_permissions options); [reflexivity |].
    unfold_m. rewrite Hall. reflexivity.
  - destruct Hregion as [-> | Hany]; [reflexivity |].
    destruct (allowed_regions options); [reflexivity |].
    unfold_m. rewrite Hany. reflexivity.
Qed.

Section V2Steps.
Context (E : Env) (S : SDK) (options : AgentPassportMiddlewareOptions).
Context (request : Request) (call_next : Request -> result Response).
Context (agent_id : string) (agent : AgentPassport).

Hypothesis not_skipped : MiddlewareV2._should_skip_request options request = false.
Hypothesis names_agent : header_agent_id request = Some agent_id.
Hypothesis agent_id_not_empty : agent_id <> "".
Hypothesis verified : client_verify_agent_passport S agent_id = Ok agent.

(** The run of [dispatch] from the passport verification on. *)
Lemma v2_dispatch_from_verification w :
  MiddlewareV2.dispatch_body E S options request call_next w
  = (or_continue (MiddlewareV2.check_required_permissions S options agent) (
     or_continue (MiddlewareV2.check_allowed_regions S options agent) (
     or_continue (MiddlewareV2.check_capabilities E S request agent) (
     or_continue (MiddlewareV2.check_assurance E S request agent) (
     or_continue (MiddlewareV2.check_mcp S request agent) (
     or_continue (MiddlewareV2.check_regions S options agent) (
     or_continue (MiddlewareV2.check_limits S request agent) (
     await_call_next call_next (set_agent request agent)))))))))
      (record_event w (EvVerifyPassport agent_id)).
Proof.
  unfold MiddlewareV2.dispatch_body. rewrite not_skipped.
  pose proof names_agent as Hid. unfold header_agent_id in Hid. rewrite Hid.
  destruct agent_id as [| c s] eqn:Hagent; [contradiction |].
  unfold bind at 1. unfold await_sdk at 1. unfold bind at 1, emit at 1, lift at 1.
  cbv beta iota. rewrite verified. reflexivity.
Qed.

Lemma permission_check_passes w :
  passes_permission_check S options agent ->
  MiddlewareV2.check_required_permissions S options agent w = (Ok None, w).
Proof.
  unfold MiddlewareV2.check_required_permissions.
  intros [-> | Hall]; [reflexivity |].
  destruct (required_permissions options); [reflexivity |].
  unfold_m. rewrite Hall. reflexivity.
Qed.

(** The run of [dispatch] once the two pre-checks have passed. *)
Lemma v2_dispatch_from_prechecks w :
  passes_prechecks S options agent ->
  MiddlewareV2.dispatch_body E S options request call_next w
  = (or_continue (MiddlewareV2.check_capabilities E S request agent) (
     or_continue (MiddlewareV2.check_assurance E S request agent) (
     or_continue (MiddlewareV2.check_mcp S request agent) (
     or_continue (MiddlewareV2.check_regions S options agent) (
     or_continue (MiddlewareV2.check_limits S request agent) (
     await_call_next call_next (set_agent request agent)))))))
      (record_event w (EvVerifyPassport agent_id)).
Proof.
  intros Hpre. rewrite v2_dispatch_from_verification.
  destruct (prechecks_pass S options agent
              (record_event w (EvVerifyPassport agent_id)) Hpre) as [Hp Hr].
  unfold or_continue at 1. unfold bind at 1. rewrite Hp.
  unfold or_continue at 1. unfold bind at 1. rewrite Hr. reflexivity.
Qed.

End V2Steps.

(** Claim C6, amended.  In [middleware_v2] the SDK evaluators are
    invoked in the fixed order capability, assurance, mcp/tool, region,
    limits: the evaluators that a run of [dispatch] invokes are always a
    prefix of that order.  They come after the passport verification and
    the two configured pre-checks ([required_permissions] and
    [allowed_regions]).  For an agent that passes the pre-checks and
    fails the capability check, the response is the 403
    [insufficient_capabilities], whatever the assurance check would say:
    the assurance evaluator is not even invoked.  More generally the
    first failing step determines the denial: each of the seven steps
    (the two pre-checks and the five evaluators), when the steps before
    it pass and it fails, answers with its own 403, and no later step is
    run. *)
Theorem capability_failure_is_reported_first E S options request call_next w :
  (exists delta,
      w_trace (MiddlewareV2.dispatch E S options request call_next w).2
        = w_trace w ++ delta /\
      checks_in delta `prefix_of` evaluator_order) /\
  (forall agent_id agent capabilities items capability_check allowed,
      MiddlewareV2._should_skip_request options request = false ->
      header_agent_id request = Some agent_id ->
      agent_id <> "" ->
      client_verify_agent_passport S agent_id = Ok agent ->
      passes_prechecks S options agent ->
      getattr agent "capabilities" = Ok capabilities ->
      py_iter capabilities = Ok items ->
      check_capability_requirement S (req_path request)
        (MiddlewareV2._extract_capability_ids E items) = Ok capability_check ->
      subscript capability_check "allowed" = Ok allowed ->
      truthy allowed = false ->
      MiddlewareV2.dispatch E S options request call_next w
        = (Ok (insufficient_capabilities_403 capability_check
                 (MiddlewareV2._extract_capability_ids E items)),
           record_event (record_event w (EvVerifyPassport agent_id))
                        (EvCheck Capability))) /\
  (forall agent_id agent,
      MiddlewareV2._should_skip_request options request = false ->
      header_agent_id request = Some agent_id ->
      agent_id <> "" ->
      client_verify_agent_passport S agent_id = Ok agent ->
      let run := MiddlewareV2.dispatch E S options request call_next w in
      let verified := record_event w (EvVerifyPassport agent_id) in
      (* the permission check *)
      (required_permissions options <> [] ->
       all_m (client_has_permission S agent) (required_permissions options) = Ok false ->
       forall current,
         getattr agent "permissions" = Ok current ->
         run = (Ok (insufficient_permissions_403 options current), verified)) /\
      (* the region pre-check *)
      (passes_permission_check S options agent ->
       allowed_regions options <> [] ->
       any_m (client_is_allowed_in_region S agent) (allowed_regions options) = Ok false ->
       forall current,
         getattr agent "regions" = Ok current ->
         run = (Ok (region_not_allowed_403 options current), verified)) /\
      (* the evaluators *)
      (passes_prechecks S options agent ->
       forall capabilities items capability_check capability_ok,
         getattr agent "capabilities" = Ok capabilities ->
         py_iter capabilities = Ok items ->
         check_capability_requirement S (req_path request)
           (MiddlewareV2._extract_capability_ids E items) = Ok capability_check ->
         assoc "allowed" capability_check = Some capability_ok ->
         truthy capability_ok = true ->
         forall assurance_check assurance_ok,
           check_assurance_requirement S (dict_get agent "assurance_level" (JStr "L0"))
             (req_path request) = Ok assurance_check ->
           assoc "allowed" assurance_check = Some assurance_ok ->
           (truthy assurance_ok = false ->
            run = (Ok (insufficient_assurance_403 E assurance_check),
                   record_events verified [EvCheck Capability; EvCheck Assurance])) /\
           (truthy assurance_ok = true ->
            forall mcp_check mcp_ok,
              check_mcp_requirement S (req_headers request) agent = Ok mcp_check ->
              assoc "allowed" mcp_check = Some mcp_ok ->
              (truthy mcp_ok = false ->
               run = (Ok (mcp_denied_403 mcp_check),
                      record_events verified
                        [EvCheck Capability; EvCheck Assurance; EvCheck Mcp])) /\
              (truthy mcp_ok = true ->
               forall regions region_check region_ok,
                 getattr agent "regions" = Ok regions ->
                 check_region_requirements S regions (allowed_regions options)
                   = Ok region_check ->
                 assoc "allowed" region_check = Some region_ok ->
                 (truthy region_ok = false ->
                  run = (Ok (region_validation_403 options region_check regions),
                         record_events verified
                           [EvCheck Capability; EvCheck Assurance; EvCheck Mcp;
                            EvCheck Region])) /\
                 (truthy region_ok = true ->
                  forall limits limits_check limits_ok,
                    getattr agent "limits" = Ok limits ->
                    check_limits_for_operation S
                      (MiddlewareV2._get_operation_type (req_path request))
                      (if truthy limits then limits else JObj [])
                      (MiddlewareV2._extract_operation_data request) = Ok limits_check ->
                    assoc "allowed" limits_check = Some limits_ok ->
                    truthy limits_ok = false ->
                    run = (Ok (limits_exceeded_403 limits_check limits),
                           record_events verified
                             [EvCheck Capability; EvCheck Assurance; EvCheck Mcp;
                              EvCheck Region; EvCheck Limits])))))).
Proof.
  split; [apply v2_dispatch_invokes_evaluators_in_order |]. split.
  { intros agent_id agent capabilities items capability_check allowed
           Hskip Hid Hne Hverify Hpre Hcaps Hiter Hcheck Hsub Hdenied.
    unfold MiddlewareV2.dispatch, MiddlewareV2.dispatch_body.
    rewrite Hskip. unfold header_agent_id in Hid. rewrite Hid.
    destruct agent_id as [| c s]; [contradiction |].
    unfold try_except, bind at 1. unfold await_sdk at 1. unfold_m. simpl.
    rewrite Hverify.
    destruct (prechecks_pass S options agent
                (record_event w (EvVerifyPassport (String c s))) Hpre) as [Hp Hr].
    unfold record_event in Hp, Hr. simpl in Hp, Hr. rewrite Hp, Hr.
    unfold MiddlewareV2.check_capabilities. unfold_m. simpl.
    rewrite Hcaps, Hiter, Hcheck, Hsub, Hdenied. reflexivity. }
  intros agent_id agent Hskip Hid Hne Hverify. cbv zeta.
  unfold MiddlewareV2.dispatch, try_except.
  split; [| split].
  1, 2: rewrite (v2_dispatch_from_verification E S options request call_next
                   agent_id agent Hskip Hid Hne Hverify w).
  - intros Hrequired Hall current Hcurrent.
    unfold or_continue at 1. unfold bind at 1.
    unfold MiddlewareV2.check_required_permissions, insufficient_permissions_403.
    revert Hall. destruct (required_permissions options) as [| p ps]; [contradiction |].
    intros Hall. unfold_m. rewrite Hall. simpl. rewrite Hcurrent. reflexivity.
  - intros Hperm Hallowed Hany current Hcurrent.
    unfold or_continue at 1. unfold bind at 1.
    rewrite (permission_check_passes S options agent _ Hperm).
    unfold or_continue at 1. unfold bind at 1.
    unfold MiddlewareV2.check_allowed_regions, region_not_allowed_403.
    revert Hany. destruct (allowed_regions options) as [| r rs]; [contradiction |].
    intros Hany. unfold_m. rewrite Hany. simpl. rewrite Hcurrent. reflexivity.
  - intros Hpre capabilities items capability_check capability_ok
           Hcaps Hiter Hcapability Hcapability_ok Hcapability_true
           assurance_check assurance_ok Hassurance Hassurance_ok.
    rewrite (v2_dispatch_from_prechecks E S options request call_next
               agent_id agent Hskip Hid Hne Hverify w Hpre).
    unfold MiddlewareV2.check_capabilities, MiddlewareV2.check_assurance,
           MiddlewareV2.check_mcp, MiddlewareV2.check_regions,
           MiddlewareV2.check_limits, subscript, record_events, record_event.
    unfold insufficient_assurance_403, mcp_denied_403, region_validation_403,
           limits_exceeded_403.
    unfold_m. cbn -[MiddlewareV2._get_operation_type].
    rewrite Hcaps. cbn -[MiddlewareV2._get_operation_type].
    rewrite Hiter. cbn -[MiddlewareV2._get_operation_type].
    rewrite Hcapability. cbn -[MiddlewareV2._get_operation_type].
    rewrite Hcapability_ok. cbn -[MiddlewareV2._get_operation_type].
    rewrite Hcapability_true. cbn -[MiddlewareV2._get_operation_type].
    rewrite Hassurance. cbn -[MiddlewareV2._get_operation_type].
    rewrite Hassurance_ok. cbn -[MiddlewareV2._get_operation_type].
    split.
    + intros Hdenied. rewrite Hdenied. cbn. rewrite <- !app_assoc. reflexivity.
    + intros Hassurance_true mcp_check mcp_ok Hmcp Hmcp_ok.
      rewrite Hassurance_true. cbn -[MiddlewareV2._get_operation_type].
      rewrite Hmcp. cbn -[MiddlewareV2._get_operation_type].
      rewrite Hmcp_ok. cbn -[MiddlewareV2._get_operation_type].
      split.
      * intros Hdenied. rewrite Hdenied. cbn. rewrite <- !app_assoc. reflexivity.
      * intros Hmcp_true regions region_check region_ok Hregions Hregion Hregion_ok.
        rewrite Hmcp_true. cbn -[MiddlewareV2._get_operation_type].
        rewrite Hregions. cbn -[MiddlewareV2._get_operation_type].
        rewrite Hregion. cbn -[MiddlewareV2._get_operation_type].
        rewrite Hregion_ok. cbn -[MiddlewareV2._get_operation_type].
        split.
        -- intros Hdenied. rewrite Hdenied. cbn. rewrite <- !app_assoc. reflexivity.
        -- intros Hregion_true limits limits_check limits_ok Hlimits Hlimit Hlimits_ok
                  Hdenied.
           rewrite Hregion_true. cbn -[MiddlewareV2._get_operation_type].
           rewrite Hlimits. cbn -[MiddlewareV2._get_operation_type].
           rewrite Hlimit. cbn -[MiddlewareV2._get_operation_type].
           rewrite Hlimits_ok. cbn -[MiddlewareV2._get_operation_type].
           rewrite Hdenied. cbn. rewrite <- !app_assoc. reflexivity.
Qed.

(** The theorem at an agent that fails both capability and assurance,
    at an agent that fails assurance only, and at an agent outside the
    allowed regions. *)
Lemma capability_failure_witness :
  let S := demo_sdk deny deny internal_failure in
  let S' := demo_sdk allow deny internal_failure in
  let options := demo_options true [] in
  (MiddlewareV2._should_skip_request options agent_request = false /\
   header_agent_id agent_request = Some "ap_123" /\
   client_verify_agent_passport S "ap_123" = Ok demo_agent /\
   passes_prechecks S options demo_agent /\
   check_capability_requirement S "/api/data"
     [JStr "data.read"; JStr "data.export"] = Ok deny /\
   check_assurance_requirement S (JStr "L0") "/api/data" = Ok deny /\
   MiddlewareV2.dispatch demo_env S options agent_request ok_handler initial_world
   = (Ok (insufficient_capabilities_403 deny [JStr "data.read"; JStr "data.export"]),
      record_event (record_event initial_world (EvVerifyPassport "ap_123"))
                   (EvCheck Capability))) /\
  (check_capability_requirement S' "/api/data"
     [JStr "data.read"; JStr "data.export"] = Ok allow /\
   check_assurance_requirement S' (JStr "L0") "/api/data" = Ok deny /\
   MiddlewareV2.dispatch demo_env S' options agent_request ok_handler initial_world
   = (Ok (insufficient_assurance_403 demo_env deny),
      record_events (record_event initial_world (EvVerifyPassport "ap_123"))
        [EvCheck Capability; EvCheck Assurance])).
Proof.
  intros S S' options.
  assert (Hne : "ap_123" <> "") by discriminate.
  assert (Hpre : passes_prechecks S options demo_agent)
    by (split; left; reflexivity).
  assert (Hpre' : passes_prechecks S' options demo_agent)
    by (split; left; reflexivity).
  destruct (capability_failure_is_reported_first
              demo_env S options agent_request ok_handler initial_world) as (_ & H & _).
  destruct (capability_failure_is_reported_first
              demo_env S' options agent_request ok_handler initial_world) as (_ & _ & H').
  split.
  - split; [reflexivity |]. split; [reflexivity |]. split; [reflexivity |].
    split; [exact Hpre |]. split; [reflexivity |]. split; [reflexivity |].
    exact (H "ap_123" demo_agent _ _ deny (JBool false)
             eq_refl eq_refl Hne eq_refl Hpre eq_refl eq_refl eq_refl eq_refl eq_refl).
  - split; [reflexivity |]. split; [reflexivity |].
    destruct (H' "ap_123" demo_agent eq_refl eq_refl Hne eq_refl) as (_ & _ & Hsteps).
    exact (proj1 (Hsteps Hpre' _ _ allow (JBool true) eq_refl eq_refl eq_refl eq_refl
                    eq_refl deny (JBool false) eq_refl eq_refl) eq_refl).
Defined.

(** Claim C6 as stated asks for the capability failure whenever both
    capability and assurance fail.  The configured permission check
    comes before the capability evaluator: an agent without the required
    permission is answered [insufficient_permissions], and no evaluator
    is invoked. *)
Lemma permission_failure_precedes_capability_failure :
  let S := demo_sdk deny deny internal_failure in
  let options := demo_options true ["admin"] in
  let run := MiddlewareV2.dispatch demo_env S options agent_request ok_handler
               initial_world in
  check_capability_requirement S "/api/data"
    [JStr "data.read"; JStr "data.export"] = Ok deny /\
  check_assurance_requirement S (JStr "L0") "/api/data" = Ok deny /\
  run.1 = Ok (JSONResponse 403
                (JObj [("error", JStr "insufficient_permissions");
                       ("message", JStr "Agent does not have required permissions");
                       ("required", JArr [JStr "admin"]);
                       ("current", JArr [])])) /\
  w_trace run.2 = [EvVerifyPassport "ap_123"].
Proof. repeat split; reflexivity. Qed.

(** Claim C9, amended.  In [dispatch] of [middleware_simple] and
    [middleware_v2], every exception that is no [AgentPassportError] is
    answered with the generic 500 [internal_error]; in [dispatch] of
    [middleware_v3], every exception is answered with the generic 500
    [middleware_error]: these bodies do not depend on the exception.  In
    [require_policy] and in [_run_enforcement_checks] of [middleware_v3],
    an exception that is no [HTTPException] becomes a 500 whose message
    ends with the exception's text. *)
Theorem unexpected_exception_responses E S options request call_next w :
  (forall e w',
      MiddlewareSimple.dispatch_body S options request call_next w = (Raise e, w') ->
      is_AgentPassportError e = false ->
      (MiddlewareSimple.dispatch E S options request call_next w).1
        = Ok internal_error_500) /\
  (forall e w',
      MiddlewareV2.dispatch_body E S options request call_next w = (Raise e, w') ->
      is_AgentPassportError e = false ->
      (MiddlewareV2.dispatch E S options request call_next w).1
        = Ok internal_error_500) /\
  (forall e w',
      MiddlewareV3.dispatch_body E S options request call_next w = (Raise e, w') ->
      MiddlewareV3.dispatch E S options request call_next w
        = (Ok middleware_error_500, w')) /\
  (forall policy_id agent_id e w',
      MiddlewareV3.require_policy_body E S policy_id agent_id request call_next w
        = (Raise e, w') ->
      is_HTTPException e = false ->
      MiddlewareV3.require_policy E S policy_id agent_id request call_next w
        = (Raise (policy_middleware_error_500 (exn_text (repr E) e)), w')) /\
  (forall agent_id policy_id e w',
      MiddlewareV3.enforce_policy S request agent_id policy_id
        (MiddlewareV3.request_body request) w = (Raise e, w') ->
      is_HTTPException e = false ->
      MiddlewareV3._run_enforcement_checks E S request agent_id policy_id w
        = (Raise (enforcement_error_500 agent_id policy_id (exn_text (repr E) e)), w')).
Proof.
  repeat split.
  - intros e w' Hbody Hunexpected. unfold MiddlewareSimple.dispatch, try_except.
    rewrite Hbody. destruct e; [reflexivity | discriminate | reflexivity].
  - intros e w' Hbody Hunexpected. unfold MiddlewareV2.dispatch, try_except.
    rewrite Hbody. destruct e; [reflexivity | discriminate | reflexivity].
  - intros e w' Hbody. unfold MiddlewareV3.dispatch, try_except.
    rewrite Hbody. reflexivity.
  - intros policy_id agent_id e w' Hbody Hunexpected.
    unfold MiddlewareV3.require_policy, try_except.
    rewrite Hbody, Hunexpected. reflexivity.
  - intros agent_id policy_id e w' Hbody Hunexpected.
    unfold MiddlewareV3._run_enforcement_checks, try_except.
    rewrite Hbody, Hunexpected. reflexivity.
Qed.

(** The theorem at a handler and at an SDK that fail. *)
Lemma unexpected_exception_witness :
  let S := demo_sdk allow allow database_failure in
  let options := demo_options true [] in
  let handler := failing_handler "secret" in
  let verified := record_event initial_world (EvVerifyPassport "ap_123") in
  (MiddlewareSimple.dispatch demo_env S options agent_request handler initial_world).1
    = Ok internal_error_500 /\
  (MiddlewareV2.dispatch demo_env S options agent_request handler initial_world).1
    = Ok internal_error_500 /\
  (MiddlewareV3.dispatch demo_env S options agent_request handler initial_world).1
    = Ok middleware_error_500 /\
  (MiddlewareV3.require_policy demo_env S refund_policy (Some "ap_123") agent_request
     handler initial_world).1
    = Raise (policy_middleware_error_500 "connection to 10.0.0.7:5432 refused") /\
  (MiddlewareV3._run_enforcement_checks demo_env S agent_request "ap_123" refund_policy
     initial_world).1
    = Raise (enforcement_error_500 "ap_123" refund_policy
               "connection to 10.0.0.7:5432 refused").
Proof.
  intros S options handler verified.
  destruct (unexpected_exception_responses
              demo_env S options agent_request handler initial_world)
    as (Hsimple & Hv2 & Hv3 & Hrequire & Henforce).
  split; [exact (Hsimple (PyError "RuntimeError" "secret") _ eq_refl eq_refl) |].
  split; [exact (Hv2 (PyError "RuntimeError" "secret") _ eq_refl eq_refl) |].
  split; [exact (f_equal fst (Hv3 (PyError "RuntimeError" "secret") _ eq_refl)) |].
  split.
  - exact (f_equal fst (Hrequire refund_policy (Some "ap_123") database_failure _
                          eq_refl eq_refl)).
  - exact (f_equal fst (Henforce "ap_123" refund_policy database_failure _
                          eq_refl eq_refl)).
Defined.

(** Claim C9 as stated asks that the error payload is independent of
    the exception's message.  The 500 of [require_policy] carries the
    exception's text: two failures give two payloads. *)
Lemma require_policy_error_depends_on_exception_text :
  let run failure :=
    (MiddlewareV3.require_policy demo_env (demo_sdk allow allow failure) refund_policy
       (Some "ap_123") agent_request ok_handler initial_world).1 in
  run database_failure
    = Raise (HTTPException 500
               (JObj [("error", JStr "policy_middleware_error");
                      ("message",
                       JStr "Policy middleware error: connection to 10.0.0.7:5432 refused")])) /\
  run internal_failure
    = Raise (HTTPException 500
               (JObj [("error", JStr "policy_middleware_error");
                      ("message", JStr "Policy middleware error: boom")])) /\
  run database_failure <> run internal_failure.
Proof.
  intros run. split; [reflexivity |]. split; [reflexivity |].
  unfold run. simpl. discriminate.
Qed.

(** ** Capability identifiers and the evaluators *)

(** Two runs whose steps answer alike end alike. *)
Lemma or_continue_ext (step step' : M (option Response)) (rest rest' : M Response) w :
  step w = step' w ->
  (forall w', rest w' = rest' w') ->
  or_continue step rest w = or_continue step' rest' w.
Proof.
  intros Hstep Hrest. unfold or_continue, bind. rewrite Hstep.
  destruct (step' w) as [[[response |] | e] w']; try reflexivity. apply Hrest.
Qed.

(** The capability step depends on the capability evaluator through its
    answer at the request path and the extracted list. *)
Lemma check_capabilities_ext E S request agent capabilities items evaluator evaluator' w :
  getattr agent "capabilities" = Ok capabilities ->
  py_iter capabilities = Ok items ->
  evaluator (req_path request) (MiddlewareV2._extract_capability_ids E items)
    = evaluator' (req_path request) (MiddlewareV2._extract_capability_ids E items) ->
  MiddlewareV2.check_capabilities E (with_capability_evaluator S evaluator) request agent w
  = MiddlewareV2.check_capabilities E (with_capability_evaluator S evaluator') request agent w.
Proof.
  intros Hcaps Hiter Hsame.
  unfold MiddlewareV2.check_capabilities, bind, lift, await_sdk, emit, bind.
  rewrite Hcaps. cbv beta iota zeta. rewrite Hiter. cbv beta iota zeta.
  cbn [check_capability_requirement with_capability_evaluator].
  rewrite Hsame. reflexivity.
Qed.

(** The MCP step depends on the MCP evaluator through its answer at the
    request headers and the passport. *)
Lemma check_mcp_ext S request agent evaluator evaluator' w :
  evaluator (req_headers request) agent = evaluator' (req_headers request) agent ->
  MiddlewareV2.check_mcp (with_mcp_evaluator S evaluator) request agent w
  = MiddlewareV2.check_mcp (with_mcp_evaluator S evaluator') request agent w.
Proof.
  intros Hsame.
  unfold MiddlewareV2.check_mcp, bind, lift, await_sdk, emit, bind.
  cbn [check_mcp_requirement with_mcp_evaluator].
  rewrite Hsame. reflexivity.
Qed.

(** Claim C8, amended.  On a capabilities list whose elements are plain
    strings or records whose [id] field is a string,
    [_extract_capability_ids] returns a list of strings only: a string
    is kept as it is and a record is replaced by its [id].  The
    capability evaluator receives this list: a run of [dispatch] depends
    on the capability evaluator only through its answer at the request
    path and the extracted list.  The MCP evaluator receives the
    passport as the directory returned it, capabilities not extracted: a
    run depends on the MCP evaluator only through its answer at the
    request headers and that passport. *)
Theorem extract_capability_ids_normalizes E S options request call_next w :
  (forall capabilities ids,
      mapM capability_id capabilities = Some ids ->
      MiddlewareV2._extract_capability_ids E capabilities = map JStr ids /\
      forallb is_str (MiddlewareV2._extract_capability_ids E capabilities) = true) /\
  (forall agent_id agent,
      MiddlewareV2._should_skip_request options request = false ->
      header_agent_id request = Some agent_id ->
      agent_id <> "" ->
      client_verify_agent_passport S agent_id = Ok agent ->
      (forall capabilities items evaluator evaluator',
          getattr agent "capabilities" = Ok capabilities ->
          py_iter capabilities = Ok items ->
          evaluator (req_path request) (MiddlewareV2._extract_capability_ids E items)
            = evaluator' (req_path request) (MiddlewareV2._extract_capability_ids E items) ->
          MiddlewareV2.dispatch E (with_capability_evaluator S evaluator)
                                options request call_next w
          = MiddlewareV2.dispatch E (with_capability_evaluator S evaluator')
                                  options request call_next w) /\
      (forall evaluator evaluator',
          evaluator (req_headers request) agent = evaluator' (req_headers request) agent ->
          MiddlewareV2.dispatch E (with_mcp_evaluator S evaluator)
                                options request call_next w
          = MiddlewareV2.dispatch E (with_mcp_evaluator S evaluator')
                                  options request call_next w)).
Proof.
  split.
  { intros capabilities ids Hids.
    rewrite (extract_string_ids E capabilities ids Hids). split; [reflexivity |].
    clear Hids. induction ids as [| s ids IH]; [reflexivity | exact IH]. }
  intros agent_id agent Hskip Hid Hne Hverify.
  split.
  - intros capabilities items evaluator evaluator' Hcaps Hiter Hsame.
    unfold MiddlewareV2.dispatch, try_except.
    rewrite (v2_dispatch_from_verification E (with_capability_evaluator S evaluator)
               options request call_next agent_id agent Hskip Hid Hne Hverify w).
    rewrite (v2_dispatch_from_verification E (with_capability_evaluator S evaluator')
               options request call_next agent_id agent Hskip Hid Hne Hverify w).
    match goal with
    | |- (let (_, _) := ?run in _) = (let (_, _) := ?run' in _) =>
        assert (Hrun : run = run'); [| rewrite Hrun; reflexivity]
    end.
    apply or_continue_ext; [reflexivity | intros w1].
    apply or_continue_ext; [reflexivity | intros w2].
    apply or_continue_ext; [| intros w3; reflexivity].
    exact (check_capabilities_ext E S request agent capabilities items
             evaluator evaluator' w2 Hcaps Hiter Hsame).
  - intros evaluator evaluator' Hsame.
    unfold MiddlewareV2.dispatch, try_except.
    rewrite (v2_dispatch_from_verification E (with_mcp_evaluator S evaluator)
               options request call_next agent_id agent Hskip Hid Hne Hverify w).
    rewrite (v2_dispatch_from_verification E (with_mcp_evaluator S evaluator')
               options request call_next agent_id agent Hskip Hid Hne Hverify w).
    match goal with
    | |- (let (_, _) := ?run in _) = (let (_, _) := ?run' in _) =>
        assert (Hrun : run = run'); [| rewrite Hrun; reflexivity]
    end.
    apply or_continue_ext; [reflexivity | intros w1].
    apply or_continue_ext; [reflexivity | intros w2].
    apply or_continue_ext; [reflexivity | intros w3].
    apply or_continue_ext; [reflexivity | intros w4].
    apply or_continue_ext; [| intros w5; reflexivity].
    exact (check_mcp_ext S request agent evaluator evaluator' w4 Hsame).
Qed.

(** The theorem at a list that mixes both shapes, and at the passport of
    [demo_agent], whose capabilities mix both shapes: the capability
    evaluator [strings_only] answers as one that always allows, and the
    MCP evaluator [string_capabilities_only] as one that always
    denies. *)
Lemma extract_capability_ids_witness :
  let capabilities :=
    [JStr "data.read"; JObj [("id", JStr "data.export"); ("name", JStr "Export")]] in
  let S := demo_sdk allow allow internal_failure in
  let options := demo_options true [] in
  (mapM capability_id capabilities = Some ["data.read"; "data.export"] /\
   MiddlewareV2._extract_capability_ids demo_env capabilities
     = [JStr "data.read"; JStr "data.export"]) /\
  (MiddlewareV2._should_skip_request options agent_request = false /\
   header_agent_id agent_request = Some "ap_123" /\
   client_verify_agent_passport S "ap_123" = Ok demo_agent /\
   getattr demo_agent "capabilities"
     = Ok (JArr [JStr "data.read"; JObj [("id", JStr "data.export")]]) /\
   strings_only "/api/data" [JStr "data.read"; JStr "data.export"]
     = always_allow "/api/data" [JStr "data.read"; JStr "data.export"] /\
   MiddlewareV2.dispatch demo_env (with_capability_evaluator S strings_only)
                         options agent_request ok_handler initial_world
   = MiddlewareV2.dispatch demo_env (with_capability_evaluator S always_allow)
                           options agent_request ok_handler initial_world) /\
  (string_capabilities_only [("x-agent-passport-id", "ap_123")] demo_agent
     = always_deny [("x-agent-passport-id", "ap_123")] demo_agent /\
   MiddlewareV2.dispatch demo_env (with_mcp_evaluator S string_capabilities_only)
                         options agent_request ok_handler initial_world
   = MiddlewareV2.dispatch demo_env (with_mcp_evaluator S always_deny)
                           options agent_request ok_handler initial_world).
Proof.
  intros capabilities S options.
  assert (Hne : "ap_123" <> "") by discriminate.
  destruct (extract_capability_ids_normalizes
              demo_env S options agent_request ok_handler initial_world)
    as [Hextract Hevaluators].
  destruct (Hevaluators "ap_123" demo_agent eq_refl eq_refl Hne eq_refl)
    as [Hcapability Hmcp].
  split; [| split].
  - split; [reflexivity |].
    exact (proj1 (Hextract capabilities ["data.read"; "data.export"] eq_refl)).
  - split; [reflexivity |]. split; [reflexivity |]. split; [reflexivity |].
    split; [reflexivity |]. split; [reflexivity |].
    exact (Hcapability _ _ strings_only always_allow eq_refl eq_refl eq_refl).
  - split; [reflexivity |].
    exact (Hmcp string_capabilities_only always_deny eq_refl).
Defined.

(** Claim C8 as stated asks for strings only on every list of strings
    and records with an [id] field, and for every evaluator to receive
    the extracted strings.  A record whose [id] is the number 7 is
    replaced by that number, not by a string; and the MCP evaluator is
    given the passport with its capability records: it tells the record
    of [demo_agent] from a string, although the extracted list holds
    strings only. *)
Lemma extract_capability_ids_keeps_non_string_id :
  MiddlewareV2._extract_capability_ids demo_env [JObj [("id", JNum 7)]] = [JNum 7] /\
  forallb is_str (MiddlewareV2._extract_capability_ids demo_env [JObj [("id", JNum 7)]])
    = false /\
  forallb is_str (MiddlewareV2._extract_capability_ids demo_env
                    [JStr "data.read"; JObj [("id", JStr "data.export")]]) = true /\
  MiddlewareV2.dispatch demo_env
    (with_mcp_evaluator (demo_sdk allow allow internal_failure) string_capabilities_only)
    (demo_options true []) agent_request ok_handler initial_world
  = (Ok (mcp_denied_403 deny),
     record_events (record_event initial_world (EvVerifyPassport "ap_123"))
       [EvCheck Capability; EvCheck Assurance; EvCheck Mcp]).
Proof.
  repeat split; reflexivity.
Qed.

(* ===================================================================== *)
(** * Further properties of the modules *)
(* ===================================================================== *)

(** ** Strings *)

Lemma append_cons (c : Ascii.ascii) (a b : string) :
  String c a +:+ b = String c (a +:+ b).
Proof. reflexivity. Qed.

Lemma append_assoc (a b c : string) : (a +:+ b) +:+ c = a +:+ (b +:+ c).
Proof.
  induction a as [| x a IH]; [reflexivity |].
  rewrite !append_cons. now rewrite IH.
Qed.

Lemma prefix_spec (p s : string) :
  String.prefix p s = true <-> exists rest, s = p +:+ rest.
Proof.
  revert s. induction p as [| c p IH]; intros s.
  - split; [intros _; exists s; reflexivity | intros _; destruct s; reflexivity].
  - destruct s as [| d s].
    + split; [discriminate | intros [rest H]; discriminate].
    + change (String.prefix (String c p) (String d s))
        with (if Ascii.ascii_dec c d then String.prefix p s else false).
      destruct (Ascii.ascii_dec c d) as [<- | Hne].
      * rewrite IH. split; intros [rest H]; exists rest.
        -- rewrite append_cons. now rewrite H.
        -- rewrite append_cons in H. now injection H.
      * split; [discriminate |]. intros [rest H].
        rewrite append_cons in H. injection H as H1 _. now subst.
Qed.

Lemma contains_spec (needle haystack : string) :
  contains needle haystack = true <-> occurs_in needle haystack.
Proof.
  unfold occurs_in. induction haystack as [| c h IH].
  - change (contains needle "") with (if String.prefix needle "" then true else false).
    destruct (String.prefix needle "") eqn:Hp.
    + split; [intros _ | reflexivity].
      apply prefix_spec in Hp as [rest H]. exists "", rest. exact H.
    + split; [discriminate |]. intros (before & after & H).
      destruct before as [| x before]; [| discriminate].
      assert (String.prefix needle "" = true)
        by (apply prefix_spec; exists after; exact H).
      congruence.
  - change (contains needle (String c h))
      with (if String.prefix needle (String c h) then true else contains needle h).
    destruct (String.prefix needle (String c h)) eqn:Hp.
    + split; [intros _ | reflexivity].
      apply prefix_spec in Hp as [rest H]. exists "", rest. exact H.
    + rewrite IH. split.
      * intros (before & after & H). exists (String c before), after.
        rewrite append_cons. now rewrite H.
      * intros (before & after & H). destruct before as [| x before].
        -- assert (String.prefix needle (String c h) = true)
             by (apply prefix_spec; exists after; exact H).
           congruence.
        -- rewrite append_cons in H. injection H as _ H. exists before, after. exact H.
Qed.

(** Property X1.  [_get_operation_type] classifies a path by the first pair of
    keywords of which one occurs anywhere in it: deploy before export
    before refund; a path in which none of the six keywords occurs is
    general. *)
Theorem get_operation_type_by_first_keyword (path : string) :
  let deploy := occurs_in "/deploy" path \/ occurs_in "/infra" path in
  let export := occurs_in "/export" path \/ occurs_in "/data" path in
  let refund := occurs_in "/refund" path \/ occurs_in "/payment" path in
  (deploy -> MiddlewareV2._get_operation_type path = "deploy") /\
  (~ deploy -> export -> MiddlewareV2._get_operation_type path = "export") /\
  (~ deploy -> ~ export -> refund -> MiddlewareV2._get_operation_type path = "refund") /\
  (~ deploy -> ~ export -> ~ refund -> MiddlewareV2._get_operation_type path = "general").
Proof.
  intros deploy export refund. unfold deploy, export, refund.
  rewrite <- !contains_spec. unfold MiddlewareV2._get_operation_type.
  destruct (contains "/deploy" path), (contains "/infra" path),
           (contains "/export" path), (contains "/data" path),
           (contains "/refund" path), (contains "/payment" path);
    simpl; intuition congruence.
Qed.

Lemma get_operation_type_witness :
  occurs_in "/deploy" "/api/refund/deploy" /\
  MiddlewareV2._get_operation_type "/api/refund/deploy" = "deploy".
Proof.
  assert (H : occurs_in "/deploy" "/api/refund/deploy")
    by (exists "/api/refund", ""; reflexivity).
  split; [exact H |].
  exact (proj1 (get_operation_type_by_first_keyword "/api/refund/deploy") (or_introl H)).
Defined.

(** ** [_extract_capability_ids] *)

(** Property X2.  [_extract_capability_ids] returns one element per element of its
    input, and its output holds strings only exactly when every record
    of the input has a string under [id]: a record without [id] is
    returned as it is, and a non-string [id] is returned unconverted,
    while every other non-string element is converted with [str].
    Element by element: a string is kept, a record gives the value under
    its [id], whatever that value is, and the elements are taken in
    order. *)
Theorem extract_capability_ids_strings_iff E (capabilities : list json) :
  length (MiddlewareV2._extract_capability_ids E capabilities) = length capabilities /\
  (forallb is_str (MiddlewareV2._extract_capability_ids E capabilities) = true <->
   Forall has_string_id capabilities) /\
  (forall fields, assoc "id" fields = None ->
     MiddlewareV2._extract_capability_ids E [JObj fields] = [JObj fields]) /\
  (forall fields value, assoc "id" fields = Some value ->
     MiddlewareV2._extract_capability_ids E [JObj fields] = [value]) /\
  (forall s, MiddlewareV2._extract_capability_ids E [JStr s] = [JStr s]) /\
  (forall cap, is_str cap = false -> is_object cap = false ->
     MiddlewareV2._extract_capability_ids E [cap] = [JStr (py_str (repr E) cap)]) /\
  (forall cap rest,
     MiddlewareV2._extract_capability_ids E (cap :: rest)
     = MiddlewareV2._extract_capability_ids E [cap]
       ++ MiddlewareV2._extract_capability_ids E rest).
Proof.
  split; [apply length_map |]. split; [| repeat split].
  - induction capabilities as [| cap rest IH]; simpl.
    + split; [constructor | reflexivity].
    + rewrite andb_true_iff, IH, Forall_cons_iff.
      assert (Hcap : is_str match cap with
                            | JStr _ => cap
                            | JObj fields => dict_get fields "id" cap
                            | _ => JStr (py_str (repr E) cap)
                            end = true <-> has_string_id cap).
      { destruct cap as [| | | | | fields]; simpl; try tauto.
        unfold dict_get. destruct (assoc "id" fields) as [[| | | s | |] |]; simpl;
          split; try discriminate; try (intros [s' H]; discriminate);
          intros _; eexists; reflexivity. }
      tauto.
  - intros fields Hnone. simpl. unfold dict_get. rewrite Hnone. reflexivity.
  - intros fields value Hvalue. simpl. unfold dict_get. rewrite Hvalue. reflexivity.
  - intros cap Hstr Hobject. destruct cap; try discriminate; reflexivity.
Qed.

Lemma extract_capability_ids_strings_witness :
  (assoc "id" [("name", JStr "Export")] = None /\
   MiddlewareV2._extract_capability_ids demo_env [JObj [("name", JStr "Export")]]
     = [JObj [("name", JStr "Export")]]) /\
  (assoc "id" [("id", JNum 7)] = Some (JNum 7) /\
   MiddlewareV2._extract_capability_ids demo_env [JObj [("id", JNum 7)]] = [JNum 7]) /\
  (is_str (JNum 7) = false /\ is_object (JNum 7) = false /\
   MiddlewareV2._extract_capability_ids demo_env [JNum 7]
     = [JStr (py_str (repr demo_env) (JNum 7))]).
Proof.
  destruct (extract_capability_ids_strings_iff demo_env [])
    as (_ & _ & Hmissing & Hid & _ & Hother & _).
  split; [| split].
  - split; [reflexivity |]. exact (Hmissing [("name", JStr "Export")] eq_refl).
  - split; [reflexivity |]. exact (Hid [("id", JNum 7)] (JNum 7) eq_refl).
  - split; [reflexivity |]. split; [reflexivity |]. exact (Hother (JNum 7) eq_refl eq_refl).
Defined.

(** ** The key of the verification cache *)

Lemma no_colon_cons c s :
  contains ":" (String c s) = false ->
  c <> ":"%char /\ contains ":" s = false.
Proof.
  change (contains ":" (String c s))
    with (if String.prefix ":" (String c s) then true else contains ":" s).
  change (String.prefix ":" (String c s))
    with (if Ascii.ascii_dec ":" c then String.prefix "" s else false).
  destruct (Ascii.ascii_dec ":" c) as [<- | Hne].
  - destruct s; discriminate.
  - intros H. split; [congruence | exact H].
Qed.

Lemma colon_separated_injective (p p' a a' : string) :
  contains ":" p = false ->
  contains ":" p' = false ->
  p +:+ ":" +:+ a = p' +:+ ":" +:+ a' ->
  p = p' /\ a = a'.
Proof.
  revert p'. induction p as [| c p IH]; intros [| c' p'] Hp Hp' Heq.
  - change (String ":" a = String ":" a') in Heq.
    injection Heq as ->. split; reflexivity.
  - apply no_colon_cons in Hp' as [Hc' _].
    change (String ":" a = String c' (p' +:+ ":" +:+ a')) in Heq.
    injection Heq as Hc _. congruence.
  - apply no_colon_cons in Hp as [Hc _].
    change (String c (p +:+ ":" +:+ a) = String ":" a') in Heq.
    injection Heq as Hc' _. congruence.
  - apply no_colon_cons in Hp as [_ Hp]. apply no_colon_cons in Hp' as [_ Hp'].
    change (String c (p +:+ ":" +:+ a) = String c' (p' +:+ ":" +:+ a')) in Heq.
    injection Heq as -> Heq.
    destruct (IH p' Hp Hp' Heq) as [-> ->]. split; reflexivity.
Qed.

(** Property X3.  Two pairs of a policy id and an agent id have the same cache key
    only if they are the same pair, provided the policy ids hold no
    colon. *)
Theorem cache_key_injective_without_colon (policy_id policy_id' agent_id agent_id' : string) :
  contains ":" policy_id = false ->
  contains ":" policy_id' = false ->
  PolicyEnforcementV2.cache_key policy_id agent_id
    = PolicyEnforcementV2.cache_key policy_id' agent_id' ->
  policy_id = policy_id' /\ agent_id = agent_id'.
Proof.
  intros Hp Hp' Heq. unfold PolicyEnforcementV2.cache_key in Heq.
  apply colon_separated_injective; try assumption.
  change ("policy:" +:+ ?x) with (String "p" (String "o" (String "l" (String "i"
            (String "c" (String "y" (String ":" x))))))) in Heq.
  now injection Heq.
Qed.

Lemma cache_key_injective_witness :
  contains ":" refund_policy = false /\
  PolicyEnforcementV2.cache_key refund_policy "ap_123"
    = PolicyEnforcementV2.cache_key refund_policy "ap_123" /\
  refund_policy = refund_policy /\ "ap_123" = "ap_123".
Proof.
  split; [reflexivity |]. split; [reflexivity |].
  exact (cache_key_injective_without_colon refund_policy refund_policy "ap_123" "ap_123"
           eq_refl eq_refl eq_refl).
Defined.

Lemma cache_key_shift (policy_id infix agent_id : string) :
  PolicyEnforcementV2.cache_key (policy_id +:+ ":" +:+ infix) agent_id
    = PolicyEnforcementV2.cache_key policy_id (infix +:+ ":" +:+ agent_id).
Proof.
  unfold PolicyEnforcementV2.cache_key.
  f_equal. rewrite !append_assoc. reflexivity.
Qed.

(** Property X4.  With a colon in the ids the key is ambiguous: the decision cached
    for policy [p] and agent [s:a] is served, while it has not expired,
    to agent [a] asking for policy [p:s], without a call to the
    directory. *)
Theorem cached_decision_crosses_colon_ids E config policy_id infix agent_id context w entry :
  w_cache w !! PolicyEnforcementV2.cache_key policy_id (infix +:+ ":" +:+ agent_id)
    = Some entry ->
  clock E (w_reads w) < ce_expires entry ->
  PolicyEnforcementV2.verify_policy_compliance
    E agent_id (policy_id +:+ ":" +:+ infix) context config w
    = (Ok (Some (ce_result entry)), tick w).
Proof.
  intros Hentry Hlt. apply verify_hit; [| exact Hlt].
  rewrite cache_key_shift. exact Hentry.
Qed.

Lemma cached_decision_crosses_witness :
  w_cache world_after_team_allow
    !! PolicyEnforcementV2.cache_key refund_policy ("team" +:+ ":" +:+ "ap_123")
    = Some (stored_entry PolicyEnforcementV2.default_config allow_reply 0) /\
  clock demo_env (w_reads world_after_team_allow)
    < ce_expires (stored_entry PolicyEnforcementV2.default_config allow_reply 0) /\
  PolicyEnforcementV2.verify_policy_compliance
    demo_env "ap_123" (refund_policy +:+ ":" +:+ "team") large_refund
    PolicyEnforcementV2.default_config world_after_team_allow
    = (Ok (Some allow_reply), tick world_after_team_allow).
Proof.
  assert (Hentry : w_cache world_after_team_allow
             !! PolicyEnforcementV2.cache_key refund_policy ("team" +:+ ":" +:+ "ap_123")
             = Some (stored_entry PolicyEnforcementV2.default_config allow_reply 0))
    by reflexivity.
  assert (Hlt : clock demo_env (w_reads world_after_team_allow)
                < ce_expires (stored_entry PolicyEnforcementV2.default_config allow_reply 0))
    by reflexivity.
  split; [exact Hentry |]. split; [exact Hlt |].
  exact (cached_decision_crosses_colon_ids demo_env PolicyEnforcementV2.default_config
           refund_policy "team" "ap_123" large_refund world_after_team_allow _ Hentry Hlt).
Defined.

(** ** [verify_policy_compliance] and [fetch_policy_pack] *)

(** Property X5.  [verify_policy_compliance] never raises; it reaches the directory at
    most once, and besides that call it only logs; it leaves every cache
    entry under another key as it was. *)
Theorem verify_policy_compliance_is_contained E config agent_id policy_id context w :
  let run := PolicyEnforcementV2.verify_policy_compliance
               E agent_id policy_id context config w in
  (exists response, run.1 = Ok response) /\
  (exists events,
      w_trace run.2 = w_trace w ++ events /\
      (directory_contacts events <= 1)%nat /\
      Forall (fun ev => ev = EvPost (verify_url config policy_id)
                                    (verify_body agent_id context) \/ is_log ev) events) /\
  (forall key, key <> PolicyEnforcementV2.cache_key policy_id agent_id ->
               w_cache run.2 !! key = w_cache w !! key).
Proof.
  unfold PolicyEnforcementV2.verify_policy_compliance, verify_url, verify_body.
  unfold_m. simpl.
  repeat case_split;
    (split; [eexists; reflexivity |]);
    (split;
     [ eexists; split;
       [ rewrite <- ?app_assoc; simpl; first [reflexivity | symmetry; apply app_nil_r]
       | split; [simpl; lia |];
         repeat (constructor; [first [left; reflexivity | right; exact I] |]);
         constructor ]
     | intros key Hne; simpl; rewrite ?lookup_insert_ne by congruence; reflexivity ]).
Qed.

Lemma verify_policy_compliance_contained_witness :
  let run := PolicyEnforcementV2.verify_policy_compliance
               demo_env "ap_123" refund_policy large_refund
               PolicyEnforcementV2.default_config world_after_team_allow in
  PolicyEnforcementV2.cache_key refund_policy "team:ap_123"
    <> PolicyEnforcementV2.cache_key refund_policy "ap_123" /\
  run.1 = Ok (Some deny_reply) /\
  w_cache run.2 !! PolicyEnforcementV2.cache_key refund_policy "team:ap_123"
    = Some (stored_entry PolicyEnforcementV2.default_config allow_reply 0).
Proof.
  intros run.
  assert (Hne : PolicyEnforcementV2.cache_key refund_policy "team:ap_123"
                <> PolicyEnforcementV2.cache_key refund_policy "ap_123") by discriminate.
  split; [exact Hne |]. split; [reflexivity |].
  destruct (verify_policy_compliance_is_contained demo_env
              PolicyEnforcementV2.default_config "ap_123" refund_policy large_refund
              world_after_team_allow) as (_ & _ & Hframe).
  exact (eq_trans (Hframe _ Hne) eq_refl).
Defined.

(** Property X6.  [fetch_policy_pack] never raises and never caches: every call makes
    one GET of the policy URL and, besides it, only logs, leaving the
    cache and the clock alone.  It returns a policy pack exactly when
    the directory answers 200 with a JSON object, of which the pack
    holds the fields; any other answer, and any failure, gives [None]. *)
Theorem fetch_policy_pack_is_contained E config policy_id w :
  exists response logs,
    PolicyEnforcementV2.fetch_policy_pack E policy_id config w
      = (Ok response, record_events w (EvGet (policies_url config policy_id) :: logs)) /\
    Forall is_log logs /\
    (forall pack,
        response = Some pack <->
        exists reply fields,
          http_get E (policies_url config policy_id) = Ok reply /\
          reply_status reply = 200 /\
          reply_json reply = Ok (JObj fields) /\
          PolicyEnforcementV2.make_PolicyPack (JObj fields) = Ok pack).
Proof.
  unfold PolicyEnforcementV2.fetch_policy_pack, policies_url, record_events.
  unfold_m. simpl.
  destruct (http_get E _) as [reply | e] eqn:Hget; simpl.
  - destruct (reply_status reply =? 200) eqn:Hstatus; simpl.
    + apply Z.eqb_eq in Hstatus.
      destruct (reply_json reply) as [data | e] eqn:Hjson; simpl.
      * destruct data as [| | | | | fields]; simpl;
          try (eexists None, [_]; split; [rewrite <- app_assoc; reflexivity |];
               split; [repeat constructor |];
               intros pack; split; [discriminate |];
               intros (reply' & fields & [= <-] & _ & Hj & _); congruence).
        eexists (Some _), []. split; [reflexivity |]. split; [constructor |].
        intros pack. split.
        -- intros [= <-]. exists reply, fields. repeat split; assumption.
        -- intros (reply' & fields' & [= <-] & _ & Hj & Hpack).
           rewrite Hjson in Hj. injection Hj as <-. simpl in Hpack. congruence.
      * eexists None, [_]. split; [rewrite <- app_assoc; reflexivity |].
        split; [repeat constructor |].
        intros pack; split; [discriminate |].
        intros (reply' & fields & [= <-] & _ & Hj & _); congruence.
    + exists None, []. split; [reflexivity |]. split; [constructor |].
      intros pack; split; [discriminate |].
      intros (reply' & fields & [= <-] & Hs & _). rewrite Hs in Hstatus. discriminate.
  - eexists None, [_]. split; [rewrite <- app_assoc; reflexivity |].
    split; [repeat constructor |].
    intros pack; split; [discriminate |].
    intros (reply' & fields & Hr & _); discriminate.
Qed.

Section ZeroTimeToLive.
Context (E : Env) (config : PolicyEnforcementV2.PolicyEnforcementConfig).
Hypothesis clock_monotone : monotone_clock E.
Hypothesis no_time_to_live : PolicyEnforcementV2.cache_ttl config <= 0.

Lemma all_expired_not_fresh w key :
  all_expired E w -> fresh_entry E w key = None.
Proof.
  intros Hexp. unfold fresh_entry.
  destruct (w_cache w !! key) as [entry |] eqn:Hentry; [| reflexivity].
  pose proof (Hexp key entry Hentry (w_reads w) (le_n _)) as Hle.
  destruct (clock E (w_reads w) <? ce_expires entry) eqn:Hlt; [| reflexivity].
  apply Z.ltb_lt in Hlt. lia.
Qed.

(** Property X7.  With [cache_ttl <= 0] and a clock that never goes back, nothing is
    ever served from the cache: as long as every entry has expired,
    which holds of the empty cache and is kept by every call, each call
    asks the directory. *)
Theorem zero_ttl_disables_the_cache agent_id policy_id context w :
  all_expired E w ->
  let run := PolicyEnforcementV2.verify_policy_compliance
               E agent_id policy_id context config w in
  all_expired E run.2 /\
  run.1 = Ok (server_result E config agent_id policy_id context) /\
  exists events,
    w_trace run.2
      = w_trace w ++ EvPost (verify_url config policy_id) (verify_body agent_id context)
                     :: events.
Proof.
  intros Hexp run.
  pose proof (all_expired_not_fresh w (PolicyEnforcementV2.cache_key policy_id agent_id) Hexp)
    as Hfresh.
  destruct (verify_miss E config agent_id policy_id context w Hfresh)
    as (events & Hres & Htrace & _ & Hcache & Hreads).
  simpl in *. fold run in Hres, Htrace, Hcache, Hreads.
  split; [| split; [exact Hres | exists events; exact Htrace]].
  assert (Hw0 : (w_reads w <= w_reads
                   (after_lookup w (PolicyEnforcementV2.cache_key policy_id agent_id)))%nat).
  { unfold after_lookup. destruct (w_cache w !! _); simpl; lia. }
  intros key entry Hentry k Hk. rewrite Hcache in Hentry. rewrite Hreads in Hk.
  destruct (server_result E config agent_id policy_id context) as [result |].
  - destruct (allows result).
    + destruct (decide (PolicyEnforcementV2.cache_key policy_id agent_id = key))
        as [<- | Hne].
      * rewrite lookup_insert_eq in Hentry. injection Hentry as <-. simpl.
        assert (clock E (w_reads (after_lookup w
                  (PolicyEnforcementV2.cache_key policy_id agent_id))) <= clock E k)
          by (apply clock_monotone; lia).
        lia.
      * rewrite lookup_insert_ne in Hentry by exact Hne.
        apply (Hexp key entry Hentry). lia.
    + apply (Hexp key entry Hentry). lia.
  - apply (Hexp key entry Hentry). lia.
Qed.

End ZeroTimeToLive.

Lemma demo_clock_monotone : monotone_clock demo_env.
Proof. intros i j Hij. simpl. lia. Qed.

Lemma zero_ttl_witness :
  let verify := PolicyEnforcementV2.verify_policy_compliance
                  demo_env "ap_123" refund_policy small_refund no_cache_config in
  let post := EvPost (verify_url no_cache_config refund_policy)
                     (verify_body "ap_123" small_refund) in
  monotone_clock demo_env /\
  PolicyEnforcementV2.cache_ttl no_cache_config <= 0 /\
  all_expired demo_env initial_world /\
  (verify initial_world).1 = Ok (Some allow_reply) /\
  exists events,
    w_trace (verify (verify initial_world).2).2
      = w_trace (verify initial_world).2 ++ post :: events.
Proof.
  intros verify post.
  assert (Httl : PolicyEnforcementV2.cache_ttl no_cache_config <= 0) by (simpl; lia).
  assert (Hinit : all_expired demo_env initial_world).
  { intros key entry H. simpl in H. rewrite lookup_empty in H. discriminate. }
  destruct (zero_ttl_disables_the_cache demo_env no_cache_config demo_clock_monotone Httl
              "ap_123" refund_policy small_refund initial_world Hinit)
    as (Hexp & Hres & _).
  destruct (zero_ttl_disables_the_cache demo_env no_cache_config demo_clock_monotone Httl
              "ap_123" refund_policy small_refund _ Hexp)
    as (_ & _ & Hagain).
  split; [exact demo_clock_monotone |]. split; [exact Httl |]. split; [exact Hinit |].
  split; [exact Hres | exact Hagain].
Defined.

(** ** The middleware of [policy_enforcement_v2] *)

Lemma middleware_switched_off E config agent_id request call_next w :
  PolicyEnforcementV2.enabled config = false ->
  PolicyEnforcementV2.middleware E agent_id config request call_next w
    = (call_next request, record_event w (EvCallNext request)).
Proof.
  unfold PolicyEnforcementV2.middleware. intros ->. simpl. unfold_m.
  destruct (call_next request); reflexivity.
Qed.

(** Property X8.  The middleware reaches the directory only when it is enabled and a
    policy id is given.  Switched off, it hands the request to the
    handler untouched.  Enabled, without a policy id in [request.state]
    and without a non-empty [x-policy-id] header, it raises the 400
    [policy_id_required], whatever [fail_closed] is, and does nothing
    else. *)
Theorem middleware_needs_enabled_and_policy_id E config agent_id request call_next w :
  (PolicyEnforcementV2.enabled config = false ->
   PolicyEnforcementV2.middleware E agent_id config request call_next w
     = (call_next request, record_event w (EvCallNext request))) /\
  (PolicyEnforcementV2.enabled config = true ->
   str_truthy (st_policy_id (req_state request)) = false ->
   str_truthy (header request "x-policy-id") = false ->
   PolicyEnforcementV2.middleware E agent_id config request call_next w
     = (Raise policy_id_required_400, w)).
Proof.
  split; [apply middleware_switched_off |].
  unfold PolicyEnforcementV2.middleware.
  - intros -> Hstate Hheader. simpl.
    unfold PolicyEnforcementV2.request_policy_id, or_else. rewrite Hstate.
    destruct (header request "x-policy-id") as [[| c s] |]; try reflexivity.
    discriminate Hheader.
Qed.

Lemma middleware_needs_witness :
  PolicyEnforcementV2.enabled disabled_config = false /\
  PolicyEnforcementV2.middleware demo_env "ap_123" disabled_config
    (refund_request large_refund) ok_handler initial_world
    = (ok_handler (refund_request large_refund),
       record_event initial_world (EvCallNext (refund_request large_refund))) /\
  str_truthy (header anonymous_request "x-policy-id") = false /\
  PolicyEnforcementV2.middleware demo_env "ap_123" open_config
    anonymous_request ok_handler initial_world
    = (Raise policy_id_required_400, initial_world).
Proof.
  destruct (middleware_needs_enabled_and_policy_id demo_env disabled_config "ap_123"
              (refund_request large_refund) ok_handler initial_world) as [Hoff _].
  destruct (middleware_needs_enabled_and_policy_id demo_env open_config "ap_123"
              anonymous_request ok_handler initial_world) as [_ Hid].
  split; [reflexivity |]. split; [exact (Hoff eq_refl) |].
  split; [reflexivity |]. exact (Hid eq_refl eq_refl eq_refl).
Defined.

Lemma middleware_after_allow E config agent_id request call_next policy_id fields w w1 :
  PolicyEnforcementV2.enabled config = true ->
  PolicyEnforcementV2.request_policy_id request = Some policy_id ->
  policy_id <> "" ->
  PolicyEnforcementV2.verify_policy_compliance
    E agent_id policy_id (PolicyEnforcementV2.request_context request) config w
    = (Ok (Some (JObj fields)), w1) ->
  allows (JObj fields) = true ->
  PolicyEnforcementV2.middleware E agent_id config request call_next w
  = bind (PolicyEnforcementV2.fetch_policy_pack E policy_id config)
      (fun policy =>
         match policy with
         | Some policy =>
             policy_result <- PolicyEnforcementV2.convert_policy_response
                                E (JObj fields) policy ;;
             await_call_next call_next (set_policy_result request policy_result)
         | None => await_call_next call_next request
         end) w1.
Proof.
  intros Henabled Hid Hne Hverify Hallow.
  assert (Htruthy : truthy (JObj fields) = true).
  { destruct fields; [discriminate Hallow | reflexivity]. }
  simpl in Hallow.
  rewrite (middleware_after_verify E config agent_id request call_next policy_id w
             Henabled Hid Hne).
  unfold bind at 1. rewrite Hverify, Htruthy.
  change (negb true) with false. cbv iota.
  unfold bind at 1. unfold lift at 1. simpl py_get. cbv iota beta.
  rewrite Hallow. reflexivity.
Qed.

(** Property X9.  After an allowed verification the middleware fetches the policy
    pack.  When the pack cannot be fetched, the request goes to the
    handler as it came, with no policy result, although the request was
    allowed.  When it is fetched, the handler receives the request with
    the converted policy result attached, from which [get_policy] gives
    back the pack; if the conversion raises, the middleware raises and
    the handler is not called. *)
Theorem middleware_attaches_result_when_pack_is_fetched
        E config agent_id request call_next policy_id fields w w1 w2 pack :
  PolicyEnforcementV2.enabled config = true ->
  PolicyEnforcementV2.request_policy_id request = Some policy_id ->
  policy_id <> "" ->
  PolicyEnforcementV2.verify_policy_compliance
    E agent_id policy_id (PolicyEnforcementV2.request_context request) config w
    = (Ok (Some (JObj fields)), w1) ->
  allows (JObj fields) = true ->
  PolicyEnforcementV2.fetch_policy_pack E policy_id config w1 = (Ok pack, w2) ->
  match pack with
  | None =>
      PolicyEnforcementV2.middleware E agent_id config request call_next w
        = (call_next request, record_event w2 (EvCallNext request))
  | Some pack =>
      match PolicyEnforcementV2.convert_policy_response E (JObj fields) pack w2 with
      | (Ok result, w3) =>
          PolicyEnforcementV2.middleware E agent_id config request call_next w
            = (call_next (set_policy_result request result),
               record_event w3 (EvCallNext (set_policy_result request result))) /\
          PolicyEnforcementV2.get_policy (set_policy_result request result) = Some pack
      | (Raise e, w3) =>
          PolicyEnforcementV2.middleware E agent_id config request call_next w
            = (Raise e, w3)
      end
  end.
Proof.
  intros Henabled Hid Hne Hverify Hallow Hfetch.
  pose proof (middleware_after_allow E config agent_id request call_next policy_id fields
                w w1 Henabled Hid Hne Hverify Hallow) as Hrun.
  destruct pack as [pack |].
  - destruct (PolicyEnforcementV2.convert_policy_response E (JObj fields) pack w2)
      as [[result | e] w3] eqn:Hconvert.
    + split.
      * rewrite Hrun. unfold bind at 1. rewrite Hfetch.
        unfold bind at 1. rewrite Hconvert.
        unfold_m. simpl. destruct (call_next _); reflexivity.
      * unfold PolicyEnforcementV2.get_policy, PolicyEnforcementV2.get_policy_result.
        simpl.
        revert Hconvert. unfold PolicyEnforcementV2.convert_policy_response.
        unfold_m. simpl.
        repeat case_split; intros [= <- _] || discriminate; reflexivity.
    + rewrite Hrun. unfold bind at 1. rewrite Hfetch.
      unfold bind at 1. rewrite Hconvert. reflexivity.
  - rewrite Hrun. unfold bind at 1. rewrite Hfetch.
    unfold_m. simpl. destruct (call_next request); reflexivity.
Qed.

Lemma middleware_attaches_witness :
  let config := PolicyEnforcementV2.default_config in
  let request := refund_request small_refund in
  let w1 := (PolicyEnforcementV2.verify_policy_compliance
               demo_env "ap_123" refund_policy small_refund config initial_world).2 in
  let w2 := (PolicyEnforcementV2.fetch_policy_pack demo_env refund_policy config w1).2 in
  PolicyEnforcementV2.verify_policy_compliance
    demo_env "ap_123" refund_policy (PolicyEnforcementV2.request_context request)
    config initial_world = (Ok (Some allow_reply), w1) /\
  allows allow_reply = true /\
  PolicyEnforcementV2.fetch_policy_pack demo_env refund_policy config w1 = (Ok None, w2) /\
  PolicyEnforcementV2.middleware demo_env "ap_123" config request ok_handler initial_world
    = (ok_handler request, record_event w2 (EvCallNext request)) /\
  PolicyEnforcementV2.has_policy_access request = false.
Proof.
  intros config request w1 w2.
  assert (Hne : refund_policy <> "") by discriminate.
  split; [reflexivity |]. split; [reflexivity |]. split; [reflexivity |].
  split; [| reflexivity].
  exact (middleware_attaches_result_when_pack_is_fetched
           demo_env config "ap_123" request ok_handler refund_policy _
           initial_world w1 w2 None eq_refl eq_refl Hne eq_refl eq_refl eq_refl).
Defined.

(** ** [convert_policy_response] *)

(** Property X10.  What [convert_policy_response] does with an incomplete response.
    Without a [passport] key it builds a blank passport and four checks
    that are [False], so that [has_policy_access] denies.  With a
    [passport] that is not an object (such as [null]) it raises
    [AttributeError] at once; with an [evaluation] that is not an
    object it raises [AttributeError] after reading the clock. *)
Theorem convert_policy_response_incomplete E fields pack w :
  (assoc "passport" fields = None ->
   forall request,
     let result := {| passport := blank_passport (isoformat E (clock E (w_reads w)));
                      policy := pack;
                      checks := no_checks_passed |} in
     PolicyEnforcementV2.convert_policy_response E (JObj fields) pack w
       = (Ok result, tick w) /\
     PolicyEnforcementV2.has_policy_access (set_policy_result request result) = false) /\
  (forall passport_data,
      assoc "passport" fields = Some passport_data ->
      is_object passport_data = false ->
      PolicyEnforcementV2.convert_policy_response E (JObj fields) pack w
        = (Raise (AttributeError passport_data "get"), w)) /\
  (forall passport_fields evaluation,
      assoc "passport" fields = Some (JObj passport_fields) ->
      assoc "evaluation" passport_fields = Some evaluation ->
      is_object evaluation = false ->
      PolicyEnforcementV2.convert_policy_response E (JObj fields) pack w
        = (Raise (AttributeError evaluation "get"), tick w)).
Proof.
  unfold PolicyEnforcementV2.convert_policy_response. unfold_m. simpl.
  unfold dict_get. split; [| split].
  - intros Hnone request. rewrite Hnone. split; reflexivity.
  - intros passport_data -> Hobj.
    destruct passport_data; try reflexivity. discriminate Hobj.
  - intros passport_fields evaluation -> Hev Hobj. simpl. unfold dict_get.
    rewrite Hev. destruct evaluation; try reflexivity. discriminate Hobj.
Qed.

Lemma convert_policy_response_incomplete_witness :
  assoc "passport" null_passport_response = Some JNull /\
  is_object JNull = false /\
  PolicyEnforcementV2.convert_policy_response demo_env (JObj null_passport_response)
    demo_policy initial_world
    = (Raise (PyError "AttributeError" "'NoneType' object has no attribute 'get'"),
       initial_world).
Proof.
  split; [reflexivity |]. split; [reflexivity |].
  exact (proj1 (proj2 (convert_policy_response_incomplete
                         demo_env null_passport_response demo_policy initial_world))
           JNull eq_refl eq_refl).
Defined.

(** Property X11.  Whatever the response, a policy result that [convert_policy_response]
    returns holds the given policy pack, the four checks capability,
    assurance, limits and regions in this order, the assurance method
    [api_verification], and as the passport's name its agent id. *)
Theorem convert_policy_response_shape E response pack w result w' :
  PolicyEnforcementV2.convert_policy_response E response pack w = (Ok result, w') ->
  policy result = pack /\
  map fst (checks result) = ["capability"; "assurance"; "limits"; "regions"] /\
  pd_assurance_method (passport result) = JStr "api_verification" /\
  pd_name (passport result) = pd_agent_id (passport result) /\
  w' = tick w.
Proof.
  unfold PolicyEnforcementV2.convert_policy_response. unfold_m. simpl.
  repeat case_split; intros [= <- <-] || discriminate; repeat split; congruence.
Qed.

Lemma convert_policy_response_shape_witness :
  exists result,
    PolicyEnforcementV2.convert_policy_response demo_env (JObj partial_response)
      demo_policy initial_world = (Ok result, tick initial_world) /\
    policy result = demo_policy /\
    pd_name (passport result) = JStr "ap_123".
Proof.
  eexists. split; [reflexivity |].
  destruct (convert_policy_response_shape demo_env (JObj partial_response) demo_policy
              initial_world _ _ eq_refl) as (Hpolicy & _ & _ & Hname & _).
  split; [exact Hpolicy |]. rewrite Hname. reflexivity.
Defined.

(** ** The dependencies of [policy_enforcement_v2] *)

Lemma always_raises_bind {A B : Type} (m : M A) (k : A -> M B) :
  (forall a, always_raises (k a)) -> always_raises (bind m k).
Proof.
  intros Hk w. unfold bind. destruct (m w) as [[a | e] w'].
  - apply Hk.
  - exists e, w'. reflexivity.
Qed.

Lemma always_raises_raise {A : Type} (e : exn) : always_raises (@raise A e).
Proof. intros w. exists e, w. reflexivity. Qed.

Lemma always_raises_lambda_req_None (request : Request) :
  always_raises (await_call_next PolicyEnforcementV2.lambda_req_None request).
Proof. intros w. eexists _, _. reflexivity. Qed.

Ltac always_raises_step :=
  match goal with
  | |- always_raises (bind _ _) => apply always_raises_bind; intros
  | |- always_raises (raise _) => apply always_raises_raise
  | |- always_raises (await_call_next PolicyEnforcementV2.lambda_req_None _) =>
      apply always_raises_lambda_req_None
  | |- always_raises (if ?b then _ else _) => destruct b
  | |- always_raises (match ?x with _ => _ end) => destruct x
  end.

Lemma middleware_with_lambda_always_raises E agent_id config request :
  always_raises
    (PolicyEnforcementV2.middleware E agent_id config request
       PolicyEnforcementV2.lambda_req_None).
Proof.
  unfold PolicyEnforcementV2.middleware, PolicyEnforcementV2.verification_failed.
  repeat always_raises_step.
Qed.

(** Property X12.  The dependencies that [require_policy] and
    [require_policy_with_context] build never return: they run the
    middleware with [lambda req: None] as the handler, whose result
    cannot be awaited, so every run ends in an exception, either an
    [HTTPException] of the middleware or the [TypeError] of [await
    None].  In particular an allowed request whose policy pack cannot be
    fetched, and any request when the middleware is switched off, end
    in the [TypeError]. *)
Theorem require_policy_dependency_always_raises E policy_id agent_id config request :
  always_raises (PolicyEnforcementV2.require_policy E policy_id agent_id config request) /\
  (forall context,
      always_raises (PolicyEnforcementV2.require_policy_with_context
                       E policy_id agent_id context config request)) /\
  (forall config' w,
      config = Some config' ->
      PolicyEnforcementV2.enabled config' = false ->
      PolicyEnforcementV2.require_policy E policy_id agent_id config request w
        = (Raise await_None_error,
           record_event w (EvCallNext (set_policy_id request policy_id)))) /\
  (forall fields w w1 w2,
      config = None ->
      policy_id <> "" ->
      PolicyEnforcementV2.verify_policy_compliance
        E agent_id policy_id
        (PolicyEnforcementV2.request_context (set_policy_id request policy_id))
        PolicyEnforcementV2.default_config w
        = (Ok (Some (JObj fields)), w1) ->
      allows (JObj fields) = true ->
      PolicyEnforcementV2.fetch_policy_pack E policy_id PolicyEnforcementV2.default_config w1
        = (Ok None, w2) ->
      PolicyEnforcementV2.require_policy E policy_id agent_id config request w
        = (Raise await_None_error,
           record_event w2 (EvCallNext (set_policy_id request policy_id)))).
Proof.
  unfold PolicyEnforcementV2.require_policy, PolicyEnforcementV2.require_policy_with_context,
         PolicyEnforcementV2.create_agent_passport_middleware.
  split; [apply middleware_with_lambda_always_raises |].
  split; [intros context; apply middleware_with_lambda_always_raises |].
  split.
  - intros config' w -> Hoff. apply middleware_switched_off. exact Hoff.
  - intros fields w w1 w2 -> Hne Hverify Hallow Hfetch.
    assert (Hid : PolicyEnforcementV2.request_policy_id (set_policy_id request policy_id)
                  = Some policy_id).
    { unfold PolicyEnforcementV2.request_policy_id, or_else. simpl.
      destruct policy_id; [contradiction | reflexivity]. }
    rewrite (middleware_after_allow E PolicyEnforcementV2.default_config agent_id
               (set_policy_id request policy_id) PolicyEnforcementV2.lambda_req_None
               policy_id fields w w1 eq_refl Hid Hne Hverify Hallow).
    unfold bind at 1. rewrite Hfetch. reflexivity.
Qed.

Lemma require_policy_dependency_witness :
  let request := refund_request small_refund in
  let config := PolicyEnforcementV2.default_config in
  let w1 := (PolicyEnforcementV2.verify_policy_compliance
               demo_env "ap_123" refund_policy small_refund config initial_world).2 in
  let w2 := (PolicyEnforcementV2.fetch_policy_pack demo_env refund_policy config w1).2 in
  PolicyEnforcementV2.enabled disabled_config = false /\
  PolicyEnforcementV2.require_policy demo_env refund_policy "ap_123" (Some disabled_config)
    request initial_world
    = (Raise await_None_error,
       record_event initial_world (EvCallNext (set_policy_id request refund_policy))) /\
  allows allow_reply = true /\
  PolicyEnforcementV2.require_policy demo_env refund_policy "ap_123" None
    request initial_world
    = (Raise await_None_error,
       record_event w2 (EvCallNext (set_policy_id request refund_policy))).
Proof.
  intros request config w1 w2.
  assert (Hne : refund_policy <> "") by discriminate.
  destruct (require_policy_dependency_always_raises demo_env refund_policy "ap_123"
              (Some disabled_config) request) as (_ & _ & Hoff & _).
  destruct (require_policy_dependency_always_raises demo_env refund_policy "ap_123"
              None request) as (_ & _ & _ & Hallowed).
  split; [reflexivity |]. split; [exact (Hoff disabled_config initial_world eq_refl eq_refl) |].
  split; [reflexivity |].
  exact (Hallowed _ initial_world w1 w2 eq_refl Hne eq_refl eq_refl eq_refl).
Defined.

(** ** The agent identifier in [middleware_simple] and [middleware_v2] *)

Lemma bearer_token_strips_prefix (token : string) :
  bearer_token (Some ("Bearer " +:+ token)) = Some token.
Proof.
  unfold bearer_token.
  assert (Hp : String.prefix "Bearer " ("Bearer " +:+ token) = true)
    by (apply prefix_spec; exists token; reflexivity).
  rewrite Hp. reflexivity.
Qed.

Lemma header_agent_id_precedence (request : Request) :
  (str_truthy (header request "x-agent-passport-id") = true ->
   header_agent_id request = header request "x-agent-passport-id") /\
  (str_truthy (header request "x-agent-passport-id") = false ->
   str_truthy (header request "x-agent-id") = true ->
   header_agent_id request = header request "x-agent-id") /\
  (str_truthy (header request "x-agent-passport-id") = false ->
   str_truthy (header request "x-agent-id") = false ->
   header_agent_id request = bearer_token (header request "authorization")).
Proof.
  unfold header_agent_id, or_else. split; [| split].
  - intros H1. rewrite H1. simpl. rewrite H1. reflexivity.
  - intros H1 H2. rewrite H1, H2. reflexivity.
  - intros H1 H2. rewrite H1, H2. reflexivity.
Qed.

Section FirstEvent.
Context (E : Env) (S : SDK) (options : AgentPassportMiddlewareOptions).
Context (request : Request) (call_next : Request -> result Response).

(** A request that is not skipped and names an agent makes the
    verification of that agent the first effect of [dispatch]. *)
Lemma dispatch_verifies_header_agent_id agent_id w :
  MiddlewareSimple._should_skip_request options request = false ->
  header_agent_id request = Some agent_id ->
  agent_id <> "" ->
  (exists events,
      w_trace (MiddlewareSimple.dispatch E S options request call_next w).2
        = w_trace w ++ EvVerifyPassport agent_id :: events) /\
  (exists events,
      w_trace (MiddlewareV2.dispatch E S options request call_next w).2
        = w_trace w ++ EvVerifyPassport agent_id :: events).
Proof.
  intros Hskip Hid Hne.
  assert (Hskip2 : MiddlewareV2._should_skip_request options request = false)
    by exact Hskip.
  unfold header_agent_id in Hid.
  destruct agent_id as [| c s]; [contradiction |].
  split.
  - unfold MiddlewareSimple.dispatch, MiddlewareSimple.dispatch_body.
    rewrite Hskip, Hid. unfold_m. simpl.
    repeat case_split;
      (eexists; rewrite <- ?app_assoc; simpl; reflexivity).
  - unfold MiddlewareV2.dispatch, MiddlewareV2.dispatch_body,
      MiddlewareV2.check_required_permissions, MiddlewareV2.check_allowed_regions,
      MiddlewareV2.check_capabilities, MiddlewareV2.check_assurance,
      MiddlewareV2.check_mcp, MiddlewareV2.check_regions, MiddlewareV2.check_limits.
    rewrite Hskip2, Hid. unfold_m. simpl.
    repeat case_split;
      (eexists; rewrite <- ?app_assoc; simpl; reflexivity).
Qed.

End FirstEvent.

(** Property X14.  In [middleware_simple] and [middleware_v2] the agent whose passport
    is verified is read from the headers in a fixed order of
    precedence: a non-empty [X-Agent-Passport-Id], else a non-empty
    [X-Agent-ID], else the token of an [Authorization] header of the
    form [Bearer <token>].  An empty header counts as absent. *)
Theorem agent_id_header_precedence E S options request call_next w :
  MiddlewareSimple._should_skip_request options request = false ->
  let verifies agent_id :=
    (exists events,
        w_trace (MiddlewareSimple.dispatch E S options request call_next w).2
          = w_trace w ++ EvVerifyPassport agent_id :: events) /\
    (exists events,
        w_trace (MiddlewareV2.dispatch E S options request call_next w).2
          = w_trace w ++ EvVerifyPassport agent_id :: events) in
  (forall agent_id,
      header request "x-agent-passport-id" = Some agent_id -> agent_id <> "" ->
      verifies agent_id) /\
  (forall agent_id,
      str_truthy (header request "x-agent-passport-id") = false ->
      header request "x-agent-id" = Some agent_id -> agent_id <> "" ->
      verifies agent_id) /\
  (forall token,
      str_truthy (header request "x-agent-passport-id") = false ->
      str_truthy (header request "x-agent-id") = false ->
      header request "authorization" = Some ("Bearer " +:+ token) -> token <> "" ->
      verifies token).
Proof.
  intros Hskip verifies.
  destruct (header_agent_id_precedence request) as (H1 & H2 & H3).
  assert (Htruthy : forall s, s <> "" -> str_truthy (Some s) = true)
    by (intros [| c s] Hs; [contradiction | reflexivity]).
  split; [| split].
  - intros agent_id Hheader Hne.
    apply dispatch_verifies_header_agent_id; try assumption.
    rewrite H1; rewrite Hheader; auto.
  - intros agent_id Hpassport Hheader Hne.
    apply dispatch_verifies_header_agent_id; try assumption.
    rewrite H2; rewrite ?Hheader; auto.
  - intros token Hpassport Hgeneric Hheader Hne.
    apply dispatch_verifies_header_agent_id; try assumption.
    rewrite H3, Hheader by assumption. apply bearer_token_strips_prefix.
Qed.

Lemma agent_id_header_precedence_witness :
  let S := demo_sdk allow allow internal_failure in
  let options := demo_options true [] in
  (header three_ids_request "x-agent-passport-id" = Some "ap_passport" /\
   header three_ids_request "x-agent-id" = Some "ap_generic" /\
   exists events,
     w_trace (MiddlewareV2.dispatch demo_env S options three_ids_request ok_handler
                initial_world).2
       = w_trace initial_world ++ EvVerifyPassport "ap_passport" :: events) /\
  (header bearer_request "x-agent-id" = Some "" /\
   header bearer_request "authorization" = Some ("Bearer " +:+ "ap_token") /\
   exists events,
     w_trace (MiddlewareSimple.dispatch demo_env S options bearer_request ok_handler
                initial_world).2
       = w_trace initial_world ++ EvVerifyPassport "ap_token" :: events).
Proof.
  intros S options.
  assert (Hne : "ap_passport" <> "") by discriminate.
  assert (Hne' : "ap_token" <> "") by discriminate.
  destruct (agent_id_header_precedence demo_env S options three_ids_request ok_handler
              initial_world eq_refl) as (Hfirst & _ & _).
  destruct (agent_id_header_precedence demo_env S options bearer_request ok_handler
              initial_world eq_refl) as (_ & _ & Hthird).
  split.
  - split; [reflexivity |]. split; [reflexivity |].
    exact (proj2 (Hfirst "ap_passport" eq_refl Hne)).
  - split; [reflexivity |]. split; [reflexivity |].
    exact (proj1 (Hthird "ap_token" eq_refl eq_refl eq_refl Hne')).
Defined.

(** ** Passport verification in [middleware_simple] *)



(** ** Failing open *)

(** Property X16.  With [fail_closed] unset, a request that is not skipped and carries
    no agent identifier goes to the handler as it came, in the three
    middleware classes: nothing is verified, nothing is attached, and no
    warning is written. *)
Theorem missing_agent_id_fails_open E S options request call_next response w :
  fail_closed options = false ->
  call_next request = Ok response ->
  (MiddlewareSimple._should_skip_request options request = false ->
   str_truthy (header_agent_id request) = false ->
   MiddlewareSimple.dispatch E S options request call_next w
     = (Ok response, record_event w (EvCallNext request)) /\
   MiddlewareV2.dispatch E S options request call_next w
     = (Ok response, record_event w (EvCallNext request))) /\
  (MiddlewareV3._should_skip_verification options request = false ->
   forall agent_id,
     extract_agent_id_from_request S request = Ok agent_id ->
     str_truthy agent_id = false ->
     MiddlewareV3.dispatch E S options request call_next w
       = (Ok response, record_event w (EvCallNext request))).
Proof.
  intros Hopen Hnext. split.
  - intros Hskip Hid.
    assert (Hskip2 : MiddlewareV2._should_skip_request options request = false)
      by exact Hskip.
    unfold MiddlewareSimple.dispatch, MiddlewareV2.dispatch,
           MiddlewareSimple.dispatch_body, MiddlewareV2.dispatch_body.
    rewrite Hskip, Hskip2. unfold header_agent_id in Hid.
    destruct (or_else _ _) as [[| c s] |]; try discriminate Hid;
      rewrite Hopen; unfold_m; rewrite Hnext; split; reflexivity.
  - intros Hskip agent_id Hextract Hfalsy.
    unfold MiddlewareV3.dispatch, MiddlewareV3.dispatch_body.
    rewrite Hskip. unfold_m. rewrite Hextract.
    rewrite Hfalsy, Hopen. simpl.
    destruct agent_id as [[| c s] |]; try discriminate Hfalsy;
      rewrite Hnext; reflexivity.
Qed.

Lemma missing_agent_id_fails_open_witness :
  let S := demo_sdk allow allow internal_failure in
  fail_closed (demo_options false []) = false /\
  str_truthy (header_agent_id anonymous_request) = false /\
  MiddlewareV2.dispatch demo_env S (demo_options false []) anonymous_request
    ok_handler initial_world
    = (Ok (JSONResponse 200 (JObj [("ok", JBool true)])),
       record_event initial_world (EvCallNext anonymous_request)) /\
  MiddlewareV3.dispatch demo_env S (demo_options false []) anonymous_request
    ok_handler initial_world
    = (Ok (JSONResponse 200 (JObj [("ok", JBool true)])),
       record_event initial_world (EvCallNext anonymous_request)).
Proof.
  intros S.
  destruct (missing_agent_id_fails_open demo_env S (demo_options false [])
              anonymous_request ok_handler _ initial_world eq_refl eq_refl) as [H12 H3].
  split; [reflexivity |]. split; [reflexivity |].
  split; [exact (proj2 (H12 eq_refl eq_refl)) |].
  exact (H3 eq_refl None eq_refl eq_refl).
Defined.

(** ** The decision of [middleware_v2] *)

#[local] Arguments MiddlewareV2._get_operation_type : simpl never.

Ltac deny_403 :=
  eexists _, _; split;
  [ unfold insufficient_capabilities_403; simpl; rewrite <- ?app_assoc; simpl; reflexivity
  | reflexivity ].

Section V2Decision.
Context (E : Env) (S : SDK) (options : AgentPassportMiddlewareOptions).
Context (request : Request) (call_next : Request -> result Response).
Context (agent_id : string) (agent : AgentPassport).
Context (capabilities regions limits : json) (items : list json).

Hypothesis not_skipped : MiddlewareV2._should_skip_request options request = false.
Hypothesis names_agent : header_agent_id request = Some agent_id.
Hypothesis agent_id_not_empty : agent_id <> "".
Hypothesis verified : client_verify_agent_passport S agent_id = Ok agent.
Hypothesis prechecks : passes_prechecks S options agent.
Hypothesis has_capabilities : getattr agent "capabilities" = Ok capabilities.
Hypothesis capabilities_listed : py_iter capabilities = Ok items.

(** Up to the capability evaluator. *)
Lemma v2_dispatch_body_from_capabilities w :
  MiddlewareV2.dispatch_body E S options request call_next w
  = (or_continue
       (capability_check <-
          await_sdk (EvCheck Capability)
            (check_capability_requirement S (req_path request)
               (MiddlewareV2._extract_capability_ids E items)) ;;
        allowed <- lift (subscript capability_check "allowed") ;;
        if negb (truthy allowed) then
          ret (Some (insufficient_capabilities_403 capability_check
                       (MiddlewareV2._extract_capability_ids E items)))
        else ret None)
       (or_continue (MiddlewareV2.check_assurance E S request agent) (
        or_continue (MiddlewareV2.check_mcp S request agent) (
        or_continue (MiddlewareV2.check_regions S options agent) (
        or_continue (MiddlewareV2.check_limits S request agent) (
        await_call_next call_next (set_agent request agent)))))))
      (record_event w (EvVerifyPassport agent_id)).
Proof.
  unfold MiddlewareV2.dispatch_body. rewrite not_skipped.
  pose proof names_agent as Hid. unfold header_agent_id in Hid. rewrite Hid.
  destruct agent_id as [| c s] eqn:Hagent; [contradiction |].
  unfold bind at 1. unfold await_sdk at 1. unfold bind at 1, emit at 1, lift at 1.
  cbv beta iota. rewrite verified. cbv beta iota.
  destruct (prechecks_pass S options agent
              (record_event w (EvVerifyPassport (String c s))) prechecks) as [Hp Hr].
  unfold or_continue at 1. unfold bind at 1.
  fold (record_event w (EvVerifyPassport (String c s))). rewrite Hp. cbv beta iota.
  unfold or_continue at 1. unfold bind at 1. rewrite Hr. cbv beta iota.
  unfold MiddlewareV2.check_capabilities.
  unfold or_continue at 1 3. unfold bind at 1 2 3. unfold lift at 1 2.
  rewrite has_capabilities, capabilities_listed. reflexivity.
Qed.

Context (capability_check assurance_check mcp_check region_check limits_check : verdict).
Context (capability_ok assurance_ok mcp_ok region_ok limits_ok : json).
Context (response : Response).

Hypothesis has_regions : getattr agent "regions" = Ok regions.
Hypothesis has_limits : getattr agent "limits" = Ok limits.
Hypothesis capability_verdict :
  check_capability_requirement S (req_path request)
    (MiddlewareV2._extract_capability_ids E items) = Ok capability_check.
Hypothesis assurance_verdict :
  check_assurance_requirement S (dict_get agent "assurance_level" (JStr "L0"))
    (req_path request) = Ok assurance_check.
Hypothesis mcp_verdict :
  check_mcp_requirement S (req_headers request) agent = Ok mcp_check.
Hypothesis region_verdict :
  check_region_requirements S regions (allowed_regions options) = Ok region_check.
Hypothesis limits_verdict :
  check_limits_for_operation S (MiddlewareV2._get_operation_type (req_path request))
    (if truthy limits then limits else JObj [])
    (MiddlewareV2._extract_operation_data request) = Ok limits_check.
Hypothesis capability_allowed : assoc "allowed" capability_check = Some capability_ok.
Hypothesis assurance_allowed : assoc "allowed" assurance_check = Some assurance_ok.
Hypothesis mcp_allowed : assoc "allowed" mcp_check = Some mcp_ok.
Hypothesis region_allowed : assoc "allowed" region_check = Some region_ok.
Hypothesis limits_allowed : assoc "allowed" limits_check = Some limits_ok.
Hypothesis handler_answers : call_next (set_agent request agent) = Ok response.

(** Property X17.  In [middleware_v2], for a verified agent that passes the configured
    pre-checks and whose five verdicts each carry [allowed]: the
    handler is reached exactly when the five verdicts allow, and then
    it receives the request with the passport attached, after the five
    evaluators have run in order; otherwise the answer is a 403 and the
    handler is not called. *)
Theorem v2_dispatch_allows_iff_every_evaluator_allows w :
  let run := MiddlewareV2.dispatch E S options request call_next w in
  if truthy capability_ok && truthy assurance_ok && truthy mcp_ok
     && truthy region_ok && truthy limits_ok
  then run = (Ok response,
              record_events w (full_evaluation agent_id (set_agent request agent)))
  else exists content events,
      run = (Ok (JSONResponse 403 content), record_events w events) /\
      forallb (fun ev => negb (is_call_next ev)) events = true.
Proof.
  unfold MiddlewareV2.dispatch, try_except.
  rewrite v2_dispatch_body_from_capabilities.
  unfold record_events, full_evaluation.
  unfold MiddlewareV2.check_assurance, MiddlewareV2.check_mcp,
         MiddlewareV2.check_regions, MiddlewareV2.check_limits, subscript.
  unfold_m. simpl.
  rewrite capability_verdict. simpl. rewrite capability_allowed. simpl.
  destruct (truthy capability_ok); simpl;
    [| deny_403].
  rewrite assurance_verdict. simpl. rewrite assurance_allowed. simpl.
  destruct (truthy assurance_ok); simpl;
    [| deny_403].
  rewrite mcp_verdict. simpl. rewrite mcp_allowed. simpl.
  destruct (truthy mcp_ok); simpl;
    [| deny_403].
  rewrite has_regions. simpl. rewrite region_verdict. simpl.
  rewrite region_allowed. simpl.
  destruct (truthy region_ok); simpl;
    [| deny_403].
  rewrite has_limits. simpl. rewrite limits_verdict. simpl.
  rewrite limits_allowed. simpl.
  destruct (truthy limits_ok); simpl;
    [| deny_403].
  rewrite handler_answers. rewrite <- !app_assoc. reflexivity.
Qed.

End V2Decision.

Section V2Malformed.
Context (E : Env) (S : SDK) (options : AgentPassportMiddlewareOptions).
Context (request : Request) (call_next : Request -> result Response).
Context (agent_id : string) (agent : AgentPassport).

Hypothesis not_skipped : MiddlewareV2._should_skip_request options request = false.
Hypothesis names_agent : header_agent_id request = Some agent_id.
Hypothesis agent_id_not_empty : agent_id <> "".
Hypothesis verified : client_verify_agent_passport S agent_id = Ok agent.
Hypothesis prechecks : passes_prechecks S options agent.

Lemma v2_dispatch_body_after_prechecks w :
  MiddlewareV2.dispatch_body E S options request call_next w
  = (or_continue (MiddlewareV2.check_capabilities E S request agent) (
     or_continue (MiddlewareV2.check_assurance E S request agent) (
     or_continue (MiddlewareV2.check_mcp S request agent) (
     or_continue (MiddlewareV2.check_regions S options agent) (
     or_continue (MiddlewareV2.check_limits S request agent) (
     await_call_next call_next (set_agent request agent)))))))
      (record_event w (EvVerifyPassport agent_id)).
Proof.
  unfold MiddlewareV2.dispatch_body. rewrite not_skipped.
  pose proof names_agent as Hid. unfold header_agent_id in Hid. rewrite Hid.
  destruct agent_id as [| c s] eqn:Hagent; [contradiction |].
  unfold bind at 1. unfold await_sdk at 1. unfold bind at 1, emit at 1, lift at 1.
  cbv beta iota. rewrite verified. cbv beta iota.
  destruct (prechecks_pass S options agent
              (record_event w (EvVerifyPassport (String c s))) prechecks) as [Hp Hr].
  unfold or_continue at 1. unfold bind at 1.
  fold (record_event w (EvVerifyPassport (String c s))). rewrite Hp. cbv beta iota.
  unfold or_continue at 1. unfold bind at 1. rewrite Hr. reflexivity.
Qed.

(** Property X18.  [middleware_v2] fails closed on malformed data.  For a verified
    agent that passes the pre-checks: if the passport has no
    [capabilities] attribute, or if its capabilities cannot be iterated
    (such as [None]), no evaluator is invoked; if the capability verdict
    has no [allowed] key, no further evaluator is invoked.  In each case
    the handler is not called, the exception is printed, and the answer
    is the generic 500 [internal_error]. *)
Theorem v2_dispatch_fails_closed_on_malformed_data w :
  (forall e,
      getattr agent "capabilities" = Raise e \/
      (exists capabilities, getattr agent "capabilities" = Ok capabilities /\
                            py_iter capabilities = Raise e) ->
      is_AgentPassportError e = false ->
      MiddlewareV2.dispatch E S options request call_next w
        = (Ok internal_error_500,
           record_events w
             [EvVerifyPassport agent_id;
              EvPrint ("Agent Passport middleware error: " +:+ exn_text (repr E) e)])) /\
  (forall capabilities items capability_check,
      getattr agent "capabilities" = Ok capabilities ->
      py_iter capabilities = Ok items ->
      check_capability_requirement S (req_path request)
        (MiddlewareV2._extract_capability_ids E items) = Ok capability_check ->
      assoc "allowed" capability_check = None ->
      MiddlewareV2.dispatch E S options request call_next w
        = (Ok internal_error_500,
           record_events w
             [EvVerifyPassport agent_id; EvCheck Capability;
              EvPrint "Agent Passport middleware error: 'allowed'"])).
Proof.
  unfold MiddlewareV2.dispatch, try_except.
  rewrite v2_dispatch_body_after_prechecks.
  unfold MiddlewareV2.check_capabilities, record_events, record_event.
  split.
  - intros e Hraise Hunexpected.
    unfold or_continue at 1. unfold bind at 1 2. unfold lift at 1.
    destruct Hraise as [Hattr | (capabilities & Hattr & Hiter)]; rewrite Hattr.
    + destruct e; try discriminate Hunexpected;
        unfold_m; simpl; rewrite <- app_assoc; reflexivity.
    + cbv beta iota. unfold bind at 1. unfold lift at 1. rewrite Hiter.
      destruct e; try discriminate Hunexpected;
        unfold_m; simpl; rewrite <- app_assoc; reflexivity.
  - intros capabilities items capability_check Hattr Hiter Hcheck Hmissing.
    unfold subscript. unfold_m. simpl.
    rewrite Hattr, Hiter. simpl. rewrite Hcheck. simpl. rewrite Hmissing. simpl.
    rewrite <- !app_assoc. reflexivity.
Qed.

End V2Malformed.

Lemma v2_dispatch_allows_witness :
  let S := demo_sdk allow allow internal_failure in
  let options := demo_options true [] in
  passes_prechecks S options demo_agent /\
  MiddlewareV2.dispatch demo_env S options agent_request ok_handler initial_world
    = (Ok (JSONResponse 200 (JObj [("ok", JBool true)])),
       record_events initial_world
         (full_evaluation "ap_123" (set_agent agent_request demo_agent))).
Proof.
  intros S options.
  assert (Hne : "ap_123" <> "") by discriminate.
  assert (Hpre : passes_prechecks S options demo_agent)
    by (split; left; reflexivity).
  split; [exact Hpre |].
  exact (v2_dispatch_allows_iff_every_evaluator_allows
           demo_env S options agent_request ok_handler "ap_123" demo_agent
           (JArr [JStr "data.read"; JObj [("id", JStr "data.export")]])
           (JArr [JStr "US"]) (JObj [])
           [JStr "data.read"; JObj [("id", JStr "data.export")]]
           eq_refl eq_refl Hne eq_refl Hpre eq_refl eq_refl
           allow allow allow allow allow
           (JBool true) (JBool true) (JBool true) (JBool true) (JBool true)
           (JSONResponse 200 (JObj [("ok", JBool true)]))
           eq_refl eq_refl eq_refl eq_refl eq_refl eq_refl eq_refl
           eq_refl eq_refl eq_refl eq_refl eq_refl eq_refl initial_world).
Defined.

Lemma v2_dispatch_malformed_witness :
  let S := demo_sdk [] allow internal_failure in
  let options := demo_options true [] in
  check_capability_requirement S "/api/data" [JStr "data.read"; JStr "data.export"] = Ok [] /\
  MiddlewareV2.dispatch demo_env S options agent_request ok_handler initial_world
    = (Ok internal_error_500,
       record_events initial_world
         [EvVerifyPassport "ap_123"; EvCheck Capability;
          EvPrint "Agent Passport middleware error: 'allowed'"]).
Proof.
  intros S options.
  assert (Hne : "ap_123" <> "") by discriminate.
  assert (Hpre : passes_prechecks S options demo_agent)
    by (split; left; reflexivity).
  split; [reflexivity |].
  exact (proj2 (v2_dispatch_fails_closed_on_malformed_data
                  demo_env S options agent_request ok_handler "ap_123" demo_agent
                  eq_refl eq_refl Hne eq_refl Hpre initial_world)
           _ _ [] eq_refl eq_refl eq_refl eq_refl).
Defined.

(** ** [middleware_v3] *)

(** Property X19.  The answers of [middleware_v3]'s [dispatch].  It never raises, and
    every response it returns is the handler's own response, one of the
    two 401 responses ([missing_agent_id], [agent_verification_failed])
    or the generic 500 [middleware_error]: a denial of the policy
    checks (403) and an unknown policy (404) reach the caller as that
    500. *)
Theorem v3_dispatch_answers E S options request call_next w :
  exists response,
    (MiddlewareV3.dispatch E S options request call_next w).1 = Ok response /\
    ((exists request', call_next request' = Ok response) \/
     resp_status response = 401 \/
     response = middleware_error_500).
Proof.
  unfold MiddlewareV3.dispatch, MiddlewareV3.dispatch_body,
    MiddlewareV3._run_enforcement_checks, MiddlewareV3.enforce_policy.
  unfold_m. simpl.
  repeat case_split;
    (eexists; split; [reflexivity |]);
    first [ right; left; reflexivity
          | right; right; reflexivity
          | left; eexists; eassumption ].
Qed.

Section V3RequirePolicy.
Context (E : Env) (S : SDK).
Context (policy_id : string) (agent_id : option string).
Context (request : Request) (call_next : Request -> result Response).
Context (validated_agent_id : option string) (validated_policy_id final_agent_id : string).

Hypothesis call_validated :
  validate_policy_call S agent_id policy_id = Ok (validated_agent_id, validated_policy_id).
Hypothesis agent_present :
  validate_agent_id_present S validated_agent_id request = Ok final_agent_id.

Let body := MiddlewareV3.request_body request.

(** Property X21.  [require_policy] of [middleware_v3], once the call is validated,
    asks the directory in a fixed order and stops at the first failure,
    which it raises as an [HTTPException] that it does not wrap: a
    failed passport verification is a 401; an agent without access to
    the policy is a 403 [policy_access_denied], and neither the policy
    nor the verification is asked for; an unknown policy is a 404, and
    the verification is not asked for; a verification result whose
    [allowed] is false or missing is a 403 [policy_violation] with the
    reason and the violations.  Otherwise the handler receives the
    request with the passport and an allowed policy result attached. *)
Theorem v3_require_policy_stops_at_first_failure w :
  let run := MiddlewareV3.require_policy E S policy_id agent_id request call_next w in
  let verified := record_event w (EvVerifyPassport final_agent_id) in
  let asked_access :=
    record_event verified (EvHasPolicyAccess final_agent_id validated_policy_id body) in
  let asked_policy := record_event asked_access (EvGetPolicy validated_policy_id) in
  let asked_verification :=
    record_event asked_policy (EvVerifyPolicy final_agent_id validated_policy_id body) in
  (forall text status_code code message error_agent_id,
      verify_agent_passport S final_agent_id
        = Raise (AgentPassportError text status_code code message error_agent_id) ->
      run = (Raise (agent_verification_failed_401 final_agent_id text), verified)) /\
  (forall agent,
      verify_agent_passport S final_agent_id = Ok agent ->
      (has_policy_access S final_agent_id validated_policy_id body = Ok false ->
       run = (Raise (policy_access_denied_403 final_agent_id validated_policy_id),
              asked_access)) /\
      (has_policy_access S final_agent_id validated_policy_id body = Ok true ->
       forall policy,
         get_policy S validated_policy_id = Ok policy ->
         (truthy policy = false ->
          run = (Raise (policy_not_found_404 final_agent_id validated_policy_id),
                 asked_policy)) /\
         (truthy policy = true ->
          forall fields,
            verify_policy S final_agent_id validated_policy_id body = Ok (JObj fields) ->
            (truthy (dict_get fields "allowed" (JBool false)) = false ->
             run = (Raise (policy_violation_v3_403 final_agent_id validated_policy_id fields),
                    asked_verification)) /\
            (truthy (dict_get fields "allowed" (JBool false)) = true ->
             forall extracted response,
               get_policy_result S (JObj fields) = Ok extracted ->
               let request' :=
                 set_policy_result_v3 (set_agent request agent)
                                      (allowed_policy_result extracted) in
               call_next request' = Ok response ->
               run = (Ok response, record_event asked_verification (EvCallNext request')))))).
Proof.
  cbv zeta.
  unfold MiddlewareV3.require_policy, MiddlewareV3.require_policy_body,
         MiddlewareV3.enforce_policy.
  unfold_m. rewrite call_validated. simpl. rewrite agent_present. simpl.
  split.
  - intros text status_code code message error_agent_id Hverify.
    rewrite Hverify. reflexivity.
  - intros agent Hverify. rewrite Hverify. simpl.
    change (MiddlewareV3.request_body (set_agent request agent)) with body.
    split.
    + intros Haccess. rewrite Haccess. reflexivity.
    + intros Haccess policy Hpolicy. rewrite Haccess. simpl. rewrite Hpolicy. simpl.
      split.
      * intros Hfalsy. rewrite Hfalsy. reflexivity.
      * intros Htruthy fields Hresult. rewrite Htruthy. simpl. rewrite Hresult. simpl.
        split.
        -- intros Hdenied. rewrite Hdenied. reflexivity.
        -- intros Hallowed extracted response Hextracted Hnext.
           rewrite Hallowed. simpl. rewrite Hextracted. simpl.
           fold (allowed_policy_result extracted).
           unfold allowed_policy_result in *. simpl in Hnext.
           rewrite Hnext. reflexivity.
Qed.

End V3RequirePolicy.

Lemma v3_require_policy_witness :
  let body := MiddlewareV3.request_body agent_request in
  verify_policy allow_key_sdk "ap_123" refund_policy body = Ok (JObj [("allow", JBool true)]) /\
  truthy (dict_get [("allow", JBool true)] "allowed" (JBool false)) = false /\
  (MiddlewareV3.require_policy demo_env allow_key_sdk refund_policy (Some "ap_123")
     agent_request ok_handler initial_world).1
    = Raise (HTTPException 403
               (JObj [("error", JStr "policy_violation");
                      ("message", JStr "Policy violation");
                      ("agent_id", JStr "ap_123");
                      ("policy_id", JStr refund_policy);
                      ("violations", JArr [])])).
Proof.
  intros body. split; [reflexivity |]. split; [reflexivity |].
  destruct (v3_require_policy_stops_at_first_failure
              demo_env allow_key_sdk refund_policy (Some "ap_123") agent_request ok_handler
              (Some "ap_123") refund_policy "ap_123" eq_refl eq_refl initial_world)
    as [_ Hverified].
  destruct (Hverified demo_agent eq_refl) as [_ Haccess].
  destruct (Haccess eq_refl _ eq_refl) as [_ Hpolicy].
  destruct (Hpolicy eq_refl _ eq_refl) as [Hdenied _].
  exact (f_equal fst (Hdenied eq_refl)).
Defined.

(** ** The merged context of [require_policy_with_context] *)

Lemma assoc_dict_set {A : Type} (k k' : string) (v : A) (d : list (string * A)) :
  assoc k (dict_set k' v d) = if String.eqb k k' then Some v else assoc k d.
Proof.
  induction d as [| [k0 v0] d IH]; simpl.
  - destruct (String.eqb k k'); reflexivity.
  - destruct (String.eqb k' k0) eqn:Hk0; simpl.
    + apply String.eqb_eq in Hk0 as <-. destruct (String.eqb k k'); reflexivity.
    + destruct (String.eqb k k0) eqn:Hkk0.
      * apply String.eqb_eq in Hkk0 as ->.
        rewrite String.eqb_sym, Hk0. reflexivity.
      * exact IH.
Qed.

Lemma assoc_not_in {A : Type} (k : string) (d : list (string * A)) :
  ~ In k (map fst d) -> assoc k d = None.
Proof.
  induction d as [| [k0 v0] d IH]; simpl; [reflexivity |].
  intros Hnot. destruct (String.eqb k k0) eqn:Hk.
  - apply String.eqb_eq in Hk. exfalso. apply Hnot. left. now symmetry.
  - apply IH. intros Hin. apply Hnot. now right.
Qed.

Lemma assoc_dict_update {A : Type} (k : string) (d items : list (string * A)) :
  List.NoDup (map fst items) ->
  assoc k (dict_update d items)
  = match assoc k items with
    | Some v => Some v
    | None => assoc k d
    end.
Proof.
  unfold dict_update. revert d.
  induction items as [| [k1 v1] items IH]; intros d Hnodup; simpl; [reflexivity |].
  inversion Hnodup as [| ? ? Hnotin Hrest]; subst.
  rewrite (IH _ Hrest), assoc_dict_set.
  destruct (String.eqb k k1) eqn:Hk.
  - apply String.eqb_eq in Hk as ->. rewrite (assoc_not_in k1 items Hnotin). reflexivity.
  - reflexivity.
Qed.

Lemma keys_dict_set {A : Type} (k : string) (v : A) (d : list (string * A)) :
  exists added, map fst (dict_set k v d) = map fst d ++ added.
Proof.
  induction d as [| [k0 v0] d [added IH]]; simpl.
  - exists [k]. reflexivity.
  - destruct (String.eqb k k0) eqn:Hk; simpl.
    + apply String.eqb_eq in Hk as ->. exists []. now rewrite app_nil_r.
    + exists added. now rewrite IH.
Qed.

Lemma keys_dict_update {A : Type} (d items : list (string * A)) :
  exists added, map fst (dict_update d items) = map fst d ++ added.
Proof.
  unfold dict_update. revert d.
  induction items as [| [k1 v1] items IH]; intros d; simpl.
  - exists []. now rewrite app_nil_r.
  - destruct (IH (dict_set k1 v1 d)) as [added Hadded].
    destruct (keys_dict_set k1 v1 d) as [added' Hadded'].
    exists (added' ++ added). rewrite Hadded, Hadded', app_assoc. reflexivity.
Qed.

(** Property X22.  The context that [require_policy_with_context] sends to the
    directory is the request body overridden by the given context: a key
    of the context has the context's value, any other key has the
    body's value, and the keys of the body keep their places. *)
Theorem merged_context_prefers_context (body context : list (string * json)) :
  List.NoDup (map fst context) ->
  exists merged,
    MiddlewareV3.merge_context (JObj body) context = Ok (JObj merged) /\
    (forall k, assoc k merged = match assoc k context with
                                | Some v => Some v
                                | None => assoc k body
                                end) /\
    exists added, map fst merged = map fst body ++ added.
Proof.
  intros Hnodup. exists (dict_update body context).
  split; [reflexivity |]. split.
  - intros k. apply assoc_dict_update. exact Hnodup.
  - apply keys_dict_update.
Qed.

Lemma merged_context_witness :
  List.NoDup (map fst [("amount_cents", JNum 50); ("currency", JStr "USD")]) /\
  MiddlewareV3.merge_context
    (JObj [("amount_cents", JNum 150000); ("order", JStr "o1")])
    [("amount_cents", JNum 50); ("currency", JStr "USD")]
  = Ok (JObj [("amount_cents", JNum 50); ("order", JStr "o1"); ("currency", JStr "USD")]) /\
  exists merged,
    MiddlewareV3.merge_context
      (JObj [("amount_cents", JNum 150000); ("order", JStr "o1")])
      [("amount_cents", JNum 50); ("currency", JStr "USD")] = Ok (JObj merged) /\
    assoc "amount_cents" merged = Some (JNum 50).
Proof.
  assert (Hnodup : List.NoDup (map fst [("amount_cents", JNum 50);
                                        ("currency", JStr "USD")])).
  { repeat constructor; simpl; intuition discriminate. }
  split; [exact Hnodup |]. split; [reflexivity |].
  destruct (merged_context_prefers_context
              [("amount_cents", JNum 150000); ("order", JStr "o1")]
              [("amount_cents", JNum 50); ("currency", JStr "USD")] Hnodup)
    as (merged & Hmerge & Hlookup & _).
  exists merged. split; [exact Hmerge |]. exact (Hlookup "amount_cents").
Defined.

(** Property X23.  [require_policy_with_context] of [middleware_v3] merges the context
    after the passport is verified and before anything is asked about
    the policy.  With a JSON body that is an object, the first question
    to the directory carries the merged context.  With a JSON body that
    is no object (a list, a number, a string), the merge raises
    [TypeError] and the caller receives the 500
    [policy_middleware_error] that names it, with no question about the
    policy asked. *)
Theorem v3_require_policy_with_context_merges_first
        E S policy_id context agent_id request call_next
        validated_agent_id validated_policy_id final_agent_id agent w :
  validate_policy_call S agent_id policy_id = Ok (validated_agent_id, validated_policy_id) ->
  validate_agent_id_present S validated_agent_id request = Ok final_agent_id ->
  client_verify_agent_passport S final_agent_id = Ok agent ->
  let run := MiddlewareV3.require_policy_with_context
               E S policy_id context agent_id request call_next w in
  let verified := record_event w (EvVerifyPassport final_agent_id) in
  (forall fields,
      MiddlewareV3.request_body request = JObj fields ->
      has_policy_access S final_agent_id validated_policy_id
        (JObj (dict_update fields context)) = Ok false ->
      run = (Raise (policy_access_denied_403 final_agent_id validated_policy_id),
             record_event verified
               (EvHasPolicyAccess final_agent_id validated_policy_id
                  (JObj (dict_update fields context))))) /\
  (is_object (MiddlewareV3.request_body request) = false ->
   run = (Raise (policy_middleware_error_500
                   ("'" +:+ type_name (MiddlewareV3.request_body request)
                    +:+ "' object is not a mapping")),
          verified)).
Proof.
  intros Hcall Hpresent Hverify. cbv zeta.
  unfold MiddlewareV3.require_policy_with_context,
         MiddlewareV3.require_policy_with_context_body, MiddlewareV3.enforce_policy.
  unfold_m. rewrite Hcall. simpl. rewrite Hpresent. simpl. rewrite Hverify. simpl.
  change (MiddlewareV3.request_body (set_agent request agent))
    with (MiddlewareV3.request_body request).
  split.
  - intros fields Hbody Haccess. rewrite Hbody. simpl. rewrite Haccess. reflexivity.
  - intros Hobj. destruct (MiddlewareV3.request_body request); try reflexivity.
    discriminate Hobj.
Qed.

Lemma v3_require_policy_with_context_witness :
  is_object (MiddlewareV3.request_body list_body_request) = false /\
  MiddlewareV3.require_policy_with_context demo_env denying_sdk refund_policy
    [("amount_cents", JNum 50)] (Some "ap_123") list_body_request ok_handler initial_world
  = (Raise (HTTPException 500
              (JObj [("error", JStr "policy_middleware_error");
                     ("message",
                      JStr "Policy middleware error: 'list' object is not a mapping")])),
     record_event initial_world (EvVerifyPassport "ap_123")).
Proof.
  split; [reflexivity |].
  exact (proj2 (v3_require_policy_with_context_merges_first
                  demo_env denying_sdk refund_policy [("amount_cents", JNum 50)]
                  (Some "ap_123") list_body_request ok_handler
                  (Some "ap_123") refund_policy "ap_123" demo_agent initial_world
                  eq_refl eq_refl eq_refl) eq_refl).
Defined.

(** Property X20.  The successful runs of [middleware_v3]'s [dispatch], for a request
    that is not skipped and names an agent whose passport is verified.
    Without a configured [policy_id] the handler receives the request
    with the passport attached and nothing is asked about any policy.
    With a configured policy, when the agent has access, the policy
    exists and the verification allows, the directory is asked in that
    order and the handler receives the request with the passport and an
    allowed policy result attached. *)
Theorem v3_dispatch_attaches_passport_and_policy_result
        E S options request call_next agent_id agent w :
  MiddlewareV3._should_skip_verification options request = false ->
  extract_agent_id_from_request S request = Ok (Some agent_id) ->
  agent_id <> "" ->
  verify_agent_passport S agent_id = Ok agent ->
  let verified := record_event w (EvVerifyPassport agent_id) in
  let body := MiddlewareV3.request_body request in
  (str_truthy (policy_id options) = false ->
   forall response,
     call_next (set_agent request agent) = Ok response ->
     MiddlewareV3.dispatch E S options request call_next w
       = (Ok response, record_event verified (EvCallNext (set_agent request agent)))) /\
  (forall policy policy_info fields extracted response,
      policy_id options = Some policy ->
      policy <> "" ->
      has_policy_access S agent_id policy body = Ok true ->
      get_policy S policy = Ok policy_info ->
      truthy policy_info = true ->
      verify_policy S agent_id policy body = Ok (JObj fields) ->
      truthy (dict_get fields "allowed" (JBool false)) = true ->
      get_policy_result S (JObj fields) = Ok extracted ->
      let request' := set_policy_result_v3 (set_agent request agent)
                                           (allowed_policy_result extracted) in
      call_next request' = Ok response ->
      MiddlewareV3.dispatch E S options request call_next w
        = (Ok response,
           record_events verified
             [EvHasPolicyAccess agent_id policy body; EvGetPolicy policy;
              EvVerifyPolicy agent_id policy body; EvCallNext request'])).
Proof.
  intros Hskip Hextract Hne Hverify. cbv zeta.
  unfold MiddlewareV3.dispatch, MiddlewareV3.dispatch_body.
  rewrite Hskip. unfold_m. rewrite Hextract.
  destruct agent_id as [| c s]; [contradiction |]. simpl.
  rewrite Hverify. simpl. split.
  - intros Hnone response Hnext.
    destruct (policy_id options) as [[| c' s'] |]; try discriminate Hnone;
      rewrite Hnext; reflexivity.
  - intros policy policy_info fields extracted response Hpolicy Hpne Haccess Hinfo
           Htruthy Hresult Hallowed Hextracted Hnext.
    rewrite Hpolicy. destruct policy as [| c' s']; [contradiction |].
    unfold MiddlewareV3._run_enforcement_checks, MiddlewareV3.enforce_policy.
    unfold_m. simpl.
    change (MiddlewareV3.request_body (set_agent request agent))
      with (MiddlewareV3.request_body request).
    rewrite Haccess. simpl. rewrite Hinfo. simpl. rewrite Htruthy. simpl.
    rewrite Hresult. simpl. rewrite Hallowed. simpl. rewrite Hextracted. simpl.
    unfold allowed_policy_result in Hnext. simpl in Hnext. rewrite Hnext.
    unfold record_events. simpl. rewrite <- !app_assoc. reflexivity.
Qed.

Lemma v3_dispatch_attaches_witness :
  let S := demo_sdk allow allow internal_failure in
  let options := demo_options true [] in
  str_truthy (policy_id options) = false /\
  MiddlewareV3.dispatch demo_env S options agent_request ok_handler initial_world
    = (Ok (JSONResponse 200 (JObj [("ok", JBool true)])),
       record_event (record_event initial_world (EvVerifyPassport "ap_123"))
                    (EvCallNext (set_agent agent_request demo_agent))).
Proof.
  intros S options.
  assert (Hne : "ap_123" <> "") by discriminate.
  split; [reflexivity |].
  exact (proj1 (v3_dispatch_attaches_passport_and_policy_result
                  demo_env S options agent_request ok_handler "ap_123" demo_agent
                  initial_world eq_refl eq_refl Hne eq_refl)
           eq_refl _ eq_refl).
Defined.

(** ** The global middleware of [policy_enforcement_v2] *)

(** Property X13.  [agent_passport_middleware] enforces a policy only when one is
    named.  A request without [policy_id] in its state and without a
    non-empty [x-policy-id] header goes to the handler untouched,
    whatever the configuration.  A request whose state names the policy
    is handled by the middleware of [create_agent_passport_middleware];
    in particular a [policy_id] set to the empty string, with no header,
    is refused with the 400 [policy_id_required]. *)
Theorem global_middleware_applies_when_policy_is_named
        E agent_id config request call_next w :
  (st_policy_id (req_state request) = None ->
   str_truthy (header request "x-policy-id") = false ->
   PolicyEnforcementV2.agent_passport_middleware E agent_id config request call_next w
     = (call_next request, record_event w (EvCallNext request))) /\
  (forall policy_id,
      st_policy_id (req_state request) = Some policy_id ->
      PolicyEnforcementV2.agent_passport_middleware E agent_id config request call_next w
        = PolicyEnforcementV2.create_agent_passport_middleware
            E agent_id config request call_next w) /\
  (st_policy_id (req_state request) = Some "" ->
   str_truthy (header request "x-policy-id") = false ->
   (forall config', config = Some config' -> PolicyEnforcementV2.enabled config' = true) ->
   PolicyEnforcementV2.agent_passport_middleware E agent_id config request call_next w
     = (Raise policy_id_required_400, w)).
Proof.
  unfold PolicyEnforcementV2.agent_passport_middleware. split; [| split].
  - intros -> ->. unfold_m. simpl. destruct (call_next request); reflexivity.
  - intros policy_id ->. reflexivity.
  - intros Hstate Hheader Henabled. rewrite Hstate. simpl.
    unfold PolicyEnforcementV2.create_agent_passport_middleware,
           PolicyEnforcementV2.middleware.
    assert (He : PolicyEnforcementV2.enabled
                   match config with
                   | Some c => c
                   | None => PolicyEnforcementV2.default_config
                   end = true).
    { destruct config as [c |]; [apply (Henabled c eq_refl) | reflexivity]. }
    rewrite He. simpl.
    unfold PolicyEnforcementV2.request_policy_id, or_else. rewrite Hstate. simpl.
    destruct (header request "x-policy-id") as [[| c s] |]; try reflexivity.
    discriminate Hheader.
Qed.

Lemma global_middleware_witness :
  st_policy_id (req_state anonymous_request) = None /\
  str_truthy (header anonymous_request "x-policy-id") = false /\
  PolicyEnforcementV2.agent_passport_middleware demo_env "ap_123" None
    anonymous_request ok_handler initial_world
    = (ok_handler anonymous_request,
       record_event initial_world (EvCallNext anonymous_request)) /\
  PolicyEnforcementV2.agent_passport_middleware demo_env "ap_123" None
    (set_policy_id anonymous_request "") ok_handler initial_world
    = (Raise policy_id_required_400, initial_world).
Proof.
  destruct (global_middleware_applies_when_policy_is_named demo_env "ap_123" None
              anonymous_request ok_handler initial_world) as (Hnone & _ & _).
  destruct (global_middleware_applies_when_policy_is_named demo_env "ap_123" None
              (set_policy_id anonymous_request "") ok_handler initial_world)
    as (_ & _ & Hempty).
  split; [reflexivity |]. split; [reflexivity |].
  split; [exact (Hnone eq_refl eq_refl) |].
  apply (Hempty eq_refl eq_refl). intros config' H. discriminate H.
Defined.
